(** * Fund onboarding pipeline: confidence scoring, research cache,
      categorization models and chat orchestrator

    A shallow embedding of the parts of the repository that the
    specification talks about, with the properties of the specification
    stated and settled against it.

    Conventions of the embedding.
    - Python [float] values are exact rationals ([Q]); every constant is
      the decimal written in the source ([0.05] is [5/100]), and the
      rounding of float arithmetic is left out: an equation between a
      constant and a value that the code reaches by float arithmetic
      holds up to that rounding.
    - [datetime] values are integers ([Z], a count of clock ticks);
      an operation that reads [datetime.now()] takes the reading as an
      argument [now].
    - A [dict] whose iteration order is observable is an association list
      in insertion order; the SQLite table is a finite map keyed by its
      primary key.
    - An [async] generator is the list of the messages it yields, each
      paired with the conversation stage at the moment of the [yield],
      and the way it ends (normally, or by an exception). *)

From Stdlib Require Import Ascii String QArith Qminmax Lqa ZArith Lia.
From stdpp Require Import base list strings gmap.

(** ** Python primitives used by the embedded code *)

Module Py.

Local Open Scope Q_scope.

Definition Qlt_bool (a b : Q) : bool := negb (Qle_bool b a).

(** [min(a, b)]: the first argument unless the second is smaller. *)
Definition min (a b : Q) : Q := if Qlt_bool b a then b else a.

(** [max(a, b)]: the first argument unless the second is larger. *)
Definition max (a b : Q) : Q := if Qlt_bool a b then b else a.

(** [len(xs)] as a float. *)
Definition len {A} (xs : list A) : Q := inject_Z (Z.of_nat (length xs)).

Definition is_upper (c : ascii) : bool :=
  (65 <=? nat_of_ascii c)%nat && (nat_of_ascii c <=? 90)%nat.

Definition lower_ascii (c : ascii) : ascii :=
  if is_upper c then ascii_of_nat (nat_of_ascii c + 32) else c.

(** [s.lower()] on the ASCII range. *)
Fixpoint lower (s : string) : string :=
  match s with
  | EmptyString => EmptyString
  | String c t => String (lower_ascii c) (lower t)
  end.

(** [needle in hay] for strings. *)
Fixpoint contains (needle hay : string) : bool :=
  String.prefix needle hay ||
  match hay with
  | EmptyString => false
  | String _ t => contains needle t
  end.

(** [any(w in s for w in words)]. *)
Definition any_in (words : list string) (s : string) : bool :=
  existsb (fun w => contains w s) words.

(** Truthiness of an optional string: [None] and [""] are falsy. *)
Definition truthy (o : option string) : bool :=
  match o with
  | Some s => negb (String.eqb s "")
  | None => false
  end.

Lemma Qlt_bool_true a b : Qlt_bool a b = true <-> a < b.
Proof.
  unfold Qlt_bool. rewrite negb_true_iff.
  destruct (Qle_bool b a) eqn:E.
  - apply Qle_bool_iff in E. split; [discriminate | intros H; lra].
  - split; [intros _ | reflexivity].
    destruct (Qlt_le_dec a b) as [H | H]; [exact H |].
    apply Qle_bool_iff in H. congruence.
Qed.

Lemma Qlt_bool_false a b : Qlt_bool a b = false <-> b <= a.
Proof.
  destruct (Qlt_bool a b) eqn:E.
  - apply Qlt_bool_true in E. split; [discriminate | intros H; lra].
  - split; [intros _ | reflexivity].
    destruct (Qlt_le_dec a b) as [H | H]; [| exact H].
    apply Qlt_bool_true in H. congruence.
Qed.

Lemma min_spec a b : (b < a /\ min a b = b) \/ (a <= b /\ min a b = a).
Proof.
  unfold min. destruct (Qlt_bool b a) eqn:E.
  - left. apply Qlt_bool_true in E. auto.
  - right. apply Qlt_bool_false in E. auto.
Qed.

Lemma max_spec a b : (a < b /\ max a b = b) \/ (b <= a /\ max a b = a).
Proof.
  unfold max. destruct (Qlt_bool a b) eqn:E.
  - left. apply Qlt_bool_true in E. auto.
  - right. apply Qlt_bool_false in E. auto.
Qed.

Lemma min_le_l a b : min a b <= a.
Proof. destruct (min_spec a b) as [[H ->] | [H ->]]; lra. Qed.

Lemma min_le_r a b : min a b <= b.
Proof. destruct (min_spec a b) as [[H ->] | [H ->]]; lra. Qed.

Lemma min_glb a b c : c <= a -> c <= b -> c <= min a b.
Proof. intros. destruct (min_spec a b) as [[H' ->] | [H' ->]]; lra. Qed.

Lemma max_ge_l a b : a <= max a b.
Proof. destruct (max_spec a b) as [[H ->] | [H ->]]; lra. Qed.

Lemma max_ge_r a b : b <= max a b.
Proof. destruct (max_spec a b) as [[H ->] | [H ->]]; lra. Qed.

Lemma max_lub a b c : a <= c -> b <= c -> max a b <= c.
Proof. intros. destruct (max_spec a b) as [[H' ->] | [H' ->]]; lra. Qed.

End Py.

(** ** Confidence scoring (backend/services/confidence_scoring.py) *)

Module ConfidenceScoring.

Local Open Scope Q_scope.

(** The dataclass [ConfidenceFactors]; every field defaults to [0.0]. *)
Record ConfidenceFactors := mkConfidenceFactors {
  source_reliability : Q;
  source_diversity : Q;
  data_freshness : Q;
  pattern_match_score : Q;
  pattern_specificity : Q;
  method_agreement : Q;
  historical_accuracy : Q;
  data_completeness : Q;
  data_consistency : Q;
  domain_specificity : Q;
  contextual_coherence : Q
}.

Definition default_factors : ConfidenceFactors :=
  mkConfidenceFactors 0 0 0 0 0 0 0 0 0 0 0.

(** The weight table built when [weights is None], in insertion order. *)
Definition default_weights : list (string * Q) :=
  [ ("source_reliability", 0.20);
    ("source_diversity", 0.10);
    ("data_freshness", 0.05);
    ("pattern_match_score", 0.15);
    ("pattern_specificity", 0.10);
    ("method_agreement", 0.15);
    ("historical_accuracy", 0.10);
    ("data_completeness", 0.10);
    ("data_consistency", 0.10);
    ("domain_specificity", 0.15);
    ("contextual_coherence", 0.10) ].

(** The float attributes of a [ConfidenceFactors] object by name. *)
Definition factor_fields : list (string * (ConfidenceFactors -> Q)) :=
  [ ("source_reliability", source_reliability);
    ("source_diversity", source_diversity);
    ("data_freshness", data_freshness);
    ("pattern_match_score", pattern_match_score);
    ("pattern_specificity", pattern_specificity);
    ("method_agreement", method_agreement);
    ("historical_accuracy", historical_accuracy);
    ("data_completeness", data_completeness);
    ("data_consistency", data_consistency);
    ("domain_specificity", domain_specificity);
    ("contextual_coherence", contextual_coherence) ].

Fixpoint assoc {A} (k : string) (l : list (string * A)) : option A :=
  match l with
  | [] => None
  | (k', v) :: t => if String.eqb k k' then Some v else assoc k t
  end.

(** [hasattr(self, name)] is false: the name is none of the eleven
    fields, nor the method [get_weighted_score], nor one of the
    attributes that every object has, whose names begin with two
    underscores. *)
Definition no_attribute (name : string) : bool :=
  match assoc name factor_fields with
  | Some _ => false
  | None => negb (String.eqb name "get_weighted_score") && negb (String.prefix "__" name)
  end.

(** [getattr(self, factor)] guarded by [hasattr(self, factor)], for the
    names of the fields and for the names that are no attribute at all:
    the latter contribute nothing. The name of another attribute (the
    method, [__doc__], ...) passes the guard in the code, and the
    product of the attribute and the weight raises a [TypeError]; the
    default table holds no such name. *)
Definition getattr (self : ConfidenceFactors) (factor : string) : option Q :=
  match assoc factor factor_fields with
  | Some proj => Some (proj self)
  | None => None
  end.

(** One iteration of the loop over [weights.items()], on the pair
    [(score, total_weight)]. *)
Definition weigh (self : ConfidenceFactors) (acc : Q * Q) (item : string * Q) : Q * Q :=
  match getattr self (fst item) with
  | Some factor_value => (fst acc + factor_value * snd item, snd acc + snd item)
  | None => acc
  end.

Definition get_weighted_score (self : ConfidenceFactors)
    (weights : option (list (string * Q))) : Q :=
  let weights := match weights with Some w => w | None => default_weights end in
  let acc := fold_left (weigh self) weights (0, 0) in
  if Py.Qlt_bool 0 (snd acc) then fst acc / snd acc else 0.

(** The part of a [classification_data] dict that the scorer reads; [None]
    is an absent key. [alternative_classifications] keeps the
    ["asset_class"] entry of each alternative. *)
Record classification_data := mkClassificationData {
  cd_ticker : option string;
  cd_fund_name : option string;
  cd_asset_class : option string;
  cd_classification_method : option string;
  cd_reasoning : option string;
  cd_equity_region : option string;
  cd_equity_style : option string;
  cd_equity_size : option string;
  cd_fixed_income_type : option string;
  cd_fixed_income_duration : option string;
  cd_alternative_classifications : list (option string)
}.

Record data_point := mkDataPoint {
  dp_value : option string;
  dp_confidence : option Q;
  dp_extraction_timestamp : option string
}.

(** The part of a [research_data] dict that the scorer reads. *)
Record research_data := mkResearchData {
  research_sources : option (list string);
  data_points : list (string * data_point)
}.

(** [research_data or {}]. *)
Definition or_empty (research : option research_data) : research_data :=
  match research with
  | Some r => r
  | None => mkResearchData None []
  end.

Definition get_str (o : option string) (default : string) : string :=
  match o with Some s => s | None => default end.

(** The bucket a source falls in: the chain of [if]/[elif] of the loop
    body of [_assess_source_diversity]. *)
Definition source_type_of (source : string) : string :=
  let source_lower := Py.lower source in
  if Py.any_in ["morningstar"; "yahoo"; "bloomberg"] source_lower then "financial_data"
  else if Py.any_in ["sec.gov"; "regulatory"] source_lower then "regulatory"
  else if Py.any_in ["vanguard"; "ishares"; "fidelity"] source_lower then "fund_company"
  else if Py.any_in ["news"; "reuters"; "wsj"] source_lower then "news"
  else "general".

(** The set [source_types] after the loop over [sources]. *)
Definition source_types (sources : list string) : gset string :=
  fold_left (fun acc source => acc ∪ {[ source_type_of source ]}) sources ∅.

Definition _assess_source_diversity (research : research_data) : Q :=
  let sources := match research_sources research with Some l => l | None => [] end in
  if (length sources <=? 1)%nat then
    (if (length sources =? 0)%nat then 0.0 else 0.3)
  else
    let diversity_score := inject_Z (Z.of_nat (size (source_types sources))) / 5.0 in
    let total_sources_bonus := Py.min 0.2 ((Py.len sources - 1) * 0.05) in
    Py.min 1.0 (diversity_score + total_sources_bonus).

Definition _get_method_confidence_bonus (cd : classification_data) : Q :=
  let method := get_str (cd_classification_method cd) "" in
  match assoc method
          [ ("known_fund", 0.1); ("morningstar", 0.05);
            ("rule_based", 0.0); ("research_based", -0.05) ] with
  | Some bonus => bonus
  | None => 0.0
  end.

Definition _calculate_consistency_penalty (cd : classification_data) : Q :=
  let penalty := 0.0 in
  let asset_class := get_str (cd_asset_class cd) "" in
  let fund_name := Py.lower (get_str (cd_fund_name cd) "") in
  let penalty :=
    if String.eqb asset_class "Fixed Income"
       && Py.any_in ["equity"; "stock"; "shares"] fund_name
    then penalty + 0.2
    else if String.eqb asset_class "Equity"
            && Py.any_in ["bond"; "treasury"; "fixed income"] fund_name
    then penalty + 0.2
    else penalty in
  if String.eqb asset_class "Equity" then
    let region := cd_equity_region cd in
    if (match region with Some r => String.eqb r "US" | None => false end)
       && Py.any_in ["international"; "foreign"; "global"] fund_name
    then penalty + 0.1
    else if (match region with Some r => String.eqb r "International" | None => false end)
            && Py.contains "us " fund_name
    then penalty + 0.1
    else penalty
  else penalty.

(** The scorer. The ten assessors other than [_assess_source_diversity]
    are taken as the functions they are called as: nothing below depends
    on what they compute. *)
Section Scorer.

Variable _assess_source_reliability : research_data -> Q.
Variable _assess_data_freshness : research_data -> Q.
Variable _assess_pattern_strength : classification_data -> Q.
Variable _assess_pattern_specificity : classification_data -> Q.
Variable _assess_method_agreement : classification_data -> Q.
Variable _assess_historical_accuracy : classification_data -> Q.
Variable _assess_data_completeness : classification_data -> research_data -> Q.
Variable _assess_data_consistency : classification_data -> research_data -> Q.
Variable _assess_domain_specificity : classification_data -> Q.
Variable _assess_contextual_coherence : classification_data -> Q.

Definition assess_factors (cd : classification_data)
    (research : option research_data) : ConfidenceFactors :=
  {| source_reliability := _assess_source_reliability (or_empty research);
     source_diversity := _assess_source_diversity (or_empty research);
     data_freshness := _assess_data_freshness (or_empty research);
     pattern_match_score := _assess_pattern_strength cd;
     pattern_specificity := _assess_pattern_specificity cd;
     method_agreement := _assess_method_agreement cd;
     historical_accuracy := _assess_historical_accuracy cd;
     data_completeness := _assess_data_completeness cd (or_empty research);
     data_consistency := _assess_data_consistency cd (or_empty research);
     domain_specificity := _assess_domain_specificity cd;
     contextual_coherence := _assess_contextual_coherence cd |}.

Definition calculate_classification_confidence (cd : classification_data)
    (research validation : option research_data) : Q * ConfidenceFactors :=
  let factors := assess_factors cd research in
  let confidence_score := get_weighted_score factors None in
  let method_bonus := _get_method_confidence_bonus cd in
  let confidence_score := Py.min 1.0 (confidence_score * (1.0 + method_bonus)) in
  let consistency_penalty := _calculate_consistency_penalty cd in
  let confidence_score := Py.max 0.0 (confidence_score - consistency_penalty) in
  (confidence_score, factors).

End Scorer.

(** Every field of a factor vector lies in [[0,1]]. *)
Definition factors_in_unit (f : ConfidenceFactors) : Prop :=
  Forall (fun p => 0 <= snd p f <= 1) factor_fields.

Definition all_zero : ConfidenceFactors := mkConfidenceFactors 0 0 0 0 0 0 0 0 0 0 0.
Definition all_one : ConfidenceFactors := mkConfidenceFactors 1 1 1 1 1 1 1 1 1 1 1.

(** *** The assessors that read the classification and the sources *)

(** The tables of [ConfidenceScorer.__init__], in insertion order. *)
Definition historical_accuracy_table : list (string * Q) :=
  [ ("rule_based", 0.85); ("known_fund", 0.98); ("morningstar", 0.92);
    ("research_based", 0.78); ("pattern_matching", 0.65) ].

Definition source_reliability_table : list (string * Q) :=
  [ ("morningstar.com", 0.95); ("vanguard.com", 0.98); ("ishares.com", 0.98);
    ("sec.gov", 0.99); ("yahoo.finance", 0.75); ("google.com", 0.40);
    ("wikipedia.org", 0.30); ("tavily", 0.70); ("serper", 0.65); ("duckduckgo", 0.50) ].

(** [sum(1 for field in fields if classification_data.get(field))]. *)
Definition count_filled (fields : list (option string)) : nat :=
  length (List.filter Py.truthy fields).

(** [np.mean] of a list that is not empty. *)
Definition mean (xs : list Q) : Q :=
  fold_right Qplus 0 xs / Py.len xs.

(** The rating of one source: the first domain of the table found in
    it, [0.5] when there is none. *)
Fixpoint rating_of (table : list (string * Q)) (source_lower : string) : Q :=
  match table with
  | [] => 0.5
  | (domain, rating) :: rest =>
      if Py.contains domain source_lower then rating else rating_of rest source_lower
  end.

Definition _assess_source_reliability (research : research_data) : Q :=
  let sources := match research_sources research with Some l => l | None => [] end in
  match sources with
  | [] => 0.3
  | _ =>
      let reliabilities :=
        map (fun source => rating_of source_reliability_table (Py.lower source)) sources in
      let avg_reliability := mean reliabilities in
      let source_diversity_bonus := Py.min 0.1 (Py.len sources * 0.02) in
      Py.min 1.0 (avg_reliability + source_diversity_bonus)
  end.

Definition _assess_pattern_specificity (cd : classification_data) : Q :=
  let asset_class := get_str (cd_asset_class cd) "" in
  let sub_categories :=
    count_filled [ cd_equity_region cd; cd_equity_style cd; cd_equity_size cd;
                   cd_fixed_income_type cd; cd_fixed_income_duration cd ] in
  let asset_class_specificity :=
    match assoc asset_class
            [ ("Equity", 0.7); ("Fixed Income", 0.7); ("Cash", 0.9);
              ("Alternatives", 0.6) ] with
    | Some x => x
    | None => 0.3
    end in
  let sub_category_bonus := Py.min 0.3 (inject_Z (Z.of_nat sub_categories) * 0.1) in
  Py.min 1.0 (asset_class_specificity + sub_category_bonus).

(** [alt.get("asset_class") == primary_asset_class]; both sides are
    [None] when the key is absent. *)
Definition same_class (primary alt : option string) : bool :=
  match primary, alt with
  | Some a, Some b => String.eqb a b
  | None, None => true
  | _, _ => false
  end.

Definition _assess_method_agreement (cd : classification_data) : Q :=
  let alternatives := cd_alternative_classifications cd in
  match alternatives with
  | [] => 0.5
  | _ =>
      let primary_asset_class := cd_asset_class cd in
      let agreements := length (List.filter (same_class primary_asset_class) alternatives) in
      let total_alternatives := length alternatives in
      let agreement_ratio :=
        if (0 <? total_alternatives)%nat
        then inject_Z (Z.of_nat agreements) / inject_Z (Z.of_nat total_alternatives)
        else 0.5 in
      let consensus_bonus :=
        if Qle_bool 0.8 agreement_ratio then 0.2
        else if Qle_bool 0.6 agreement_ratio then 0.1
        else 0.0 in
      Py.min 1.0 (agreement_ratio + consensus_bonus)
  end.

Definition _assess_historical_accuracy (cd : classification_data) : Q :=
  let method := get_str (cd_classification_method cd) "unknown" in
  match assoc method historical_accuracy_table with
  | Some x => x
  | None => 0.5
  end.

Definition _assess_subcategory_completeness (cd : classification_data) : Q :=
  let asset_class := get_str (cd_asset_class cd) "" in
  if String.eqb asset_class "Equity" then
    inject_Z (Z.of_nat (count_filled [cd_equity_region cd; cd_equity_style cd;
                                      cd_equity_size cd])) / 3
  else if String.eqb asset_class "Fixed Income" then
    inject_Z (Z.of_nat (count_filled [cd_fixed_income_type cd;
                                      cd_fixed_income_duration cd])) / 2
  else 1.0.

(** [field in data_points]. *)
Definition has_data_point (research : research_data) (field : string) : bool :=
  existsb (fun p => String.eqb field (fst p)) (data_points research).

Definition _assess_data_completeness (cd : classification_data) (research : research_data)
  : Q :=
  let filled_important :=
    count_filled [ cd_asset_class cd; cd_ticker cd; cd_fund_name cd;
                   cd_classification_method cd; cd_reasoning cd ] in
  let completeness_core := inject_Z (Z.of_nat filled_important) / 5 in
  let filled_research :=
    length (List.filter (has_data_point research)
              ["morningstar_category"; "expense_ratio"; "holdings_text"]) in
  let completeness_research := inject_Z (Z.of_nat filled_research) / 3 in
  let sub_completeness := _assess_subcategory_completeness cd in
  let overall_completeness :=
    completeness_core * 0.5 + completeness_research * 0.3 + sub_completeness * 0.2 in
  Py.min 1.0 overall_completeness.

Definition _assess_domain_specificity (cd : classification_data) : Q :=
  let fund_name := Py.lower (get_str (cd_fund_name cd) "") in
  let domain_score := 0.5 in
  let domain_score :=
    if Py.any_in ["vanguard"; "ishares"; "fidelity"; "schwab"] fund_name
    then domain_score + 0.1 else domain_score in
  let domain_score :=
    if Py.any_in ["etf"; "index"; "mutual fund"; "trust"] fund_name
    then domain_score + 0.1 else domain_score in
  let domain_score :=
    if Py.any_in ["total market"; "s&p 500"; "russell"; "msci"] fund_name
    then domain_score + 0.1 else domain_score in
  let domain_score :=
    if Py.any_in ["international"; "emerging"; "global"; "europe"; "asia"] fund_name
    then domain_score + 0.1 else domain_score in
  let domain_score :=
    if Py.any_in ["value"; "growth"; "dividend"; "small cap"; "large cap"] fund_name
    then domain_score + 0.1 else domain_score in
  Py.min 1.0 domain_score.

(** [d.get(k) == "literal"]. *)
Definition is_str (o : option string) (s : string) : bool :=
  match o with
  | Some x => String.eqb x s
  | None => false
  end.

Definition _assess_contextual_coherence (cd : classification_data) : Q :=
  let asset_class := get_str (cd_asset_class cd) "" in
  let region := if String.eqb asset_class "Equity" then cd_equity_region cd else None in
  let type := if String.eqb asset_class "Equity" then None
              else if String.eqb asset_class "Fixed Income" then cd_fixed_income_type cd
              else None in
  let coherence_score := 0.7 in
  let coherence_score :=
    if String.eqb asset_class "Equity" && is_str region "US"
    then coherence_score + 0.1 else coherence_score in
  let coherence_score :=
    if String.eqb asset_class "Fixed Income" && is_str type "Government"
    then coherence_score + 0.1 else coherence_score in
  let fund_name := Py.lower (get_str (cd_fund_name cd) "") in
  let coherence_score :=
    if String.eqb asset_class "Equity" && Py.contains "bond" fund_name
    then coherence_score - 0.3
    else if String.eqb asset_class "Fixed Income"
            && Py.any_in ["equity"; "stock"] fund_name
    then coherence_score - 0.3
    else coherence_score in
  Py.max 0.0 (Py.min 1.0 coherence_score).

End ConfidenceScoring.

(** ** Research cache (backend/services/research_cache.py)

    A cached value is its pickled form, a byte string, and its size is
    the length of that string; a caller of [get] is handed the object
    again, which is [None] for the pickle of [None] and for no other.

    [cache_entries] is the table of the database as it is committed.
    The statements of [set], [get], [_cleanup_expired] and
    [delete_by_tags] run inside [with self._get_db_connection() as conn],
    and that context manager closes the connection without [commit()]
    (the class never calls it and leaves [isolation_level] alone): an
    INSERT, UPDATE or DELETE is seen by the rest of its block and is
    rolled back when the block ends. [__init__] creates the table when it
    is missing, so a cache made by [init] has an empty table and keeps
    it empty. The statements do not fail.

    The clock is read once in a call: [now] stands for every
    [datetime.now()] of the call and of the calls it makes. *)

Module ResearchCache.

Local Open Scope Z_scope.

(** The dataclass [CacheEntry]; a row of [cache_entries] has the same
    columns. *)
Record CacheEntry := mkCacheEntry {
  key : string;
  value : string;
  created_at : Z;
  expires_at : Z;
  access_count : Z;
  last_accessed : Z;
  tags : list string;
  size_bytes : Z
}.

(** [is_expired]: [datetime.now() > self.expires_at]. *)
Definition is_expired (e : CacheEntry) (now : Z) : bool := expires_at e <? now.

Record Stats := mkStats {
  hits : Z;
  misses : Z;
  memory_hits : Z;
  disk_hits : Z;
  evictions : Z;
  cleanups : Z
}.

Record ResearchDataCache := mkCache {
  max_memory_size : Z;
  max_disk_size : Z;
  default_ttl : Z;
  memory_cache : list (string * CacheEntry);
  memory_size : Z;
  cache_entries : gmap string CacheEntry;
  stats : Stats
}.

(** [__init__] with an empty table. *)
Definition init (max_memory_size max_disk_size default_ttl : Z) : ResearchDataCache :=
  mkCache max_memory_size max_disk_size default_ttl [] 0 ∅ (mkStats 0 0 0 0 0 0).

Definition with_memory (c : ResearchDataCache)
    (m : list (string * CacheEntry)) (size : Z) : ResearchDataCache :=
  mkCache (max_memory_size c) (max_disk_size c) (default_ttl c) m size
          (cache_entries c) (stats c).

Definition with_table (c : ResearchDataCache)
    (t : gmap string CacheEntry) : ResearchDataCache :=
  mkCache (max_memory_size c) (max_disk_size c) (default_ttl c)
          (memory_cache c) (memory_size c) t (stats c).

Definition with_stats (c : ResearchDataCache) (s : Stats) : ResearchDataCache :=
  mkCache (max_memory_size c) (max_disk_size c) (default_ttl c)
          (memory_cache c) (memory_size c) (cache_entries c) s.

(** *** The dict [memory_cache], in insertion order *)

Fixpoint dict_get (k : string) (d : list (string * CacheEntry)) : option CacheEntry :=
  match d with
  | [] => None
  | (k', e) :: t => if String.eqb k k' then Some e else dict_get k t
  end.

(** [d[k] = e]: an existing key keeps its place, a new key goes last. *)
Fixpoint dict_set (k : string) (e : CacheEntry) (d : list (string * CacheEntry))
  : list (string * CacheEntry) :=
  match d with
  | [] => [(k, e)]
  | (k', e') :: t =>
      if String.eqb k k' then (k, e) :: t else (k', e') :: dict_set k e t
  end.

(** [del d[k]]. *)
Fixpoint dict_del (k : string) (d : list (string * CacheEntry))
  : list (string * CacheEntry) :=
  match d with
  | [] => []
  | (k', e') :: t => if String.eqb k k' then t else (k', e') :: dict_del k t
  end.

(** [pickle.dumps(None, protocol=pickle.HIGHEST_PROTOCOL)], protocol 5:
    the bytes 80 05 4E 2E. *)
Definition pickled_None : string :=
  String (ascii_of_nat 128) (String (ascii_of_nat 5) "N.").

(** [_deserialize_value], and the object held by an entry of the memory
    tier, as far as a caller can tell it from the [None] of a miss. *)
Definition _deserialize_value (bytes : string) : option string :=
  if String.eqb bytes pickled_None then None else Some bytes.

(** [_get_db_connection]: the block of the [with] statement runs on the
    table and the connection is closed; nothing is committed, so the
    table the block leaves is dropped and what the block computed is
    kept. *)
Definition _get_db_connection {A : Type} (c : ResearchDataCache)
    (block : gmap string CacheEntry -> gmap string CacheEntry * A) : A :=
  snd (block (cache_entries c)).

(** [_calculate_size]: the length of the pickled value. *)
Definition _calculate_size (v : string) : Z := Z.of_nat (String.length v).

Definition _remove_from_memory (c : ResearchDataCache) (k : string) : ResearchDataCache :=
  match dict_get k (memory_cache c) with
  | Some entry =>
      with_memory c (dict_del k (memory_cache c)) (memory_size c - size_bytes entry)
  | None => c
  end.

(** [min(keys, key=lambda k: memory_cache[k].last_accessed)]: the first
    key, in iteration order, whose entry has the least [last_accessed]. *)
Fixpoint min_by_last_accessed (best : string * CacheEntry)
    (rest : list (string * CacheEntry)) : string * CacheEntry :=
  match rest with
  | [] => best
  | x :: t =>
      min_by_last_accessed
        (if last_accessed (snd x) <? last_accessed (snd best) then x else best) t
  end.

Definition lru_key (d : list (string * CacheEntry)) : option string :=
  match d with
  | [] => None
  | x :: t => Some (fst (min_by_last_accessed x t))
  end.

Definition bump_evictions (s : Stats) : Stats :=
  mkStats (hits s) (misses s) (memory_hits s) (disk_hits s) (evictions s + 1) (cleanups s).

Definition _evict_from_memory (c : ResearchDataCache) : ResearchDataCache :=
  match lru_key (memory_cache c) with
  | None => c
  | Some k =>
      let c := _remove_from_memory c k in
      with_stats c (bump_evictions (stats c))
  end.

(** The condition of the [while] loop of [_add_to_memory]. *)
Definition over_budget (c : ResearchDataCache) (size : Z) : bool :=
  (max_memory_size c <? memory_size c + size)
  && (0 <? Z.of_nat (length (memory_cache c))).

(** The [while] loop of [_add_to_memory]; every turn removes an entry, so
    as many turns as there are entries are enough. *)
Fixpoint evict_while (fuel : nat) (size : Z) (c : ResearchDataCache) : ResearchDataCache :=
  match fuel with
  | O => c
  | S fuel' =>
      if over_budget c size then evict_while fuel' size (_evict_from_memory c) else c
  end.

(** The [entry_data] dict passed to [_add_to_memory]: [None] is an absent
    key. *)
Record entry_data := mkEntryData {
  ed_created_at : option Z;
  ed_expires_at : option Z;
  ed_access_count : option Z;
  ed_last_accessed : option Z;
  ed_tags : option (list string);
  ed_size_bytes : option Z
}.

(** [asdict(entry)]. *)
Definition asdict (e : CacheEntry) : entry_data :=
  mkEntryData (Some (created_at e)) (Some (expires_at e)) (Some (access_count e))
              (Some (last_accessed e)) (Some (tags e)) (Some (size_bytes e)).

(** [dict(row)] for the columns selected by [get]: [last_accessed] is not
    among them. *)
Definition dict_of_row (r : CacheEntry) : entry_data :=
  mkEntryData (Some (created_at r)) (Some (expires_at r)) (Some (access_count r))
              None (Some (tags r)) (Some (size_bytes r)).

Definition get_or {A} (o : option A) (default : A) : A :=
  match o with Some a => a | None => default end.

(** The [CacheEntry] built by [_add_to_memory]. *)
Definition memory_entry (ttl : Z) (k : string) (v : string)
    (data : entry_data) (now : Z) (size : Z) : CacheEntry :=
  mkCacheEntry k v
    (get_or (ed_created_at data) now)
    (get_or (ed_expires_at data) (now + ttl))
    (get_or (ed_access_count data) 1)
    (get_or (ed_last_accessed data) now)
    (get_or (ed_tags data) [])
    size.

Definition _add_to_memory (c : ResearchDataCache) (k : string) (v : string)
    (data : entry_data) (now : Z) : ResearchDataCache :=
  let size := get_or (ed_size_bytes data) (_calculate_size v) in
  let c := evict_while (length (memory_cache c)) size c in
  let entry := memory_entry (default_ttl c) k v data now size in
  with_memory c (dict_set k entry (memory_cache c)) (memory_size c + size).

Definition touch (e : CacheEntry) (now : Z) : CacheEntry :=
  mkCacheEntry (key e) (value e) (created_at e) (expires_at e)
               (access_count e + 1) now (tags e) (size_bytes e).

Definition bump_memory_hit (s : Stats) : Stats :=
  mkStats (hits s + 1) (misses s) (memory_hits s + 1) (disk_hits s) (evictions s) (cleanups s).

Definition bump_disk_hit (s : Stats) : Stats :=
  mkStats (hits s + 1) (misses s) (memory_hits s) (disk_hits s + 1) (evictions s) (cleanups s).

Definition bump_miss (s : Stats) : Stats :=
  mkStats (hits s) (misses s + 1) (memory_hits s) (disk_hits s) (evictions s) (cleanups s).

Definition bump_cleanups (s : Stats) : Stats :=
  mkStats (hits s) (misses s) (memory_hits s) (disk_hits s) (evictions s) (cleanups s + 1).

(** [SELECT ... WHERE key = ? AND expires_at > ?]. *)
Definition select_unexpired (conn : gmap string CacheEntry) (k : string) (now : Z)
  : option CacheEntry :=
  match conn !! k with
  | Some row => if now <? expires_at row then Some row else None
  | None => None
  end.

(** The second half of [get]: the look-up in the table. The UPDATE of
    the access statistics is made in the block and lost with it. *)
Definition get_from_disk (c : ResearchDataCache) (k : string) (now : Z)
  : ResearchDataCache * option string :=
  let found :=
    _get_db_connection c (fun conn =>
      match select_unexpired conn k now with
      | Some row =>
          let v := _deserialize_value (value row) in
          let conn := <[k := touch row now]> conn in
          let count := access_count row + 1 in
          let c := if 3 <=? count
                   then _add_to_memory c k (value row) (dict_of_row row) now else c in
          (conn, Some (with_stats c (bump_disk_hit (stats c)), v))
      | None => (conn, None)
      end) in
  match found with
  | Some hit => hit
  | None => (with_stats c (bump_miss (stats c)), None)
  end.

Definition get (c : ResearchDataCache) (k : string) (now : Z)
  : ResearchDataCache * option string :=
  match dict_get k (memory_cache c) with
  | Some entry =>
      if negb (is_expired entry now) then
        (with_stats
           (with_memory c (dict_set k (touch entry now) (memory_cache c)) (memory_size c))
           (bump_memory_hit (stats c)),
         _deserialize_value (value entry))
      else get_from_disk (_remove_from_memory c k) k now
  | None => get_from_disk c k now
  end.

(** [_cleanup_expired]; [result.rowcount] is the number of rows the
    DELETE removed in its block. *)
Definition _cleanup_expired (c : ResearchDataCache) (now : Z) : ResearchDataCache :=
  let expired_keys :=
    map fst (List.filter (fun p => is_expired (snd p) now) (memory_cache c)) in
  let c := fold_left _remove_from_memory expired_keys c in
  let deleted_count :=
    _get_db_connection c (fun conn =>
      let kept := filter (fun p => now < expires_at (snd p)) conn in
      (kept, Z.of_nat (size conn) - Z.of_nat (size kept))) in
  if (0 <? deleted_count) || negb (Nat.eqb (length expired_keys) 0)
  then with_stats c (bump_cleanups (stats c))
  else c.

Definition set (c : ResearchDataCache) (v : string) (k : string)
    (ttl : option Z) (tags : option (list string)) (now : Z) : ResearchDataCache :=
  let ttl := get_or ttl (default_ttl c) in
  let tags := get_or tags [] in
  let expires_at := now + ttl in
  let size := _calculate_size v in
  let entry := mkCacheEntry k v now expires_at 1 now tags size in
  let stored := _get_db_connection c (fun conn => (<[k := entry]> conn, tt)) in
  let c := if size <=? max_memory_size c / 10
           then _add_to_memory c k v (asdict entry) now else c in
  if Z.of_nat (length (memory_cache c)) mod 100 =? 0
  then _cleanup_expired c now else c.

(** One write: the arguments of a call of [set]. *)
Record write := mkWrite {
  w_value : string;
  w_key : string;
  w_ttl : option Z;
  w_tags : option (list string);
  w_now : Z
}.

Definition run_writes (c : ResearchDataCache) (ws : list write) : ResearchDataCache :=
  fold_left (fun c w => set c (w_value w) (w_key w) (w_ttl w) (w_tags w) (w_now w)) ws c.

(** [is_stale]: [datetime.now() > self.created_at + max_age]. *)
Definition is_stale (e : CacheEntry) (max_age now : Z) : bool :=
  created_at e + max_age <? now.

(** [delete(key)] with the key given. The DELETE is written as it is
    executed; where the table holds no row under the key, as in every
    cache that [init] has made, it is the same as the DELETE rolled
    back. *)
Definition delete (c : ResearchDataCache) (k : string) : ResearchDataCache :=
  let c := _remove_from_memory c k in
  with_table c (base.delete k (cache_entries c)).

(** [any(tag in entry_tags for tag in tags)]. *)
Definition has_any_tag (wanted : list string) (row : CacheEntry) : bool :=
  existsb (fun tag => existsb (String.eqb tag) (tags row)) wanted.

(** [delete_by_tags]: the keys of the rows with one of the tags are
    collected, the rows deleted in the block, and the keys then removed
    from the memory tier. *)
Definition delete_by_tags (c : ResearchDataCache) (wanted : list string)
  : ResearchDataCache :=
  match wanted with
  | [] => c
  | _ =>
      let deleted_keys :=
        _get_db_connection c (fun conn =>
          let deleted_keys :=
            map fst (map_to_list
                       (filter (fun p => has_any_tag wanted (snd p) = true) conn)) in
          (filter (fun p => has_any_tag wanted (snd p) = false) conn, deleted_keys)) in
      fold_left _remove_from_memory deleted_keys c
  end.

(** The dict that [get_stats] returns. *)
Record StatsReport := mkStatsReport {
  r_hits : Z;
  r_misses : Z;
  r_hit_rate : Q;
  r_memory_hits : Z;
  r_disk_hits : Z;
  r_evictions : Z;
  r_cleanups : Z;
  r_memory_entries : Z;
  r_memory_size_mb : Q;
  r_memory_utilization : Q;
  r_disk_entries : Z;
  r_disk_size_mb : Q;
  r_disk_utilization : Q
}.

(** [SELECT COUNT( * ), SUM(size_bytes) FROM cache_entries]. *)
Definition disk_usage (c : ResearchDataCache) : Z * Z :=
  (Z.of_nat (size (cache_entries c)),
   fold_right (fun p acc => size_bytes (snd p) + acc) 0 (map_to_list (cache_entries c))).

(** [get_stats]; [None] is the [ZeroDivisionError] of
    [self.memory_size / self.max_memory_size], the one division that is
    not guarded. *)
Definition get_stats (c : ResearchDataCache) : option StatsReport :=
  let s := stats c in
  let hit_rate :=
    if 0 <? hits s + misses s
    then (inject_Z (hits s) / inject_Z (hits s + misses s))%Q else 0%Q in
  let '(disk_entries, disk_size) := disk_usage c in
  if max_memory_size c =? 0 then None
  else
    Some (mkStatsReport (hits s) (misses s) hit_rate (memory_hits s) (disk_hits s)
            (evictions s) (cleanups s)
            (Z.of_nat (length (memory_cache c)))
            (inject_Z (memory_size c) / inject_Z (1024 * 1024))%Q
            (inject_Z (memory_size c) / inject_Z (max_memory_size c))%Q
            disk_entries
            (inject_Z disk_size / inject_Z (1024 * 1024))%Q
            (if 0 <? max_disk_size c
             then (inject_Z disk_size / inject_Z (max_disk_size c))%Q else 0%Q)).

End ResearchCache.

(** ** Python values

    The values held by the [Dict[str, Any]] payloads and by the attributes
    of the model objects. An f-string is kept as its template and its
    arguments; message texts are written without their emoji. A pydantic
    model instance is the map from its field names to their values. *)

Module PyObj.

Local Open Scope Q_scope.

#[warnings="-register-all"]
Inductive pyval :=
| PNone
| PBool (b : bool)
| PNum (q : Q)
| PStr (s : string)
| PTime (t : Z)
| PList (l : list pyval)
| PDict (d : gmap string pyval)
| PFmt (template : string) (args : list pyval).

Abbreviation pyobject := (gmap string pyval).

(** The result of a call that may raise: the value, or the name of the
    exception. *)
Inductive outcome (A : Type) :=
| Ok (a : A)
| Raise (exn : string).

Arguments Ok {A} a.
Arguments Raise {A} exn.

(** [bool(v)]. *)
Definition truthy (v : pyval) : bool :=
  match v with
  | PNone => false
  | PBool b => b
  | PNum q => negb (Qeq_bool q 0)
  | PStr s => negb (String.eqb s "")
  | PTime _ => true
  | PList l => match l with [] => false | _ => true end
  | PDict d => negb (bool_decide (d = ∅))
  | PFmt _ _ => true
  end.

(** [v == "literal"]. *)
Definition eq_str (v : pyval) (s : string) : bool :=
  match v with
  | PStr s' => String.eqb s' s
  | _ => false
  end.

(** The number a value counts as in a comparison with a float; [bool] is
    a subtype of [int]. *)
Definition as_number (v : pyval) : option Q :=
  match v with
  | PNum q => Some q
  | PBool b => Some (if b then 1 else 0)
  | _ => None
  end.

(** [v < c], [v > c], [v >= c] with a float [c]; [None] is a
    [TypeError]. *)
Definition lt_float (v : pyval) (c : Q) : option bool :=
  match as_number v with Some q => Some (Py.Qlt_bool q c) | None => None end.

Definition gt_float (v : pyval) (c : Q) : option bool :=
  match as_number v with Some q => Some (Py.Qlt_bool c q) | None => None end.

Definition ge_float (v : pyval) (c : Q) : option bool :=
  match as_number v with Some q => Some (Qle_bool c q) | None => None end.

(** [max(c, v)] with a float [c] first; [None] is a [TypeError]. *)
Definition max_float (c : Q) (v : pyval) : option pyval :=
  match v with
  | PNum q => Some (PNum (Py.max c q))
  | PBool b => Some (if Py.Qlt_bool c (if b then 1 else 0) then PBool b else PNum c)
  | _ => None
  end.

(** [obj.name] for a field of a model object. *)
Definition attr (obj : pyobject) (name : string) : pyval :=
  match obj !! name with Some v => v | None => PNone end.

(** [v.get(k, default)]; [None] is the [AttributeError] of a value that
    is not a dict. *)
Definition get (v : pyval) (k : string) (default : pyval) : option pyval :=
  match v with
  | PDict d => Some (match d !! k with Some x => x | None => default end)
  | _ => None
  end.

(** [v[k]] on a dict. *)
Definition index (v : pyval) (k : string) : outcome pyval :=
  match v with
  | PDict d => match d !! k with Some x => Ok x | None => Raise "KeyError" end
  | _ => Raise "TypeError"
  end.

(** A string of ASCII characters only. *)
Definition is_ascii (s : string) : bool :=
  forallb (fun c => (nat_of_ascii c <? 128)%nat) (list_ascii_of_string s).

(** [s.upper()] as it is on ASCII strings: the letters [a] to [z] are
    changed, every other byte is left as it is. The letters outside
    ASCII that [str.upper] changes as well are not followed. *)
Definition upper_ascii (c : ascii) : ascii :=
  if (97 <=? nat_of_ascii c)%nat && (nat_of_ascii c <=? 122)%nat
  then ascii_of_nat (nat_of_ascii c - 32) else c.

Fixpoint upper_string (s : string) : string :=
  match s with
  | EmptyString => EmptyString
  | String c t => String (upper_ascii c) (upper_string t)
  end.

(** [v.upper()]; only a [str] has the method. *)
Definition upper (v : pyval) : outcome string :=
  match v with
  | PStr s => Ok (upper_string s)
  | _ => Raise "AttributeError"
  end.

End PyObj.

(** ** Categorization models (backend/models/unified_models.py) and the
       classification result (backend/agents/classification_agent.py) *)

Module Models.
Import PyObj.

Local Open Scope Q_scope.

(** The fields of [FundCategorization] in declaration order, each with its
    default; [None] marks a required field ([Field(...)]). The default of
    [classification_timestamp] is the clock reading. *)
Definition field_specs (now : Z) : list (string * option pyval) :=
  [ ("ticker", None);
    ("fund_name", None);
    ("asset_class", None);
    ("asset_class_confidence", None);
    ("equity_region", Some PNone);
    ("equity_style", Some PNone);
    ("equity_size", Some PNone);
    ("fixed_income_type", Some PNone);
    ("fixed_income_duration", Some PNone);
    ("research_sources", Some (PList []));
    ("key_holdings", Some (PList []));
    ("expense_ratio", Some PNone);
    ("morningstar_category", Some PNone);
    ("classification_method", None);
    ("reasoning", None);
    ("alternative_classifications", Some (PList []));
    ("manual_override", Some (PBool false));
    ("override_reason", Some PNone);
    ("override_by", Some PNone);
    ("override_timestamp", Some PNone);
    ("data_completeness", Some (PNum 0.0));
    ("classification_timestamp", Some (PTime now)) ].

Section Pydantic.

(** What pydantic makes of a value given for a field: the stored value,
    or [None] when the value is refused. *)
Variable validate : string -> pyval -> option pyval.

(** The names other than the fields for which [hasattr] holds on a model
    object: methods and the attributes of [BaseModel]. *)
Variable other_attribute : string -> bool.

Fixpoint build_fields (specs : list (string * option pyval)) (given : pyobject)
    (acc : pyobject) : outcome pyobject :=
  match specs with
  | [] => Ok acc
  | (name, default) :: rest =>
      match given !! name with
      | Some v =>
          match validate name v with
          | Some v' => build_fields rest given (<[name := v']> acc)
          | None => Raise "ValidationError"
          end
      | None =>
          match default with
          | Some dv => build_fields rest given (<[name := dv]> acc)
          | None => Raise "ValidationError"
          end
      end
  end.

(** [FundCategorization( **given )]: a key that names no field is
    ignored, a missing required field is a [ValidationError]. *)
Definition FundCategorization (given : pyobject) (now : Z) : outcome pyobject :=
  build_fields (field_specs now) given ∅.

(** [hasattr(self, key)]. *)
Definition hasattr (self : pyobject) (key : string) : bool :=
  bool_decide (is_Some (self !! key)) || other_attribute key.

(** [setattr(self, key, value)]: pydantic stores the value of a field as
    it is given and refuses a name that is not a field. *)
Definition setattr (self : pyobject) (key : string) (value : pyval) : outcome pyobject :=
  if bool_decide (is_Some (self !! key)) then Ok (<[key := value]> self)
  else Raise "ValueError".

(** The loop over [sub_categories.items()]: the object as the loop left
    it, and the exception that ended it, if any. *)
Fixpoint update_sub_categories (self : pyobject) (items : list (string * pyval))
  : pyobject * option string :=
  match items with
  | [] => (self, None)
  | (key, value) :: rest =>
      if hasattr self key then
        match setattr self key value with
        | Ok self' => update_sub_categories self' rest
        | Raise exn => (self, Some exn)
        end
      else update_sub_categories self rest
  end.

(** The parameters of [apply_override] that a keyword of
    [ **sub_categories ] may not repeat. *)
Definition parameter_names : list string :=
  ["self"; "new_asset_class"; "reason"; "override_by"].

(** [self.apply_override(new_asset_class, reason, override_by,
    **sub_categories)]: the object after the call, and the exception
    raised, if any. *)
Definition apply_override (self : pyobject) (new_asset_class reason override_by : pyval)
    (sub_categories : list (string * pyval)) (now : Z) : pyobject * option string :=
  if existsb (fun kv => bool_decide (fst kv ∈ parameter_names)) sub_categories
  then (self, Some "TypeError")
  else
    let self := <["manual_override" := PBool true]> self in
    let self := <["override_reason" := reason]> self in
    let self := <["override_by" := override_by]> self in
    let self := <["override_timestamp" := PTime now]> self in
    let self := <["asset_class" := new_asset_class]> self in
    match update_sub_categories self sub_categories with
    | (self, Some exn) => (self, Some exn)
    | (self, None) =>
        match max_float 0.95 (attr self "asset_class_confidence") with
        | Some v => (<["asset_class_confidence" := v]> self, None)
        | None => (self, Some "TypeError")
        end
    end.

End Pydantic.

(** [ClassificationResult.to_dict]. *)
Definition sub_category_names : list string :=
  ["equity_region"; "equity_style"; "equity_size";
   "fixed_income_type"; "fixed_income_duration"].

Definition to_dict (self : pyobject) : pyobject :=
  let sub_categories : pyobject :=
    fold_left
      (fun acc name => if truthy (attr self name) then <[name := attr self name]> acc else acc)
      sub_category_names ∅ in
  list_to_map
    [ ("ticker", attr self "ticker");
      ("fund_name", attr self "fund_name");
      ("asset_class", attr self "asset_class");
      ("confidence", attr self "asset_class_confidence");
      ("sub_categories", PDict sub_categories);
      ("research_sources", attr self "research_sources");
      ("key_data_points", attr self "key_data_points");
      ("morningstar_category", attr self "morningstar_category");
      ("classification_method", attr self "classification_method");
      ("reasoning", attr self "reasoning");
      ("alternatives", attr self "alternative_classifications");
      ("manual_override", attr self "manual_override");
      ("override_reason", attr self "override_reason") ].

(** An answer option of a question. *)
Definition option_dict (value label : string) : pyval :=
  PDict (list_to_map [("value", PStr value); ("label", PStr label)]).

Definition recommended_option (value label : string) (asset_class : pyval) : pyval :=
  PDict (list_to_map [("value", PStr value); ("label", PStr label);
                      ("recommended", PBool (eq_str asset_class value))]).

Definition question_dict (type : string) (template : string) (args : list pyval)
    (options : list pyval) : pyval :=
  PDict (list_to_map [("type", PStr type); ("question", PFmt template args);
                      ("options", PList options)]).

(** [ClassificationAgent._generate_questions]; the comparison of the
    confidence with 0.7 raises on a value that is not a number. *)
Definition _generate_questions (classification : pyobject) : outcome (list pyval) :=
  let ticker := attr classification "ticker" in
  let asset_class := attr classification "asset_class" in
  match lt_float (attr classification "asset_class_confidence") 0.7 with
  | None => Raise "TypeError"
  | Some low =>
      let questions :=
        if low then
          [ PDict (list_to_map
              [ ("type", PStr "asset_class");
                ("question", PFmt "How should {} ({}) be classified?"
                               [ticker; attr classification "fund_name"]);
                ("options", PList
                   [ recommended_option "Equity" "Equity" asset_class;
                     recommended_option "Fixed Income" "Fixed Income" asset_class;
                     recommended_option "Cash" "Cash & Cash Equivalents" asset_class;
                     recommended_option "Alternatives" "Alternative Investments" asset_class ]);
                ("confidence", attr classification "asset_class_confidence");
                ("reasoning", attr classification "reasoning") ]) ]
        else [] in
      let questions :=
        if eq_str asset_class "Equity" then
          questions
          ++ (if truthy (attr classification "equity_region") then []
              else [ question_dict "equity_region"
                       "What geographic region does {} focus on?" [ticker]
                       [ option_dict "US" "United States";
                         option_dict "International" "International Developed";
                         option_dict "Emerging" "Emerging Markets";
                         option_dict "Global" "Global/World" ] ])
          ++ (if truthy (attr classification "equity_style") then []
              else [ question_dict "equity_style"
                       "What investment style does {} follow?" [ticker]
                       [ option_dict "Value" "Value";
                         option_dict "Growth" "Growth";
                         option_dict "Blend" "Blend/Core" ] ])
          ++ (if truthy (attr classification "equity_size") then []
              else [ question_dict "equity_size"
                       "What market cap focus does {} have?" [ticker]
                       [ option_dict "Large" "Large Cap";
                         option_dict "Mid" "Mid Cap";
                         option_dict "Small" "Small Cap";
                         option_dict "Micro" "Micro Cap" ] ])
        else if eq_str asset_class "Fixed Income" then
          questions
          ++ (if truthy (attr classification "fixed_income_type") then []
              else [ question_dict "fixed_income_type"
                       "What type of bonds does {} hold?" [ticker]
                       [ option_dict "Government" "Government/Treasury";
                         option_dict "Corporate" "Corporate";
                         option_dict "Municipal" "Municipal";
                         option_dict "High Yield" "High Yield/Junk" ] ])
          ++ (if truthy (attr classification "fixed_income_duration") then []
              else [ question_dict "fixed_income_duration"
                       "What duration focus does {} have?" [ticker]
                       [ option_dict "Short" "Short Duration (< 3 years)";
                         option_dict "Intermediate" "Intermediate Duration (3-10 years)";
                         option_dict "Long" "Long Duration (> 10 years)" ] ])
        else questions in
      Ok questions
  end.

(** [CategorizationSession]; [fund_categorizations] maps a ticker to a
    [FundCategorization] object. *)
Record CategorizationSession := mkCategorizationSession {
  cs_session_id : string;
  portfolio_items : list pyval;
  fund_categorizations : gmap string pyobject;
  current_stage : string;
  funds_needing_input : list pyval;
  current_fund_index : nat;
  created_at : Z;
  updated_at : Z;
  total_funds : Z;
  categorized_funds : Z;
  high_confidence_funds : Z
}.

Definition get_fund_categorization (self : CategorizationSession) (ticker : pyval)
  : outcome (option pyobject) :=
  match upper ticker with
  | Ok key => Ok (fund_categorizations self !! key)
  | Raise exn => Raise exn
  end.

(** [len([c for c in values if c.asset_class_confidence >= 0.8])]. *)
Fixpoint count_confident (values : list pyobject) : outcome Z :=
  match values with
  | [] => Ok 0%Z
  | c :: rest =>
      match ge_float (attr c "asset_class_confidence") 0.8, count_confident rest with
      | Some b, Ok n => Ok (if b then n + 1 else n)%Z
      | None, _ => Raise "TypeError"
      | _, Raise exn => Raise exn
      end
  end.

Definition add_fund_categorization (self : CategorizationSession)
    (categorization : pyobject) (now : Z) : outcome CategorizationSession :=
  match upper (attr categorization "ticker") with
  | Raise exn => Raise exn
  | Ok key =>
      let funds := <[key := categorization]> (fund_categorizations self) in
      match count_confident (snd <$> map_to_list funds) with
      | Raise exn => Raise exn
      | Ok confident =>
          Ok (mkCategorizationSession
                (cs_session_id self) (portfolio_items self) funds (current_stage self)
                (funds_needing_input self) (current_fund_index self)
                (created_at self) now (total_funds self)
                (Z.of_nat (size funds)) confident)
      end
  end.

Definition get_next_fund_needing_input (self : CategorizationSession) : option pyval :=
  if (current_fund_index self <? length (funds_needing_input self))%nat
  then funds_needing_input self !! current_fund_index self
  else None.

Definition mark_current_fund_complete (self : CategorizationSession) (now : Z)
  : CategorizationSession :=
  mkCategorizationSession
    (cs_session_id self) (portfolio_items self) (fund_categorizations self)
    (current_stage self) (funds_needing_input self) (S (current_fund_index self))
    (created_at self) now (total_funds self)
    (categorized_funds self) (high_confidence_funds self).

Definition set_funds_needing_input (self : CategorizationSession)
    (tickers : list pyval) : CategorizationSession :=
  mkCategorizationSession
    (cs_session_id self) (portfolio_items self) (fund_categorizations self)
    (current_stage self) tickers 0
    (created_at self) (updated_at self) (total_funds self)
    (categorized_funds self) (high_confidence_funds self).

(** [get_progress_percentage]. *)
Definition get_progress_percentage (self : CategorizationSession) : Q :=
  if (total_funds self =? 0)%Z then 0.0
  else (inject_Z (categorized_funds self) / inject_Z (total_funds self)) * 100.

(** The loop of [get_summary] over the categorizations: the count of
    each asset class, a string as the field is declared, and the sum of
    the confidences. *)
Fixpoint summarize (values : list pyobject) (counts : gmap string Z) (total : Q)
  : outcome (gmap string Z * Q) :=
  match values with
  | [] => Ok (counts, total)
  | c :: rest =>
      match attr c "asset_class", as_number (attr c "asset_class_confidence") with
      | PStr asset_class, Some q =>
          summarize rest
            (<[asset_class := (match counts !! asset_class with Some n => n | None => 0 end + 1)%Z]> counts)
            (total + q)
      | _, _ => Raise "TypeError"
      end
  end.

Definition get_summary (self : CategorizationSession) : outcome pyval :=
  let values := snd <$> map_to_list (fund_categorizations self) in
  match summarize values ∅ 0.0 with
  | Raise exn => Raise exn
  | Ok (counts, total) =>
      let avg_confidence :=
        match values with [] => 0.0 | _ => total / Py.len values end in
      Ok (PDict (list_to_map
            [ ("total_funds", PNum (inject_Z (total_funds self)));
              ("categorized_funds", PNum (inject_Z (categorized_funds self)));
              ("progress_percentage", PNum (get_progress_percentage self));
              ("average_confidence", PNum avg_confidence);
              ("high_confidence_funds", PNum (inject_Z (high_confidence_funds self)));
              ("asset_class_breakdown", PDict ((fun n => PNum (inject_Z n)) <$> counts));
              ("current_stage", PStr (current_stage self));
              ("needs_user_input", PNum (Py.len (funds_needing_input self)));
              ("is_complete", PBool (String.eqb (current_stage self) "complete")) ]))
  end.

End Models.

(** ** Messages and the agent base class (backend/agents/base_agent.py) *)

Module Agents.
Import PyObj.

Inductive AgentType :=
| INTAKE | RESEARCH | EXTRACTION | CATEGORIZATION | VALIDATION | CHAT_ORCHESTRATOR.

Inductive MessageType :=
| STATUS_UPDATE | DATA_PROCESSED | REQUEST_ACTION | VALIDATION_RESULT
| CHAT_RESPONSE | ERROR.

(** [AgentType.value]. *)
Definition agent_value (a : AgentType) : string :=
  match a with
  | INTAKE => "intake"
  | RESEARCH => "research"
  | EXTRACTION => "extraction"
  | CATEGORIZATION => "categorization"
  | VALIDATION => "validation"
  | CHAT_ORCHESTRATOR => "chat_orchestrator"
  end.

(** The dataclass [AgentMessage]. The router passes [None] as the sender.
    The fields [timestamp] and [message_id], a clock reading and a fresh
    identifier filled in by [__post_init__], are left out. *)
Record AgentMessage := mkAgentMessage {
  type : MessageType;
  sender : option AgentType;
  recipient : option AgentType;
  data : pyobject;
  session_id : string
}.

(** [message.session_id = value]. The class is declared with a plain
    [@dataclass], neither frozen nor validated: the assignment is made,
    whatever the value. *)
Definition set_session_id (message : AgentMessage) (value : string) : AgentMessage :=
  mkAgentMessage (type message) (sender message) (recipient message) (data message) value.

(** The attributes of [BaseAgent] that messages are built from. *)
Record BaseAgent := mkBaseAgent {
  agent_type : AgentType;
  agent_session_id : string
}.

Definition create_message (self : BaseAgent) (message_type : MessageType)
    (recipient : option AgentType) (data : pyobject) : AgentMessage :=
  mkAgentMessage message_type (Some (agent_type self)) recipient data
                 (agent_session_id self).

(** [emit_error(error, details)]: [details], when given, is merged over
    the two entries. *)
Definition emit_error (self : BaseAgent) (error : pyval) (details : option pyobject)
  : AgentMessage :=
  let data : pyobject :=
    list_to_map [("error", error); ("agent", PStr (agent_value (agent_type self)))] in
  let data := match details with
              | Some d => if bool_decide (d = ∅) then data else d ∪ data
              | None => data
              end in
  create_message self ERROR None data.

(** A sender as an f-string argument. *)
Definition sender_arg (s : option AgentType) : pyval :=
  match s with
  | Some a => PStr (agent_value a)
  | None => PNone
  end.

(** The part of an [AgentContext] that the agent reads and writes
    through its own methods. *)
Record AgentContext := mkAgentContext {
  context_session_id : string;
  confidence_scores : gmap string Q;
  processing_stage : string
}.

(** [get_confidence_score], [context] being [self.context]. *)
Definition get_confidence_score (context : option AgentContext) (operation : string) : Q :=
  match context with
  | Some ctx =>
      match confidence_scores ctx !! operation with
      | Some score => score
      | None => 0.0
      end
  | None => 0.0
  end.

(** [set_confidence_score]: the context afterwards. *)
Definition set_confidence_score (context : option AgentContext) (operation : string)
    (score : Q) : option AgentContext :=
  match context with
  | Some ctx =>
      Some (mkAgentContext (context_session_id ctx)
              (<[operation := Py.max 0.0 (Py.min 1.0 score)]> (confidence_scores ctx))
              (processing_stage ctx))
  | None => None
  end.

(** [emit_status(status, details)]. *)
Definition emit_status (self : BaseAgent) (status : pyval) (details : option pyobject)
  : AgentMessage :=
  let data : pyobject :=
    list_to_map [("status", status); ("agent", PStr (agent_value (agent_type self)))] in
  let data := match details with
              | Some d => if bool_decide (d = ∅) then data else d ∪ data
              | None => data
              end in
  create_message self STATUS_UPDATE None data.

End Agents.

(** ** The chat orchestrator (backend/agents/chat_orchestrator.py) *)

Module Orchestrator.
Import PyObj Models Agents.

Local Open Scope Q_scope.

Inductive ConversationStage :=
| GREETING | FILE_UPLOADED | PORTFOLIO_PROCESSED
| CATEGORIZATION_STARTED | DEEP_RESEARCH_STARTED | DEEP_RESEARCH_COMPLETED
| CLASSIFICATION_STARTED | CLASSIFICATION_COMPLETED | USER_REVIEW_NEEDED
| CATEGORIZATION_REVIEW | CATEGORIZATION_COMPLETE
| RESEARCH_STARTED | RESEARCH_COMPLETED | EXTRACTION_STARTED
| EXTRACTION_COMPLETED | ANALYSIS_READY | RECOMMENDATIONS | COMPLETE.

(** The state of a [ChatOrchestrator]. *)
Record ChatOrchestrator := mkChatOrchestrator {
  self_session_id : string;
  is_active : bool;
  conversation_stage : ConversationStage;
  processing_session : option pyobject;
  categorization_session : option CategorizationSession;
  workflow_mode : string
}.

(** [ChatOrchestrator(session_id)]. *)
Definition new (session_id : string) : ChatOrchestrator :=
  mkChatOrchestrator session_id false GREETING None None "categorization".

Definition base (self : ChatOrchestrator) : BaseAgent :=
  mkBaseAgent CHAT_ORCHESTRATOR (self_session_id self).

(** *** Generators

    A run of an [async] generator method from a state of the
    orchestrator: the messages yielded, each with the conversation stage
    at its [yield], the state at the end, and how the run ended. *)

Record run (A : Type) := mkRun {
  trace : list (AgentMessage * ConversationStage);
  final : ChatOrchestrator;
  ending : outcome A
}.

Arguments mkRun {A} trace final ending.
Arguments trace {A} r.
Arguments final {A} r.
Arguments ending {A} r.

Definition Gen (A : Type) : Type := ChatOrchestrator -> run A.

#[global] Instance gen_ret : MRet Gen :=
  fun A a self => mkRun [] self (Ok a).

#[global] Instance gen_bind : MBind Gen :=
  fun A B f m self =>
    let r := m self in
    match ending r with
    | Ok a =>
        let r' := f a (final r) in
        mkRun (trace r ++ trace r') (final r') (ending r')
    | Raise exn => mkRun (trace r) (final r) (Raise exn)
    end.

Definition yield (m : AgentMessage) : Gen unit :=
  fun self => mkRun [(m, conversation_stage self)] self (Ok tt).

Definition raise {A} (exn : string) : Gen A :=
  fun self => mkRun [] self (Raise exn).

Definition lift {A} (o : outcome A) : Gen A :=
  fun self => mkRun [] self o.

Definition get_self : Gen ChatOrchestrator :=
  fun self => mkRun [] self (Ok self).

Definition set_stage (stage : ConversationStage) : Gen unit :=
  fun self =>
    mkRun [] (mkChatOrchestrator (self_session_id self) (is_active self) stage
                (processing_session self) (categorization_session self)
                (workflow_mode self))
          (Ok tt).

Definition set_categorization_session (s : CategorizationSession) : Gen unit :=
  fun self =>
    mkRun [] (mkChatOrchestrator (self_session_id self) (is_active self)
                (conversation_stage self) (processing_session self) (Some s)
                (workflow_mode self))
          (Ok tt).

(** [yield self.create_message(CHAT_RESPONSE, None, data)]. *)
Definition yield_chat (data : list (string * pyval)) : Gen unit :=
  self ← get_self;
  yield (create_message (base self) CHAT_RESPONSE None (list_to_map data)).

(** [yield await self.emit_error(error)]. *)
Definition yield_error (error : pyval) : Gen unit :=
  self ← get_self;
  yield (emit_error (base self) error None).

(** What a [for] loop goes through. *)
Definition iterate (v : pyval) : outcome (list pyval) :=
  match v with
  | PList l => Ok l
  | PDict d => Ok (PStr <$> (fst <$> map_to_list d))
  | PStr s => Ok ((fun c => PStr (String c "")) <$> list_ascii_of_string s)
  | _ => Raise "TypeError"
  end.

(** [FundCategorization] defines no [to_dict], and [BaseModel] has
    none. *)
Definition FundCategorization_to_dict (c : pyobject) : outcome pyval :=
  Raise "AttributeError".

(** [[c.to_dict() for c in values]]. *)
Fixpoint to_dicts (values : list pyobject) : outcome (list pyval) :=
  match values with
  | [] => Ok []
  | c :: rest =>
      match FundCategorization_to_dict c with
      | Raise exn => Raise exn
      | Ok d =>
          match to_dicts rest with
          | Ok ds => Ok (d :: ds)
          | Raise exn => Raise exn
          end
      end
  end.

Definition suggested_actions : pyval :=
  PList
    [ PDict (list_to_map [("action", PStr "export_results"); ("label", PStr "Export to CSV")]);
      PDict (list_to_map [("action", PStr "view_analysis");
                          ("label", PStr "View Portfolio Analysis")]);
      PDict (list_to_map [("action", PStr "start_new");
                          ("label", PStr "Process Another Portfolio")]) ].

Definition results_data (categorization_data : pyval) : list (string * pyval) :=
  [ ("type", PStr "categorization_complete");
    ("message", PStr "Categorization Results");
    ("message_type", PStr "success");
    ("categorization_data", categorization_data);
    ("suggested_actions", suggested_actions) ].

Definition _create_categorization_results_message (self : ChatOrchestrator)
    (categorization_data : pyval) : AgentMessage :=
  create_message (base self) CHAT_RESPONSE None
                 (list_to_map (results_data categorization_data)).

(** The fields a temporary [ClassificationResult] copies from the
    categorization. *)
Definition temp_classification (c : pyobject) : pyobject :=
  list_to_map
    ((fun name => (name, attr c name)) <$>
       [ "ticker"; "fund_name"; "asset_class"; "asset_class_confidence";
         "equity_region"; "equity_style"; "equity_size";
         "fixed_income_type"; "fixed_income_duration"; "research_sources";
         "classification_method"; "reasoning"; "alternative_classifications" ]).

(** [CategoryQuestion(...).to_chat_message()] for the first question. *)
Definition question_message (current_ticker : pyval) (c : pyobject)
    (question current_classification : pyval) : outcome (list (string * pyval)) :=
  match index question "type", index question "question", index question "options" with
  | Ok qtype, Ok text, Ok options =>
      Ok [ ("type", PStr "categorization_question");
           ("question_id", PFmt "{}_{}" [current_ticker; qtype]);
           ("ticker", current_ticker);
           ("fund_name", attr c "fund_name");
           ("question", text);
           ("options", options);
           ("context", PDict (list_to_map
              [ ("current_classification", current_classification);
                ("confidence", attr c "asset_class_confidence");
                ("reasoning", attr c "reasoning") ]));
           ("metadata", PDict (list_to_map
              [ ("question_type", qtype); ("priority", PNum 1);
                ("allow_custom", PBool false) ])) ]
  | Raise exn, _, _ => Raise exn
  | _, Raise exn, _ => Raise exn
  | _, _, Raise exn => Raise exn
  end.

(** The end of the review: the closing message and the final results. *)
Definition finish_review (session : CategorizationSession) : Gen unit :=
  yield_chat
    [ ("message", PStr "That's all the input I needed! Your portfolio categorization is now complete.");
      ("message_type", PStr "success") ];;
  classifications ← lift (to_dicts (snd <$> map_to_list (fund_categorizations session)));
  summary ← lift (get_summary session);
  self ← get_self;
  yield (_create_categorization_results_message self
           (PDict (list_to_map [("classifications", PList classifications);
                                ("summary", summary)]))).

(** [_send_next_categorization_question]. A call goes on to the next
    fund when the current one raises no question; [fuel] bounds the
    number of funds gone through. *)
Fixpoint send_next_question (fuel : nat) (now : Z) : Gen unit :=
  self ← get_self;
  match categorization_session self with
  | None => yield_error (PStr "No categorization session available")
  | Some session =>
      match get_next_fund_needing_input session with
      | None => finish_review session
      | Some current_ticker =>
          if negb (truthy current_ticker) then finish_review session
          else
            found ← lift (get_fund_categorization session current_ticker);
            match (found : option pyobject) with
            | None =>
                yield_error (PFmt "No categorization found for {}" [current_ticker])
            | Some fund_categorization =>
                questions ← lift (_generate_questions (temp_classification fund_categorization));
                match (questions : list pyval) with
                | [] =>
                    set_categorization_session (mark_current_fund_complete session now);;
                    match fuel with
                    | O => raise "RecursionError"
                    | S fuel' => send_next_question fuel' now
                    end
                | question :: _ =>
                    current ← lift (FundCategorization_to_dict fund_categorization);
                    msg ← lift (question_message current_ticker fund_categorization
                                                 question current);
                    yield_chat msg
                end
            end
      end
  end.

(** The funds still to go through. *)
Definition remaining (self : ChatOrchestrator) : nat :=
  match categorization_session self with
  | Some session => length (funds_needing_input session) - current_fund_index session
  | None => 0
  end.

Definition _send_next_categorization_question (now : Z) : Gen unit :=
  fun self => send_next_question (remaining self) now self.

(** [[item["ticker"] for item in interaction_needed]]. *)
Fixpoint tickers_of (items : list pyval) : outcome (list pyval) :=
  match items with
  | [] => Ok []
  | item :: rest =>
      match index item "ticker" with
      | Raise exn => Raise exn
      | Ok t =>
          match tickers_of rest with
          | Ok ts => Ok (t :: ts)
          | Raise exn => Raise exn
          end
      end
  end.

Definition _start_user_review_process (categorization_data : pyval) (now : Z) : Gen unit :=
  set_stage CATEGORIZATION_REVIEW;;
  match get categorization_data "interaction_needed" (PList []) with
  | None => raise "AttributeError"
  | Some interaction_needed =>
      if negb (truthy interaction_needed) then
        self ← get_self;
        yield (_create_categorization_results_message self categorization_data)
      else
        match interaction_needed with
        | PList (first_fund :: others) =>
            self ← get_self;
            match categorization_session self with
            | Some session =>
                tickers ← lift (tickers_of (first_fund :: others));
                set_categorization_session (set_funds_needing_input session tickers)
            | None => mret tt
            end;;
            ticker ← lift (index first_fund "ticker");
            fund_name ← lift (index first_fund "fund_name");
            yield_chat
              [ ("message", PFmt "Let's start with **{}** ({}). I need your help with the following:"
                              [ticker; fund_name]);
                ("message_type", PStr "info") ];;
            _send_next_categorization_question now
        | _ => raise "TypeError"
        end
  end.

Section Pipeline.

Variable validate : string -> pyval -> option pyval.

(** The loop of [_handle_classification_completion] that stores the
    classifications in the session. *)
Fixpoint store_classifications (classifications : list pyval) (now : Z) : Gen unit :=
  match classifications with
  | [] => mret tt
  | classification_dict :: rest =>
      match classification_dict with
      | PDict given =>
          fund_categorization ← lift (FundCategorization validate given now);
          self ← get_self;
          match categorization_session self with
          | Some session =>
              session' ← lift (add_fund_categorization session fund_categorization now);
              set_categorization_session session'
          | None => mret tt
          end;;
          store_classifications rest now
      | _ => raise "TypeError"
      end
  end.

(** [needs_review > 0 or avg_confidence < 0.8]; the second comparison is
    made only when the first is false. *)
Definition review_needed (needs_review avg_confidence : pyval) : outcome bool :=
  match gt_float needs_review 0 with
  | None => Raise "TypeError"
  | Some true => Ok true
  | Some false =>
      match lt_float avg_confidence 0.8 with
      | None => Raise "TypeError"
      | Some b => Ok b
      end
  end.

Definition _handle_classification_completion (message : AgentMessage) (now : Z) : Gen unit :=
  set_stage CLASSIFICATION_COMPLETED;;
  let categorization_data :=
    match data message !! "categorization_data" with
    | Some v => v
    | None => PDict ∅
    end in
  match get categorization_data "summary" (PDict ∅) with
  | None => raise "AttributeError"
  | Some summary =>
      self ← get_self;
      match categorization_session self with
      | Some _ =>
          match get categorization_data "classifications" (PList []) with
          | None => raise "AttributeError"
          | Some classifications =>
              items ← lift (iterate classifications);
              store_classifications items now
          end
      | None => mret tt
      end;;
      match get summary "requires_user_input" (PNum 0),
            get summary "average_confidence" (PNum 0.0) with
      | Some needs_review, Some avg_confidence =>
          review ← lift (review_needed needs_review avg_confidence);
          if (review : bool) then
            set_stage USER_REVIEW_NEEDED;;
            yield_chat
              [ ("message", PFmt "I've analyzed your funds! I found {} funds that need your input for accurate categorization. Let me show you the results and ask for your guidance where needed."
                              [needs_review]);
                ("message_type", PStr "info") ];;
            _start_user_review_process categorization_data now
          else
            set_stage CATEGORIZATION_COMPLETE;;
            total_funds ← lift (index summary "total_funds");
            yield_chat
              [ ("message", PFmt "Excellent! I've successfully categorized all {} funds with high confidence. Here are your results:"
                              [total_funds]);
                ("message_type", PStr "success") ];;
            self ← get_self;
            yield (_create_categorization_results_message self categorization_data)
      | _, _ => raise "AttributeError"
      end
  end.

(** What the classification agent answers to a message: the arguments
    of the calls of [create_message] whose results it yields. The agent is
    built as [ClassificationAgent(self.session_id)] and registers itself
    under the agent type of the orchestrator. *)
Variable classification_agent : AgentMessage -> list (MessageType * option AgentType * pyobject).

Definition classification_responses (self : ChatOrchestrator)
    (message : AgentMessage) : list AgentMessage :=
  (fun call => create_message (mkBaseAgent CHAT_ORCHESTRATOR (self_session_id self))
                              (fst (fst call)) (snd (fst call)) (snd call))
    <$> classification_agent message.

(** The loop of [_start_classification_phase] over the answers of the
    classification agent. *)
Fixpoint forward_classification (responses : list AgentMessage) (now : Z) : Gen unit :=
  match responses with
  | [] => mret tt
  | response :: rest =>
      match type response with
      | STATUS_UPDATE => yield response
      | DATA_PROCESSED => _handle_classification_completion response now
      | _ => mret tt
      end;;
      forward_classification rest now
  end.

Definition _start_classification_phase (research_message : AgentMessage) (now : Z)
  : Gen unit :=
  set_stage CLASSIFICATION_STARTED;;
  self ← get_self;
  forward_classification (classification_responses self research_message) now.

(** The second definition of [_handle_research_completion], the one in
    force. *)
Definition _handle_research_completion (message : AgentMessage) (now : Z) : Gen unit :=
  set_stage DEEP_RESEARCH_COMPLETED;;
  yield_chat
    [ ("message", PStr "Research completed! Now I'll classify your funds into asset categories...");
      ("message_type", PStr "success") ];;
  _start_classification_phase message now.

(** The handlers that are not gone into. *)
Variable _handle_user_action : AgentMessage -> Z -> Gen unit.
Variable _handle_intake_completion : AgentMessage -> Z -> Gen unit.
Variable _handle_extraction_completion : AgentMessage -> Z -> Gen unit.

Definition _handle_agent_completion (message : AgentMessage) (now : Z) : Gen unit :=
  match sender message with
  | Some INTAKE => _handle_intake_completion message now
  | Some RESEARCH => _handle_research_completion message now
  | Some EXTRACTION => _handle_extraction_completion message now
  | _ => mret tt
  end.

Definition _handle_status_update (message : AgentMessage) : Gen unit :=
  self ← get_self;
  yield (create_message (base self) STATUS_UPDATE None (data message)).

Definition _handle_error (message : AgentMessage) : Gen unit :=
  let error :=
    match data message !! "error" with
    | Some e => e
    | None => PStr "An error occurred"
    end in
  yield_chat
    [ ("message", PFmt "{} in {} agent." [error; sender_arg (sender message)]);
      ("message_type", PStr "error");
      ("data", PDict (data message)) ].

Definition process (message : AgentMessage) (now : Z) : Gen unit :=
  match type message with
  | REQUEST_ACTION => _handle_user_action message now
  | DATA_PROCESSED => _handle_agent_completion message now
  | STATUS_UPDATE => _handle_status_update message
  | ERROR => _handle_error message
  | _ => mret tt
  end.

End Pipeline.

(** [_handle_classifications_approval]: a session, when there is one,
    counts as true whatever it holds. *)
Definition _handle_classifications_approval (message : AgentMessage) : Gen unit :=
  set_stage CATEGORIZATION_COMPLETE;;
  yield_chat
    [ ("message", PStr "Perfect! Your portfolio categorization is now complete. Here's your final summary:");
      ("message_type", PStr "success") ];;
  self ← get_self;
  match categorization_session self with
  | Some session =>
      classifications ← lift (to_dicts (snd <$> map_to_list (fund_categorizations session)));
      summary ← lift (get_summary session);
      yield (_create_categorization_results_message self
               (PDict (list_to_map [("classifications", PList classifications);
                                    ("summary", summary)])))
  | None => mret tt
  end.

(** *** The actions of the user *)

Definition set_processing_session (session : pyobject) : Gen unit :=
  fun self =>
    mkRun [] (mkChatOrchestrator (self_session_id self) (is_active self)
                (conversation_stage self) (Some session) (categorization_session self)
                (workflow_mode self))
          (Ok tt).

(** [yield] of each message of a list, in order. *)
Fixpoint yield_all (messages : list AgentMessage) : Gen unit :=
  match messages with
  | [] => mret tt
  | message :: rest => yield message;; yield_all rest
  end.

(** [ProcessingSession.update_progress] and [add_chat_message]; the
    model assigns without validation. A field that the map does not
    hold has its default. *)
Definition update_progress (session : pyobject) (stage : string) (progress : Q)
    (status : string) (now : Z) : pyobject :=
  <["updated_at" := PTime now]>
    (<["status" := PStr status]>
       (<["progress" := PNum (Py.max 0.0 (Py.min 1.0 progress))]>
          (<["stage" := PStr stage]> session))).

Definition add_chat_message (session : pyobject) (role : string) (content : pyval)
    (now : Z) : pyobject :=
  let chat_history :=
    match session !! "chat_history" with
    | Some (PList l) => l
    | _ => []
    end in
  let message : pyval :=
    PDict (list_to_map [("role", PStr role); ("content", content); ("timestamp", PTime now)]) in
  <["updated_at" := PTime now]>
    (<["chat_history" := PList (chat_history ++ [message])]> session).

Definition _generate_welcome_message (file_type : pyval) : string :=
  if eq_str file_type "csv" then
    "Welcome! I can see you've uploaded a portfolio CSV file. I'll analyze your portfolio, find the latest fund prospectuses, and extract detailed fund information for you. Ready to get started?"
  else if eq_str file_type "pdf" then
    "Great! You've uploaded a PDF document. I'll extract fund information and provide detailed analysis. Shall I begin processing?"
  else
    "Hello! I'm your AI fund onboarding assistant. I can help you analyze portfolios and extract fund data. What would you like to do today?".

Definition _start_extraction_phase : Gen unit :=
  self ← get_self;
  yield (create_message (base self) STATUS_UPDATE None
           (list_to_map [("message", PStr "Starting fund data extraction...");
                         ("stage", PStr "extraction_starting")])).

Section UserActions.

(** The intake agent (backend/agents/intake_agent.py). What the [try]
    block of its [process] computes before its [yield], the dumped
    portfolio items and their confidence, or the exception raised
    there by the name of its type; and [str(e)] for that exception. *)
Variable read_portfolio : pyval -> outcome (list pyval * Q).
Variable exception_text : pyval -> pyval.

(** [PortfolioIntakeAgent.process] as the messages it yields: a status
    update, then the items read or the error caught. The updates of the
    context that follow the second [yield] are taken not to fail. *)
Definition intake_process (agent : BaseAgent) (message : AgentMessage) : list AgentMessage :=
  match type message, data message !! "file_path" with
  | REQUEST_ACTION, Some file_path =>
      emit_status agent (PStr "processing_file")
        (Some (list_to_map [("file_path", file_path); ("stage", PStr "reading")]))
      :: match read_portfolio file_path with
         | Ok (portfolio_items, confidence) =>
             [ create_message agent DATA_PROCESSED (Some RESEARCH)
                 (list_to_map
                    [ ("portfolio_items", PList portfolio_items);
                      ("confidence_score", PNum confidence);
                      ("total_funds", PNum (Py.len portfolio_items));
                      ("file_processed", file_path) ]) ]
         | Raise exn =>
             [ emit_error agent
                 (PFmt "Failed to process portfolio file: {}" [exception_text file_path])
                 (Some (list_to_map [("file_path", file_path); ("error_type", PStr exn)])) ]
         end
  | _, _ => []
  end.

(** [_handle_file_upload]. The intake agent is the one [_setup] has
    built, as [PortfolioIntakeAgent(self.session_id)]; it registers no
    handler, so its [handle_message] is its [process]. *)
Definition _handle_file_upload (message : AgentMessage) (now : Z) : Gen unit :=
  let file_path := match data message !! "file_path" with Some v => v | None => PNone end in
  let file_type := match data message !! "file_type" with Some v => v | None => PStr "csv" end in
  if negb (truthy file_path) then yield_error (PStr "No file path provided")
  else
    self ← get_self;
    match processing_session self with
    | Some session =>
        set_processing_session
          (update_progress
             (<["file_type" := file_type]> (<["input_file_path" := file_path]> session))
             "file_uploaded" 0.1 "processing" now)
    | None => mret tt
    end;;
    yield_chat
      [ ("message", PStr (_generate_welcome_message file_type));
        ("message_type", PStr "info");
        ("suggested_actions",
         PList
           [ PDict (list_to_map [("action", PStr "start_processing");
                                 ("label", PStr "Yes, process my portfolio")]);
             PDict (list_to_map [("action", PStr "analyze_file");
                                 ("label", PStr "Show me what you found first")]) ]) ];;
    self ← get_self;
    let intake_message :=
      create_message (base self) REQUEST_ACTION (Some INTAKE)
                     (list_to_map [("file_path", file_path)]) in
    yield_all (intake_process (mkBaseAgent INTAKE (self_session_id self)) intake_message).

(** [_generate_contextual_response]: a text chosen by the words of the
    message and by the conversation stage, or the exception of a message
    that is no string. *)
Variable _generate_contextual_response : ConversationStage -> pyval -> outcome pyval.

Definition _handle_chat_message (message : AgentMessage) (now : Z) : Gen unit :=
  let user_message := match data message !! "message" with Some v => v | None => PStr "" end in
  self ← get_self;
  match processing_session self with
  | Some session => set_processing_session (add_chat_message session "user" user_message now)
  | None => mret tt
  end;;
  self ← get_self;
  response_msg ← lift (_generate_contextual_response (conversation_stage self) user_message);
  yield_chat [("message", response_msg); ("message_type", PStr "info")].

(** The handlers of the other actions, which are not gone into. *)
Variable _start_research_phase : Z -> Gen unit.
Variable _start_categorization_workflow : AgentMessage -> Z -> Gen unit.
Variable _handle_categorization_answer : AgentMessage -> Z -> Gen unit.
Variable _handle_classification_override : AgentMessage -> Z -> Gen unit.

Definition _handle_user_action (message : AgentMessage) (now : Z) : Gen unit :=
  let action := match data message !! "action" with Some v => v | None => PNone end in
  if eq_str action "upload_file" then _handle_file_upload message now
  else if eq_str action "start_research" then _start_research_phase now
  else if eq_str action "start_extraction" then _start_extraction_phase
  else if eq_str action "start_categorization" then _start_categorization_workflow message now
  else if eq_str action "start_processing" then
    self ← get_self;
    if String.eqb (workflow_mode self) "categorization"
    then _start_categorization_workflow message now
    else _start_research_phase now
  else if eq_str action "answer_question" then _handle_categorization_answer message now
  else if eq_str action "override_classification" then
    _handle_classification_override message now
  else if eq_str action "approve_classifications" then _handle_classifications_approval message
  else if eq_str action "chat_message" then _handle_chat_message message now
  else mret tt.

End UserActions.

End Orchestrator.

(** ** The API router (backend/api/unified_router.py)

    The two module-level dicts, the endpoints that create and delete
    sessions, and the endpoints that build an [AgentMessage] and hand it
    to the orchestrator of the session. The value of [str(uuid.uuid4())]
    is an argument. *)

Module Router.
Import PyObj Models Agents Orchestrator.

(** The fields of a [ProcessingSession] that the router reads and
    writes. *)
Record ProcessingSession := mkProcessingSession {
  ps_session_id : string;
  input_file_path : option string;
  file_type : string;
  status : string
}.

Record Router := mkRouter {
  active_sessions : gmap string ChatOrchestrator;
  session_data : gmap string ProcessingSession
}.

Definition empty : Router := mkRouter ∅ ∅.

(** [BaseAgent.initialize] followed by [ChatOrchestrator._setup]: the
    agent is active and has its processing session; the sub-agents are
    built with [self.session_id]. *)
Definition initialize (context_input_file_path : option string)
    (context_file_type : option string) (self : ChatOrchestrator) : ChatOrchestrator :=
  let file_type :=
    match context_file_type with
    | Some t => if String.eqb t "" then "csv" else t
    | None => "csv"
    end in
  mkChatOrchestrator (self_session_id self) true (conversation_stage self)
    (Some (list_to_map
             [ ("session_id", PStr (self_session_id self));
               ("file_type", PStr file_type);
               ("input_file_path",
                match context_input_file_path with Some p => PStr p | None => PNone end) ]))
    (categorization_session self) (workflow_mode self).

(** [BaseAgent.shutdown]. *)
Definition shutdown (self : ChatOrchestrator) : ChatOrchestrator :=
  mkChatOrchestrator (self_session_id self) false (conversation_stage self)
    (processing_session self) (categorization_session self) (workflow_mode self).

(** [create_session], [session_id] being the fresh identifier. *)
Definition create_session (session_id : string) (r : Router) : Router :=
  mkRouter
    (<[session_id := initialize None None (new session_id)]> (active_sessions r))
    (<[session_id := mkProcessingSession session_id None "csv" "idle"]> (session_data r)).

Definition sample_file_path : string :=
  "/home/ec2-user/omega-mvp/sample_model_portfolios_table.csv".

(** [test_with_sample_data] when the sample file exists. *)
Definition test_with_sample_data (session_id : string) (r : Router) : Router :=
  mkRouter
    (<[session_id := initialize (Some sample_file_path) (Some "csv") (new session_id)]>
       (active_sessions r))
    (<[session_id := mkProcessingSession session_id (Some sample_file_path) "csv" "idle"]>
       (session_data r)).

(** [upload_portfolio_file] once the file is stored under [file_path];
    [file_type] is the suffix without its dot. *)
Definition upload_portfolio_file (session_id file_path file_type : string) (r : Router)
  : outcome Router :=
  match active_sessions r !! session_id with
  | None => Raise "HTTPException(404)"
  | Some _ =>
      Ok (mkRouter (active_sessions r)
            (match session_data r !! session_id with
             | Some session =>
                 <[session_id := mkProcessingSession (ps_session_id session)
                                   (Some file_path) file_type (status session)]>
                   (session_data r)
             | None => session_data r
             end))
  end.

(** [delete_session]. *)
Definition delete_session (session_id : string) (r : Router) : Router :=
  mkRouter
    (match active_sessions r !! session_id with
     | Some _ => delete session_id (active_sessions r)
     | None => active_sessions r
     end)
    (match session_data r !! session_id with
     | Some _ => delete session_id (session_data r)
     | None => session_data r
     end).

(** [bool(session.input_file_path)]. *)
Definition has_file (session : ProcessingSession) : bool :=
  match input_file_path session with
  | Some p => negb (String.eqb p "")
  | None => false
  end.

(** The message that asks the orchestrator to process the uploaded
    file. *)
Definition upload_file_message (session_id : string) (session : ProcessingSession)
  : AgentMessage :=
  mkAgentMessage REQUEST_ACTION None None
    (list_to_map
       [ ("action", PStr "upload_file");
         ("file_path",
          match input_file_path session with Some p => PStr p | None => PNone end);
         ("file_type", PStr (file_type session)) ])
    session_id.

(** [start_processing]: the message it builds and hands to the task it
    starts. *)
Definition start_processing (request_session_id : string) (r : Router)
  : outcome AgentMessage :=
  match active_sessions r !! request_session_id with
  | None => Raise "HTTPException(404)"
  | Some _ =>
      match session_data r !! request_session_id with
      | Some session =>
          if has_file session then Ok (upload_file_message request_session_id session)
          else Raise "HTTPException(400)"
      | None => Raise "HTTPException(400)"
      end
  end.

Definition chat_message (session_id : string) (message : string) (metadata : pyobject)
  : AgentMessage :=
  mkAgentMessage REQUEST_ACTION None None
    (list_to_map
       [ ("action", PStr "chat_message"); ("message", PStr message);
         ("metadata", PDict metadata) ])
    session_id.

Section Handling.

(** [ChatOrchestrator.process]; no handler is registered, so
    [handle_message] comes down to it. *)
Variable process : AgentMessage -> Z -> Gen unit.

(** [async for response in orchestrator.handle_message(message)]: the
    responses, and the router with the orchestrator as the run left
    it. *)
Definition handle_message (session_id : string) (orchestrator : ChatOrchestrator)
    (message : AgentMessage) (now : Z) (r : Router) : Router * list AgentMessage :=
  let result := process message now orchestrator in
  (mkRouter (<[session_id := final result]> (active_sessions r)) (session_data r),
   fst <$> trace result).

(** [send_chat_message]: the message built and the responses of the
    orchestrator. *)
Definition send_chat_message (session_id : string) (message : string) (metadata : pyobject)
    (now : Z) (r : Router) : outcome (Router * (AgentMessage * list AgentMessage)) :=
  match active_sessions r !! session_id with
  | None => Raise "HTTPException(404)"
  | Some orchestrator =>
      let agent_message := chat_message session_id message metadata in
      let '(r', responses) := handle_message session_id orchestrator agent_message now r in
      Ok (r', (agent_message, responses))
  end.

(** [enhanced_stream]: processing starts when a file is uploaded and the
    session is idle. *)
Definition enhanced_stream (session_id : string) (now : Z) (r : Router)
  : outcome (Router * option (AgentMessage * list AgentMessage)) :=
  match active_sessions r !! session_id with
  | None => Raise "HTTPException(404)"
  | Some orchestrator =>
      match session_data r !! session_id with
      | Some session =>
          if has_file session && String.eqb (status session) "idle" then
            let process_message := upload_file_message session_id session in
            let '(r', responses) :=
              handle_message session_id orchestrator process_message now r in
            Ok (r', Some (process_message, responses))
          else Ok (r, None)
      | None => Ok (r, None)
      end
  end.

(** The requests served one after the other. *)
Inductive request :=
| CreateSession (uuid : string)
| TestSample (uuid : string)
| Upload (session_id file_path file_type : string)
| Chat (session_id message : string) (metadata : pyobject)
| Stream (session_id : string)
| Delete (session_id : string).

(** A request served: the router afterwards and, when a message was
    built, the message with the responses to it. A request refused with
    an [HTTPException] leaves the router as it was. *)
Definition serve (req : request) (now : Z) (r : Router)
  : Router * option (AgentMessage * list AgentMessage) :=
  match req with
  | CreateSession uuid => (create_session uuid r, None)
  | TestSample uuid => (test_with_sample_data uuid r, None)
  | Upload session_id file_path file_type =>
      match upload_portfolio_file session_id file_path file_type r with
      | Ok r' => (r', None)
      | Raise _ => (r, None)
      end
  | Chat session_id message metadata =>
      match send_chat_message session_id message metadata now r with
      | Ok (r', exchange) => (r', Some exchange)
      | Raise _ => (r, None)
      end
  | Stream session_id =>
      match enhanced_stream session_id now r with
      | Ok result => result
      | Raise _ => (r, None)
      end
  | Delete session_id => (delete_session session_id r, None)
  end.

Fixpoint serve_all (reqs : list request) (now : Z) (r : Router)
  : Router * list (AgentMessage * list AgentMessage) :=
  match reqs with
  | [] => (r, [])
  | req :: rest =>
      let '(r', exchange) := serve req now r in
      let '(r'', exchanges) := serve_all rest (now + 1) r' in
      (r'', match exchange with Some e => e :: exchanges | None => exchanges end)
  end.

End Handling.

End Router.

(** ** Properties of the confidence scorer *)

Module ConfidenceScoringFacts.
Import ConfidenceScoring.
Local Open Scope Q_scope.

(** The sum of the weights of a table. *)
Definition total_weight (weights : list (string * Q)) : Q :=
  fold_left (fun acc item => acc + snd item) weights 0.

Lemma weighted_score_default (f : ConfidenceFactors) :
  get_weighted_score f None =
  (0 + source_reliability f * 0.20 + source_diversity f * 0.10
     + data_freshness f * 0.05 + pattern_match_score f * 0.15
     + pattern_specificity f * 0.10 + method_agreement f * 0.15
     + historical_accuracy f * 0.10 + data_completeness f * 0.10
     + data_consistency f * 0.10 + domain_specificity f * 0.15
     + contextual_coherence f * 0.10)
  / (0 + 0.20 + 0.10 + 0.05 + 0.15 + 0.10 + 0.15 + 0.10 + 0.10 + 0.10 + 0.15 + 0.10).
Proof. reflexivity. Qed.

Lemma default_weights_total : total_weight default_weights == 1.30.
Proof. vm_compute. reflexivity. Qed.

Lemma factors_in_unit_fields (f : ConfidenceFactors) :
  factors_in_unit f ->
  (0 <= source_reliability f <= 1) /\ (0 <= source_diversity f <= 1) /\
  (0 <= data_freshness f <= 1) /\ (0 <= pattern_match_score f <= 1) /\
  (0 <= pattern_specificity f <= 1) /\ (0 <= method_agreement f <= 1) /\
  (0 <= historical_accuracy f <= 1) /\ (0 <= data_completeness f <= 1) /\
  (0 <= data_consistency f <= 1) /\ (0 <= domain_specificity f <= 1) /\
  (0 <= contextual_coherence f <= 1).
Proof.
  unfold factors_in_unit, factor_fields. intros H.
  repeat (apply Forall_cons_1 in H; destruct H as [? H]). simpl in *.
  repeat split; tauto.
Qed.

Lemma weighted_score_in_unit (f : ConfidenceFactors) :
  factors_in_unit f -> 0 <= get_weighted_score f None <= 1.
Proof.
  intros H. apply factors_in_unit_fields in H.
  rewrite weighted_score_default.
  split.
  - apply Qle_shift_div_l; [reflexivity | lra].
  - apply Qle_shift_div_r; [reflexivity | lra].
Qed.

Lemma consistency_penalty_nonneg (cd : classification_data) :
  0 <= _calculate_consistency_penalty cd.
Proof.
  unfold _calculate_consistency_penalty.
  repeat match goal with
         | |- context [if ?b then _ else _] => destruct b
         end; lra.
Qed.

Lemma all_zero_in_unit : factors_in_unit all_zero.
Proof. unfold factors_in_unit, factor_fields, all_zero. repeat constructor; simpl; lra. Qed.

Lemma all_one_in_unit : factors_in_unit all_one.
Proof. unfold factors_in_unit, factor_fields, all_one. repeat constructor; simpl; lra. Qed.

Example weighted_score_all_zero : get_weighted_score all_zero None == 0.
Proof. vm_compute. reflexivity. Qed.

Example weighted_score_all_one : get_weighted_score all_one None == 1.
Proof. vm_compute. reflexivity. Qed.

(** C1 as stated fails on one point: the default weight table does not sum
    to 1.20. *)
Lemma default_weights_do_not_sum_to_1_20 :
  ~ (total_weight default_weights == 1.20).
Proof. rewrite default_weights_total. intros H. vm_compute in H. discriminate. Qed.

(** C1 (amended): the default weight table sums to 1.30; for every factor
    vector whose eleven fields lie in [[0,1]] the weighted score with the
    default table, which is the weighted sum divided by 1.30, lies in
    [[0,1]]; the confidence returned by
    [calculate_classification_confidence], which is the weighted score
    times (1 + method bonus), capped at 1, minus the consistency penalty,
    floored at 0, lies in [[0,1]]; the all-zero vector scores 0 and the
    all-one vector scores 1. *)
Theorem confidence_score_in_unit_interval
    (a1 a2 : research_data -> Q) (a3 a4 a5 a6 : classification_data -> Q)
    (a7 a8 : classification_data -> research_data -> Q)
    (a9 a10 : classification_data -> Q)
    (f : ConfidenceFactors) (cd : classification_data)
    (research validation : option research_data) :
  factors_in_unit f ->
  total_weight default_weights == 1.30 /\
  0 <= get_weighted_score f None <= 1 /\
  (let result := calculate_classification_confidence
                   a1 a2 a3 a4 a5 a6 a7 a8 a9 a10 cd research validation in
   snd result = assess_factors a1 a2 a3 a4 a5 a6 a7 a8 a9 a10 cd research /\
   fst result =
     Py.max 0.0
       (Py.min 1.0 (get_weighted_score (snd result) None
                    * (1.0 + _get_method_confidence_bonus cd))
        - _calculate_consistency_penalty cd) /\
   0 <= fst result <= 1) /\
  get_weighted_score all_zero None == 0 /\
  get_weighted_score all_one None == 1.
Proof.
  intros Hf. split; [apply default_weights_total |].
  split; [apply weighted_score_in_unit, Hf |].
  split; [| split; [apply weighted_score_all_zero | apply weighted_score_all_one]].
  cbv zeta. split; [reflexivity |]. split; [reflexivity |].
  unfold calculate_classification_confidence. cbn [fst].
  pose proof (consistency_penalty_nonneg cd) as Hp.
  split.
  - eapply Qle_trans; [| apply Py.max_ge_l]. lra.
  - apply Py.max_lub; [lra |].
    pose proof (Py.min_le_l 1.0
      (get_weighted_score (assess_factors a1 a2 a3 a4 a5 a6 a7 a8 a9 a10 cd research) None
       * (1.0 + _get_method_confidence_bonus cd))) as Hm.
    lra.
Qed.

Lemma confidence_score_in_unit_interval_witness :
  factors_in_unit all_one /\
  0 <= get_weighted_score all_one None <= 1.
Proof.
  split; [apply all_one_in_unit |].
  apply (confidence_score_in_unit_interval
           (fun _ => 1) (fun _ => 1) (fun _ => 1) (fun _ => 1) (fun _ => 1)
           (fun _ => 1) (fun _ _ => 1) (fun _ _ => 1) (fun _ => 1) (fun _ => 1)
           all_one
           (mkClassificationData (Some "VTI") (Some "Vanguard Total Stock Market ETF")
              (Some "Equity") (Some "known_fund") (Some "Known fund: Vanguard")
              (Some "US") (Some "Blend") (Some "Large") None None [])
           None None).
  apply all_one_in_unit.
Defined.

End ConfidenceScoringFacts.

(** ** Source diversity *)

Module SourceDiversityFacts.
Import ConfidenceScoring.
Local Open Scope Q_scope.

(** The five source categories. *)
Definition categories : list string :=
  ["financial_data"; "regulatory"; "fund_company"; "news"; "general"].

(** The number of categories that at least one source falls in. *)
Definition unique_categories (sources : list string) : nat :=
  length (List.filter
            (fun c => existsb (fun s => String.eqb (source_type_of s) c) sources)
            categories).

(** The sources of a [research_data] dict: [.get("research_sources", [])]. *)
Definition sources_of (research : research_data) : list string :=
  match research_sources research with Some l => l | None => [] end.

(** The factor as the specification words it: 0 for no source, otherwise
    the share of categories plus the capped bonus. *)
Definition source_diversity_as_specified (research : research_data) : Q :=
  let sources := sources_of research in
  if (length sources =? 0)%nat then 0
  else Py.min 1 (inject_Z (Z.of_nat (unique_categories sources)) / 5
                 + Py.min 0.2 (0.05 * (Py.len sources - 1))).

Lemma source_type_of_category (s : string) : source_type_of s ∈ categories.
Proof.
  unfold source_type_of, categories.
  repeat match goal with
         | |- context [if ?b then _ else _] => destruct b
         end; set_solver.
Qed.

Lemma elem_of_fold_source_types (l : list string) (acc : gset string) (c : string) :
  c ∈ fold_left (fun acc source => acc ∪ {[ source_type_of source ]}) l acc
  <-> c ∈ acc \/ exists s, s ∈ l /\ source_type_of s = c.
Proof.
  revert acc. induction l as [| x l IH]; intros acc; simpl.
  - split; [auto | intros [H | (s & Hs & _)]; [exact H | inversion Hs]].
  - rewrite IH. rewrite elem_of_union, elem_of_singleton. split.
    + intros [[H | H] | (s & Hs & E)].
      * auto.
      * right. exists x. split; [left | auto].
      * right. exists s. split; [right; exact Hs | exact E].
    + intros [H | (s & Hs & E)]; [auto |].
      apply elem_of_cons in Hs as [-> | Hs]; [auto |].
      right. exists s. auto.
Qed.

Lemma elem_of_source_types (l : list string) (c : string) :
  c ∈ source_types l <-> exists s, s ∈ l /\ source_type_of s = c.
Proof.
  unfold source_types. rewrite elem_of_fold_source_types.
  split; [intros [H | H]; [set_solver | exact H] | auto].
Qed.

Lemma existsb_source_type (l : list string) (c : string) :
  existsb (fun s => String.eqb (source_type_of s) c) l = true
  <-> c ∈ source_types l.
Proof.
  rewrite elem_of_source_types, existsb_exists. split.
  - intros (s & Hs & E). apply String.eqb_eq in E.
    exists s. split; [apply list_elem_of_In, Hs | exact E].
  - intros (s & Hs & E). exists s.
    split; [apply list_elem_of_In, Hs | apply String.eqb_eq, E].
Qed.

(** A set drawn from a duplicate-free list has as many elements as the
    list has members of the set. *)
Lemma size_subset_of_list (X : gset string) (l : list string) :
  NoDup l -> (forall c, c ∈ X -> c ∈ l) ->
  size X = length (List.filter (fun c => bool_decide (c ∈ X)) l).
Proof.
  intros Hnd Hsub.
  assert (HX : X = list_to_set (List.filter (fun c => bool_decide (c ∈ X)) l)).
  { apply set_eq. intros c. rewrite elem_of_list_to_set, list_elem_of_In, filter_In.
    rewrite bool_decide_eq_true, <- list_elem_of_In. split; [auto | tauto]. }
  rewrite HX at 1. apply size_list_to_set.
  apply NoDup_ListNoDup, List.NoDup_filter, NoDup_ListNoDup, Hnd.
Qed.

Lemma size_source_types (l : list string) :
  size (source_types l) = unique_categories l.
Proof.
  unfold unique_categories.
  rewrite (size_subset_of_list (source_types l) categories).
  - f_equal. apply List.filter_ext. intros c.
    apply eq_true_iff_eq. rewrite bool_decide_eq_true. symmetry.
    apply existsb_source_type.
  - apply (bool_decide_unpack (NoDup categories)). vm_compute. exact I.
  - intros c Hc. apply elem_of_source_types in Hc as (s & _ & <-).
    apply source_type_of_category.
Qed.

Lemma unique_categories_le (l : list string) : (unique_categories l <= 5)%nat.
Proof.
  unfold unique_categories.
  etransitivity; [apply List.filter_length_le | reflexivity].
Qed.

Lemma min_compat (a a' b b' : Q) :
  a == a' -> b == b' -> Py.min a b == Py.min a' b'.
Proof.
  intros Ha Hb.
  destruct (Py.min_spec a b) as [[H ->] | [H ->]];
    destruct (Py.min_spec a' b') as [[H' ->] | [H' ->]]; lra.
Qed.

Lemma assess_source_diversity_cases (research : research_data) :
  _assess_source_diversity research =
  match length (sources_of research) with
  | O => 0.0
  | S O => 0.3
  | _ => Py.min 1.0
           (inject_Z (Z.of_nat (unique_categories (sources_of research))) / 5.0
            + Py.min 0.2 ((Py.len (sources_of research) - 1) * 0.05))
  end.
Proof.
  unfold _assess_source_diversity, sources_of.
  destruct (research_sources research) as [[| s1 [| s2 l]] |]; try reflexivity.
  cbn [length Nat.leb Nat.eqb]. rewrite size_source_types. reflexivity.
Qed.

Lemma source_diversity_bonus_nonneg (l : list string) :
  (1 <= length l)%nat -> 0 <= Py.min 0.2 ((Py.len l - 1) * 0.05).
Proof.
  intros H. apply Py.min_glb; [lra |].
  unfold Py.len.
  assert (1 <= inject_Z (Z.of_nat (length l))).
  { change 1 with (inject_Z 1). rewrite <- Zle_Qle. lia. }
  nra.
Qed.

Lemma assess_source_diversity_in_unit (research : research_data) :
  0 <= _assess_source_diversity research <= 1.
Proof.
  rewrite assess_source_diversity_cases.
  destruct (length (sources_of research)) as [| [| n]] eqn:E; [lra | lra |].
  split; [| pose proof (Py.min_le_l 1.0
              (inject_Z (Z.of_nat (unique_categories (sources_of research))) / 5.0
               + Py.min 0.2 ((Py.len (sources_of research) - 1) * 0.05))); lra].
  apply Py.min_glb; [lra |].
  pose proof (source_diversity_bonus_nonneg (sources_of research)) as Hb.
  assert (0 <= inject_Z (Z.of_nat (unique_categories (sources_of research))) / 5.0).
  { apply Qle_shift_div_l; [reflexivity |].
    rewrite Qmult_0_l. change 0 with (inject_Z 0). rewrite <- Zle_Qle. lia. }
  assert (1 <= length (sources_of research))%nat by lia.
  specialize (Hb ltac:(assumption)). lra.
Qed.

Definition one_source : research_data :=
  mkResearchData (Some ["https://www.morningstar.com/etfs/arcx/vti/quote"]) [].

(** C7 as stated fails for exactly one source: the code returns 0.3 where
    the stated formula gives 1/5 + 0 = 0.2. *)
Lemma single_source_diversity_is_not_one_fifth :
  _assess_source_diversity one_source == 0.3 /\
  source_diversity_as_specified one_source == 0.2 /\
  ~ (_assess_source_diversity one_source == source_diversity_as_specified one_source).
Proof.
  assert (H1 : _assess_source_diversity one_source == 0.3) by (vm_compute; reflexivity).
  assert (H2 : source_diversity_as_specified one_source == 0.2) by (vm_compute; reflexivity).
  split; [exact H1 |]. split; [exact H2 |].
  rewrite H1, H2. intros H. vm_compute in H. discriminate.
Qed.

(** C7 (amended): the source diversity factor is 0 for zero sources, 0.3
    for exactly one source, and for two or more sources
    min(1, unique_categories/5 + min(0.2, 0.05 * (source_count - 1))),
    where every source falls in one of the five categories financial_data,
    regulatory, fund_company, news and general and unique_categories
    counts the categories hit; the factor lies in [[0,1]]. *)
Theorem source_diversity_formula (research : research_data) :
  _assess_source_diversity research ==
    match length (sources_of research) with
    | O => 0
    | S O => 0.3
    | _ => source_diversity_as_specified research
    end /\
  Forall (fun s => source_type_of s ∈ categories) (sources_of research) /\
  size (source_types (sources_of research)) = unique_categories (sources_of research) /\
  0 <= _assess_source_diversity research <= 1.
Proof.
  split; [| split; [| split]].
  - rewrite assess_source_diversity_cases. unfold source_diversity_as_specified.
    destruct (length (sources_of research)) as [| [| n]] eqn:E; [reflexivity .. |].
    cbn [Nat.eqb]. apply min_compat; [reflexivity |].
    apply Qplus_comp.
    + apply Qdiv_comp; reflexivity.
    + apply min_compat; [reflexivity | ring].
  - apply Forall_forall. intros s _. apply source_type_of_category.
  - apply size_source_types.
  - apply assess_source_diversity_in_unit.
Qed.

Example source_diversity_three_sources :
  _assess_source_diversity
    (mkResearchData (Some ["morningstar.com"; "sec.gov"; "Yahoo Finance"]) [])
  == 0.5.
Proof. vm_compute. reflexivity. Qed.

End SourceDiversityFacts.

(** ** Properties of the research cache *)

Module ResearchCacheFacts.
Import ResearchCache.
Local Open Scope Z_scope.

(** *** The ordered dict *)

(** A dict holds a key once. *)
Definition dict_wf (d : list (string * CacheEntry)) : Prop := NoDup (map fst d).

Lemma dict_get_In (k : string) (e : CacheEntry) (d : list (string * CacheEntry)) :
  dict_get k d = Some e -> In (k, e) d.
Proof.
  induction d as [| [k' e'] d IH]; simpl; [discriminate |].
  destruct (String.eqb_spec k k') as [-> | Hne].
  - intros [= ->]. left. reflexivity.
  - intros H. right. apply IH, H.
Qed.

Lemma dict_get_None_not_in (k : string) (d : list (string * CacheEntry)) :
  dict_get k d = None -> k ∉ map fst d.
Proof.
  induction d as [| [k' e'] d IH]; simpl; [intros _; apply not_elem_of_nil |].
  destruct (String.eqb_spec k k') as [-> | Hne]; [discriminate |].
  intros H. apply not_elem_of_cons. split; [exact Hne | apply IH, H].
Qed.

Lemma In_dict_get (k : string) (e : CacheEntry) (d : list (string * CacheEntry)) :
  dict_wf d -> In (k, e) d -> dict_get k d = Some e.
Proof.
  unfold dict_wf. induction d as [| [k' e'] d IH]; simpl; [tauto |].
  intros Hnd [[= -> ->] | Hin].
  - rewrite String.eqb_refl. reflexivity.
  - apply NoDup_cons in Hnd as [Hk' Hnd].
    destruct (String.eqb_spec k k') as [-> | Hne]; [| apply IH; assumption].
    exfalso. apply Hk'. apply list_elem_of_In.
    change k' with (fst (k', e)). apply in_map, Hin.
Qed.

Lemma dict_get_set_eq (k : string) (e : CacheEntry) (d : list (string * CacheEntry)) :
  dict_get k (dict_set k e d) = Some e.
Proof.
  induction d as [| [k' e'] d IH]; simpl.
  - rewrite String.eqb_refl. reflexivity.
  - destruct (String.eqb_spec k k') as [-> | Hne]; simpl.
    + rewrite String.eqb_refl. reflexivity.
    + destruct (String.eqb_spec k k'); [contradiction | exact IH].
Qed.

Lemma dict_set_fresh (k : string) (e : CacheEntry) (d : list (string * CacheEntry)) :
  dict_get k d = None -> dict_set k e d = d ++ [(k, e)].
Proof.
  induction d as [| [k' e'] d IH]; simpl; [reflexivity |].
  destruct (String.eqb_spec k k'); [discriminate |].
  intros H. rewrite IH by exact H. reflexivity.
Qed.

Lemma dict_del_length (k : string) (e : CacheEntry) (d : list (string * CacheEntry)) :
  dict_get k d = Some e -> S (length (dict_del k d)) = length d.
Proof.
  induction d as [| [k' e'] d IH]; simpl; [discriminate |].
  destruct (String.eqb_spec k k'); [reflexivity |].
  intros H. simpl. rewrite IH by exact H. reflexivity.
Qed.

Lemma dict_del_subset (k : string) (d : list (string * CacheEntry)) (p : string * CacheEntry) :
  In p (dict_del k d) -> In p d.
Proof.
  induction d as [| [k' e'] d IH]; simpl; [tauto |].
  destruct (String.eqb k k'); simpl; [tauto |].
  intros [H | H]; [left; exact H | right; apply IH, H].
Qed.

Lemma dict_del_keeps (k : string) (d : list (string * CacheEntry)) (p : string * CacheEntry) :
  In p d -> fst p <> k -> In p (dict_del k d).
Proof.
  induction d as [| [k' e'] d IH]; simpl; [tauto |].
  intros [<- | H] Hne.
  - destruct (String.eqb_spec k k') as [-> | _]; [simpl in Hne; congruence | left; reflexivity].
  - destruct (String.eqb k k'); [exact H | right; apply IH; assumption].
Qed.

Lemma dict_del_wf (k : string) (d : list (string * CacheEntry)) :
  dict_wf d -> dict_wf (dict_del k d).
Proof.
  unfold dict_wf. induction d as [| [k' e'] d IH]; simpl; [auto |].
  intros Hnd. apply NoDup_cons in Hnd as [Hk' Hnd].
  destruct (String.eqb k k'); simpl; [exact Hnd |].
  apply NoDup_cons. split; [| apply IH, Hnd].
  intros Hin. apply Hk'. apply list_elem_of_In in Hin. apply list_elem_of_In.
  apply in_map_iff in Hin as (p & <- & Hp).
  apply in_map, (dict_del_subset k), Hp.
Qed.

Lemma dict_del_removes (k : string) (d : list (string * CacheEntry)) :
  dict_wf d -> dict_get k (dict_del k d) = None.
Proof.
  unfold dict_wf. induction d as [| [k' e'] d IH]; simpl; [reflexivity |].
  intros Hnd. apply NoDup_cons in Hnd as [Hk' Hnd].
  destruct (String.eqb_spec k k') as [-> | Hne]; simpl.
  - destruct (dict_get k' d) as [e |] eqn:E; [| reflexivity].
    exfalso. apply Hk', list_elem_of_In.
    change k' with (fst (k', e)). apply in_map, dict_get_In, E.
  - destruct (String.eqb_spec k k'); [contradiction | apply IH, Hnd].
Qed.

Lemma dict_set_keys (k k0 : string) (e : CacheEntry) (d : list (string * CacheEntry)) :
  k0 ∈ map fst (dict_set k e d) -> k0 = k \/ k0 ∈ map fst d.
Proof.
  induction d as [| [k' e'] d IH]; simpl; intros H.
  - apply elem_of_cons in H as [-> | H]; [left; reflexivity | right; exact H].
  - destruct (String.eqb_spec k k') as [-> | Hne]; simpl in H.
    + apply elem_of_cons in H as [-> | H]; [left; reflexivity | right; right; exact H].
    + apply elem_of_cons in H as [-> | H]; [right; left |].
      destruct (IH H) as [-> | H']; [left; reflexivity | right; right; exact H'].
Qed.

Lemma dict_set_wf (k : string) (e : CacheEntry) (d : list (string * CacheEntry)) :
  dict_wf d -> dict_wf (dict_set k e d).
Proof.
  unfold dict_wf. induction d as [| [k' e'] d IH]; simpl; intros Hnd.
  - apply NoDup_singleton.
  - apply NoDup_cons in Hnd as [Hk' Hnd].
    destruct (String.eqb_spec k k') as [-> | Hne]; simpl.
    + apply NoDup_cons. split; assumption.
    + apply NoDup_cons. split; [| apply IH, Hnd].
      intros Hin. destruct (dict_set_keys _ _ _ _ Hin) as [-> | H'];
        [congruence | contradiction].
Qed.

(** *** Eviction *)

Lemma min_by_last_accessed_In (best : string * CacheEntry) (rest : list (string * CacheEntry)) :
  In (min_by_last_accessed best rest) (best :: rest).
Proof.
  revert best. induction rest as [| x rest IH]; intros best; simpl; [left; reflexivity |].
  destruct (IH (if last_accessed (snd x) <? last_accessed (snd best) then x else best))
    as [H | H]; [| right; right; exact H].
  rewrite <- H. destruct (last_accessed (snd x) <? last_accessed (snd best)); auto.
Qed.

Lemma min_by_last_accessed_le_best (best : string * CacheEntry)
    (rest : list (string * CacheEntry)) :
  last_accessed (snd (min_by_last_accessed best rest)) <= last_accessed (snd best).
Proof.
  revert best. induction rest as [| x rest IH]; intros best; simpl; [lia |].
  etransitivity; [apply IH |].
  destruct (Z.ltb_spec (last_accessed (snd x)) (last_accessed (snd best))); lia.
Qed.

Lemma min_by_last_accessed_le (best : string * CacheEntry) (rest : list (string * CacheEntry)) :
  forall p, In p (best :: rest) ->
  last_accessed (snd (min_by_last_accessed best rest)) <= last_accessed (snd p).
Proof.
  revert best. induction rest as [| x rest IH]; intros best p Hin; simpl.
  - destruct Hin as [<- | []]. lia.
  - destruct Hin as [Hp | [Hp | Hin]].
    + subst p. etransitivity; [apply min_by_last_accessed_le_best |].
      destruct (Z.ltb_spec (last_accessed (snd x)) (last_accessed (snd best))); lia.
    + subst p. etransitivity; [apply min_by_last_accessed_le_best |].
      destruct (Z.ltb_spec (last_accessed (snd x)) (last_accessed (snd best))); lia.
    + apply IH. right. exact Hin.
Qed.

Lemma In_dict_get_some (k : string) (e : CacheEntry) (d : list (string * CacheEntry)) :
  In (k, e) d -> exists e', dict_get k d = Some e'.
Proof.
  induction d as [| [k' e'] d IH]; simpl; [tauto |].
  intros [[= -> ->] | H].
  - rewrite String.eqb_refl. eauto.
  - destruct (String.eqb k k'); [eauto | apply IH, H].
Qed.

(** The key chosen for eviction is resident and no resident entry was
    accessed before it. *)
Lemma lru_key_spec (d : list (string * CacheEntry)) :
  d <> [] ->
  exists k e, lru_key d = Some k /\ In (k, e) d /\
              forall p, In p d -> last_accessed e <= last_accessed (snd p).
Proof.
  destruct d as [| x d]; [congruence | intros _].
  destruct (min_by_last_accessed x d) as [k e] eqn:E.
  exists k, e. simpl. rewrite E. split; [reflexivity |]. split.
  - rewrite <- E. apply min_by_last_accessed_In.
  - intros p Hp. change e with (snd (k, e)). rewrite <- E.
    apply min_by_last_accessed_le, Hp.
Qed.

Lemma evict_from_memory_spec (c : ResearchDataCache) :
  dict_wf (memory_cache c) -> memory_cache c <> [] ->
  exists k e,
    lru_key (memory_cache c) = Some k /\
    dict_get k (memory_cache c) = Some e /\
    (forall p, In p (memory_cache c) -> last_accessed e <= last_accessed (snd p)) /\
    _evict_from_memory c =
      with_stats (with_memory c (dict_del k (memory_cache c)) (memory_size c - size_bytes e))
                 (bump_evictions (stats c)).
Proof.
  intros Hwf Hne. destruct (lru_key_spec _ Hne) as (k & e & Hk & Hin & Hold).
  exists k, e. pose proof (In_dict_get _ _ _ Hwf Hin) as Hget.
  repeat split; try assumption.
  unfold _evict_from_memory, _remove_from_memory. rewrite Hk, Hget. reflexivity.
Qed.

Lemma evict_from_memory_length (c : ResearchDataCache) :
  memory_cache c <> [] ->
  S (length (memory_cache (_evict_from_memory c))) = length (memory_cache c).
Proof.
  intros Hne. destruct (lru_key_spec _ Hne) as (k & e & Hk & Hin & _).
  destruct (In_dict_get_some _ _ _ Hin) as [e' Hget].
  unfold _evict_from_memory, _remove_from_memory. rewrite Hk, Hget. simpl.
  apply (dict_del_length k e'), Hget.
Qed.

Lemma evict_from_memory_wf (c : ResearchDataCache) :
  dict_wf (memory_cache c) -> dict_wf (memory_cache (_evict_from_memory c)).
Proof.
  intros Hwf. unfold _evict_from_memory, _remove_from_memory.
  destruct (lru_key (memory_cache c)) as [k |]; [| exact Hwf].
  destruct (dict_get k (memory_cache c)); simpl; [apply dict_del_wf, Hwf | exact Hwf].
Qed.

Lemma evict_from_memory_budget (c : ResearchDataCache) :
  max_memory_size (_evict_from_memory c) = max_memory_size c
  /\ default_ttl (_evict_from_memory c) = default_ttl c
  /\ cache_entries (_evict_from_memory c) = cache_entries c.
Proof.
  unfold _evict_from_memory, _remove_from_memory.
  destruct (lru_key (memory_cache c)) as [k |]; [| auto].
  destruct (dict_get k (memory_cache c)); simpl; auto.
Qed.

Lemma over_budget_true (c : ResearchDataCache) (size : Z) :
  over_budget c size = true <->
  max_memory_size c < memory_size c + size /\ memory_cache c <> [].
Proof.
  unfold over_budget. rewrite andb_true_iff, !Z.ltb_lt.
  destruct (memory_cache c); simpl; split; intros [H1 H2]; split;
    try lia; try congruence.
Qed.

Lemma over_budget_false (c : ResearchDataCache) (size : Z) :
  over_budget c size = false <->
  memory_size c + size <= max_memory_size c \/ memory_cache c = [].
Proof.
  destruct (over_budget c size) eqn:E.
  - apply over_budget_true in E as [H1 H2]. split; [discriminate |].
    intros [H | H]; [lia | congruence].
  - split; [intros _ | reflexivity].
    destruct (Z.le_gt_cases (memory_size c + size) (max_memory_size c)) as [H | H];
      [left; exact H |].
    destruct (memory_cache c) eqn:Em; [right; reflexivity |].
    assert (over_budget c size = true); [| congruence].
    apply over_budget_true. rewrite Em. split; [lia | congruence].
Qed.

(** The loop is a run of evictions, each made while the entry did not
    fit and an entry was resident. *)
Lemma evict_while_iter (fuel : nat) (size : Z) (c : ResearchDataCache) :
  exists n : nat,
    (n <= fuel)%nat /\
    evict_while fuel size c = Nat.iter n _evict_from_memory c /\
    (forall i : nat, (i < n)%nat ->
       over_budget (Nat.iter i _evict_from_memory c) size = true) /\
    ((n < fuel)%nat -> over_budget (Nat.iter n _evict_from_memory c) size = false).
Proof.
  revert c. induction fuel as [| fuel IH]; intros c; simpl.
  - exists O. repeat split; [lia | intros i Hi; lia | intros Hi; lia].
  - destruct (over_budget c size) eqn:E.
    + destruct (IH (_evict_from_memory c)) as (n & Hn & Heq & Hbefore & Hafter).
      exists (S n). rewrite Nat.iter_succ_r. repeat split.
      * lia.
      * exact Heq.
      * intros [| i] Hi; [exact E |]. rewrite Nat.iter_succ_r. apply Hbefore. lia.
      * intros Hi. apply Hafter. lia.
    + exists O. repeat split; [lia | intros i Hi; lia | intros _; exact E].
Qed.

(** As many turns as there are resident entries end the loop by its
    condition. *)
Lemma evict_while_exit (fuel : nat) (size : Z) (c : ResearchDataCache) :
  (length (memory_cache c) <= fuel)%nat ->
  over_budget (evict_while fuel size c) size = false.
Proof.
  revert c. induction fuel as [| fuel IH]; intros c Hlen; simpl.
  - apply over_budget_false. right.
    destruct (memory_cache c); [reflexivity | simpl in Hlen; lia].
  - destruct (over_budget c size) eqn:E; [| exact E].
    apply IH. apply over_budget_true in E as [_ Hne].
    pose proof (evict_from_memory_length c Hne). lia.
Qed.

Lemma evict_while_table (fuel : nat) (size : Z) (c : ResearchDataCache) :
  cache_entries (evict_while fuel size c) = cache_entries c.
Proof.
  revert c. induction fuel as [| fuel IH]; intros c; simpl; [reflexivity |].
  destruct (over_budget c size); [| reflexivity].
  rewrite IH. apply evict_from_memory_budget.
Qed.

Lemma iter_evict_budget (n : nat) (c : ResearchDataCache) :
  max_memory_size (Nat.iter n _evict_from_memory c) = max_memory_size c.
Proof.
  induction n as [| n IH]; simpl; [reflexivity |].
  destruct (evict_from_memory_budget (Nat.iter n _evict_from_memory c)) as [-> _].
  exact IH.
Qed.

(** *** Adding to the memory tier *)

(** The memory tier holds [n] entries of [s] bytes each and is exactly
    full: the budget is [n * s] and so is the accounted size. *)
Definition full_of_equal_items (c : ResearchDataCache) (s : Z) : Prop :=
  dict_wf (memory_cache c) /\
  memory_cache c <> [] /\
  0 < s /\
  Forall (fun p => size_bytes (snd p) = s) (memory_cache c) /\
  memory_size c = Z.of_nat (length (memory_cache c)) * s /\
  max_memory_size c = Z.of_nat (length (memory_cache c)) * s.

Lemma add_to_memory_runs_evictions (c : ResearchDataCache) (k v : string)
    (data : entry_data) (now : Z) :
  let size := get_or (ed_size_bytes data) (_calculate_size v) in
  exists n : nat,
    let c' := Nat.iter n _evict_from_memory c in
    (forall i : nat, (i < n)%nat ->
       over_budget (Nat.iter i _evict_from_memory c) size = true) /\
    (memory_size c' + size <= max_memory_size c' \/ memory_cache c' = []) /\
    _add_to_memory c k v data now =
      with_memory c'
        (dict_set k (memory_entry (default_ttl c') k v data now size) (memory_cache c'))
        (memory_size c' + size).
Proof.
  intros size.
  destruct (evict_while_iter (length (memory_cache c)) size c)
    as (n & _ & Heq & Hbefore & _).
  exists n. cbv zeta. split; [exact Hbefore |]. split.
  - apply over_budget_false. rewrite <- Heq. apply evict_while_exit. lia.
  - unfold _add_to_memory. fold size. rewrite Heq. reflexivity.
Qed.

Lemma add_to_memory_full (c : ResearchDataCache) (k v : string)
    (data : entry_data) (now s : Z) :
  full_of_equal_items c s ->
  dict_get k (memory_cache c) = None ->
  get_or (ed_size_bytes data) (_calculate_size v) = s ->
  exists victim e,
    lru_key (memory_cache c) = Some victim /\
    dict_get victim (memory_cache c) = Some e /\
    (forall p, In p (memory_cache c) -> last_accessed e <= last_accessed (snd p)) /\
    memory_cache (_add_to_memory c k v data now) =
      dict_del victim (memory_cache c)
      ++ [(k, memory_entry (default_ttl c) k v data now s)] /\
    (forall p, In p (memory_cache c) -> fst p <> victim ->
               In p (memory_cache (_add_to_memory c k v data now))) /\
    length (memory_cache (_add_to_memory c k v data now)) = length (memory_cache c) /\
    memory_size (_add_to_memory c k v data now) = max_memory_size c /\
    evictions (stats (_add_to_memory c k v data now)) = evictions (stats c) + 1.
Proof.
  intros (Hwf & Hne & Hs & Hall & Hsize & Hmax) Hfresh Hdata.
  destruct (evict_from_memory_spec c Hwf Hne) as (victim & e & Hk & Hget & Hold & Hev).
  exists victim, e.
  assert (He : size_bytes e = s).
  { apply dict_get_In in Hget. rewrite Forall_forall in Hall.
    apply (Hall (victim, e)), list_elem_of_In, Hget. }
  assert (Hloop : evict_while (length (memory_cache c)) s c = _evict_from_memory c).
  { destruct (memory_cache c) as [| x d] eqn:Em; [congruence |].
    cbn [length evict_while].
    assert (E1 : over_budget c s = true).
    { apply over_budget_true. rewrite Em. split; [lia | congruence]. }
    rewrite E1.
    assert (E2 : over_budget (_evict_from_memory c) s = false).
    { apply over_budget_false. left. rewrite Hev. simpl. lia. }
    destruct (length d); simpl; [reflexivity | rewrite E2; reflexivity]. }
  assert (Hfresh' : dict_get k (dict_del victim (memory_cache c)) = None).
  { destruct (dict_get k (dict_del victim (memory_cache c))) as [e0 |] eqn:E0;
      [| reflexivity].
    apply dict_get_In, dict_del_subset in E0.
    rewrite (In_dict_get _ _ _ Hwf E0) in Hfresh. discriminate. }
  assert (Hmem : memory_cache (_add_to_memory c k v data now) =
                 dict_del victim (memory_cache c)
                 ++ [(k, memory_entry (default_ttl c) k v data now s)]).
  { unfold _add_to_memory. rewrite Hdata, Hloop, Hev. simpl.
    apply dict_set_fresh, Hfresh'. }
  repeat split; try assumption.
  - intros p Hp Hpk. rewrite Hmem. apply in_or_app. left.
    apply dict_del_keeps; assumption.
  - rewrite Hmem, length_app. simpl.
    pose proof (dict_del_length _ _ _ Hget). lia.
  - unfold _add_to_memory. rewrite Hdata, Hloop, Hev. simpl. lia.
  - unfold _add_to_memory. rewrite Hdata, Hloop, Hev. reflexivity.
Qed.

(** C5 (amended): when adding an entry to the memory tier would take the
    accounted memory size over the budget, the cache evicts, one at a
    time, a resident entry with the oldest [last_accessed], until the new
    entry fits or no resident entry is left, and then stores the entry;
    in particular, when the tier is exactly full of N items of one size,
    adding an (N+1)-th item of that size under a new key evicts exactly
    the one least recently accessed entry and no other. *)
Theorem add_to_memory_evicts_least_recently_accessed :
  (forall (c : ResearchDataCache) (k v : string) (data : entry_data) (now : Z),
     let size := get_or (ed_size_bytes data) (_calculate_size v) in
     exists n : nat,
       let c' := Nat.iter n _evict_from_memory c in
       (forall i : nat, (i < n)%nat ->
          over_budget (Nat.iter i _evict_from_memory c) size = true) /\
       (memory_size c' + size <= max_memory_size c' \/ memory_cache c' = []) /\
       _add_to_memory c k v data now =
         with_memory c'
           (dict_set k (memory_entry (default_ttl c') k v data now size) (memory_cache c'))
           (memory_size c' + size)) /\
  (forall c : ResearchDataCache,
     dict_wf (memory_cache c) -> memory_cache c <> [] ->
     exists k e,
       lru_key (memory_cache c) = Some k /\
       dict_get k (memory_cache c) = Some e /\
       (forall p, In p (memory_cache c) -> last_accessed e <= last_accessed (snd p)) /\
       _evict_from_memory c =
         with_stats
           (with_memory c (dict_del k (memory_cache c)) (memory_size c - size_bytes e))
           (bump_evictions (stats c))) /\
  (forall (c : ResearchDataCache) (k v : string) (data : entry_data) (now s : Z),
     full_of_equal_items c s ->
     dict_get k (memory_cache c) = None ->
     get_or (ed_size_bytes data) (_calculate_size v) = s ->
     exists victim e,
       lru_key (memory_cache c) = Some victim /\
       dict_get victim (memory_cache c) = Some e /\
       (forall p, In p (memory_cache c) -> last_accessed e <= last_accessed (snd p)) /\
       memory_cache (_add_to_memory c k v data now) =
         dict_del victim (memory_cache c)
         ++ [(k, memory_entry (default_ttl c) k v data now s)] /\
       (forall p, In p (memory_cache c) -> fst p <> victim ->
                  In p (memory_cache (_add_to_memory c k v data now))) /\
       length (memory_cache (_add_to_memory c k v data now)) = length (memory_cache c) /\
       memory_size (_add_to_memory c k v data now) = max_memory_size c /\
       evictions (stats (_add_to_memory c k v data now)) = evictions (stats c) + 1).
Proof.
  split; [exact add_to_memory_runs_evictions |].
  split; [exact evict_from_memory_spec | exact add_to_memory_full].
Qed.

(** A tier of ten one-byte items under a budget of ten bytes, filled
    through [set]; the oldest key is then read, so that the least recently
    accessed entry is the second one. *)
Definition ten_writes : list write :=
  map (fun i => mkWrite "x" (String (ascii_of_nat (97 + i)) "") None None (Z.of_nat i))
      (seq 0 10).

Definition full_cache : ResearchDataCache :=
  fst (get (run_writes (init 10 1000 86400) ten_writes) "a" 20).

Lemma full_cache_is_full : full_of_equal_items full_cache 1.
Proof.
  unfold full_of_equal_items, dict_wf.
  split; [apply (bool_decide_unpack _); vm_compute; exact I |].
  split; [vm_compute; discriminate |].
  split; [lia |].
  split; [apply (bool_decide_unpack _); vm_compute; exact I |].
  split; vm_compute; reflexivity.
Qed.

Lemma add_to_memory_evicts_least_recently_accessed_witness :
  full_of_equal_items full_cache 1 /\
  exists victim e,
    lru_key (memory_cache full_cache) = Some victim /\
    dict_get victim (memory_cache full_cache) = Some e /\
    (forall p, In p (memory_cache full_cache) ->
               last_accessed e <= last_accessed (snd p)) /\
    memory_cache (_add_to_memory full_cache "k" "y" (mkEntryData None None None None None None) 30) =
      dict_del victim (memory_cache full_cache)
      ++ [("k", memory_entry (default_ttl full_cache) "k" "y"
                  (mkEntryData None None None None None None) 30 1)] /\
    (forall p, In p (memory_cache full_cache) -> fst p <> victim ->
               In p (memory_cache (_add_to_memory full_cache "k" "y"
                                     (mkEntryData None None None None None None) 30))) /\
    length (memory_cache (_add_to_memory full_cache "k" "y"
                            (mkEntryData None None None None None None) 30))
      = length (memory_cache full_cache) /\
    memory_size (_add_to_memory full_cache "k" "y"
                   (mkEntryData None None None None None None) 30)
      = max_memory_size full_cache /\
    evictions (stats (_add_to_memory full_cache "k" "y"
                        (mkEntryData None None None None None None) 30))
      = evictions (stats full_cache) + 1.
Proof.
  split; [exact full_cache_is_full |].
  apply (proj2 (proj2 add_to_memory_evicts_least_recently_accessed)
               full_cache "k" "y" (mkEntryData None None None None None None) 30 1).
  - exact full_cache_is_full.
  - vm_compute. reflexivity.
  - vm_compute. reflexivity.
Defined.

Example eleventh_item_evicts_second_key :
  map fst (memory_cache (set full_cache "y" "k" None None 30))
  = ["a"; "c"; "d"; "e"; "f"; "g"; "h"; "i"; "j"; "k"].
Proof. vm_compute. reflexivity. Qed.

(** *** The accounted size and the bytes resident *)

(** The bytes of the entries resident in memory. *)
Definition resident_bytes (d : list (string * CacheEntry)) : Z :=
  fold_right (fun p acc => size_bytes (snd p) + acc) 0 d.

(** The pickles of [True] and of the integer [0] under protocol 5: four
    and five bytes. *)
Definition pickled_True : string :=
  String (ascii_of_nat 128) (String (ascii_of_nat 5) (String (ascii_of_nat 136) ".")).

Definition pickled_zero : string :=
  String (ascii_of_nat 128)
    (String (ascii_of_nat 5) (String "K" (String (ascii_of_nat 0) "."))).

(** Under a budget of 60 bytes (per-item cap 6): the key [k] written
    eight times with a five-byte value and five times with a four-byte
    value, then the key [k2] written with a five-byte value. *)
Definition rewritten_key : ResearchDataCache :=
  run_writes (init 60 1000 86400)
    (map (fun i => mkWrite pickled_zero "k" None None (Z.of_nat i)) (seq 0 8)
     ++ map (fun i => mkWrite pickled_True "k" None None (Z.of_nat i)) (seq 8 5)).

Definition after_rewritten_key : ResearchDataCache :=
  set rewritten_key pickled_zero "k2" None None 13.

(** Under the same budget, fifteen keys written with a four-byte value
    each: the tier holds fifteen small items and is exactly full. *)
Definition fifteen_keys : ResearchDataCache :=
  run_writes (init 60 1000 86400)
    (map (fun i => mkWrite pickled_True
                     (String (ascii_of_nat (97 + i)) "") None None (Z.of_nat i))
         (seq 0 15)).

(** C5 as stated fails in two ways, both reached through [set] alone.
    The loop goes by the accounted size [memory_size], to which a write
    of a resident key adds the new size without taking the old one off:
    with one entry of 4 bytes resident and 60 bytes accounted, a
    five-byte entry that the budget has room for evicts the resident
    entry, the loop stops because the tier is empty, and the entry is
    stored although the accounted size, 61, is over the budget of 60.
    And a tier exactly full of fifteen four-byte items loses two of
    them, not one, to a sixteenth item of five bytes. *)
Lemma eviction_goes_by_accounted_size :
  (map (fun p => (fst p, size_bytes (snd p))) (memory_cache rewritten_key) = [("k", 4)] /\
   memory_size rewritten_key = 60 /\
   resident_bytes (memory_cache rewritten_key) + _calculate_size pickled_zero
     <= max_memory_size rewritten_key /\
   map fst (memory_cache after_rewritten_key) = ["k2"] /\
   evictions (stats after_rewritten_key) = evictions (stats rewritten_key) + 1 /\
   memory_size after_rewritten_key = 61 /\
   max_memory_size after_rewritten_key = 60 /\
   ~ (memory_size after_rewritten_key <= max_memory_size after_rewritten_key)) /\
  (length (memory_cache fifteen_keys) = 15%nat /\
   Forall (fun p => size_bytes (snd p) = 4) (memory_cache fifteen_keys) /\
   memory_size fifteen_keys = max_memory_size fifteen_keys /\
   evictions (stats fifteen_keys) = 0 /\
   evictions (stats (set fifteen_keys pickled_zero "p" None None 15)) = 2 /\
   map fst (memory_cache (set fifteen_keys pickled_zero "p" None None 15))
   = ["c"; "d"; "e"; "f"; "g"; "h"; "i"; "j"; "k"; "l"; "m"; "n"; "o"; "p"]).
Proof.
  assert (H1 : memory_size after_rewritten_key = 61) by (vm_compute; reflexivity).
  assert (H2 : max_memory_size after_rewritten_key = 60) by (vm_compute; reflexivity).
  split.
  - split; [vm_compute; reflexivity |]. split; [vm_compute; reflexivity |].
    split; [vm_compute; discriminate |]. split; [vm_compute; reflexivity |].
    split; [vm_compute; reflexivity |]. split; [exact H1 |]. split; [exact H2 |].
    rewrite H1, H2. lia.
  - split; [vm_compute; reflexivity |].
    split; [apply (bool_decide_unpack _); vm_compute; exact I |].
    repeat split; vm_compute; reflexivity.
Qed.

(** *** The table *)

Lemma add_to_memory_table (c : ResearchDataCache) (k v : string)
    (data : entry_data) (now : Z) :
  cache_entries (_add_to_memory c k v data now) = cache_entries c.
Proof. unfold _add_to_memory. simpl. apply evict_while_table. Qed.

Lemma add_to_memory_resident (c : ResearchDataCache) (k v : string)
    (data : entry_data) (now : Z) :
  is_Some (dict_get k (memory_cache (_add_to_memory c k v data now))).
Proof. unfold _add_to_memory. simpl. rewrite dict_get_set_eq. eauto. Qed.

Lemma remove_from_memory_table (c : ResearchDataCache) (k : string) :
  cache_entries (_remove_from_memory c k) = cache_entries c.
Proof.
  unfold _remove_from_memory. destruct (dict_get k (memory_cache c)); reflexivity.
Qed.

Lemma remove_from_memory_stats (c : ResearchDataCache) (k : string) :
  stats (_remove_from_memory c k) = stats c.
Proof. unfold _remove_from_memory. destruct (dict_get k (memory_cache c)); reflexivity. Qed.

Lemma fold_remove_table (ks : list string) (c : ResearchDataCache) :
  cache_entries (fold_left _remove_from_memory ks c) = cache_entries c.
Proof.
  revert c. induction ks as [| a ks IH]; intros c; simpl; [reflexivity |].
  rewrite IH. apply remove_from_memory_table.
Qed.

Lemma fold_remove_stats (ks : list string) (c : ResearchDataCache) :
  stats (fold_left _remove_from_memory ks c) = stats c.
Proof.
  revert c. induction ks as [| a ks IH]; intros c; simpl; [reflexivity |].
  rewrite IH. apply remove_from_memory_stats.
Qed.

(** No statement is committed: the sweep, a read, a write and a deletion
    by tags leave the table as it was. *)
Lemma cleanup_expired_table (c : ResearchDataCache) (now : Z) :
  cache_entries (_cleanup_expired c now) = cache_entries c.
Proof.
  unfold _cleanup_expired. cbv zeta.
  match goal with |- context [if ?b then _ else _] => destruct b end;
    cbn [cache_entries with_stats]; apply fold_remove_table.
Qed.

Lemma get_from_disk_table (c : ResearchDataCache) (k : string) (now : Z) :
  cache_entries (fst (get_from_disk c k now)) = cache_entries c.
Proof.
  unfold get_from_disk, _get_db_connection.
  destruct (select_unexpired (cache_entries c) k now) as [row |]; cbn [fst snd];
    [| reflexivity].
  destruct (3 <=? access_count row + 1); cbn [cache_entries with_stats];
    [apply add_to_memory_table | reflexivity].
Qed.

Lemma get_table (c : ResearchDataCache) (k : string) (now : Z) :
  cache_entries (fst (get c k now)) = cache_entries c.
Proof.
  unfold get. destruct (dict_get k (memory_cache c)) as [e |].
  - destruct (negb (is_expired e now)); [reflexivity |].
    rewrite get_from_disk_table. apply remove_from_memory_table.
  - apply get_from_disk_table.
Qed.

Lemma set_table (c : ResearchDataCache) (v k : string) (ttl : option Z)
    (tags : option (list string)) (now : Z) :
  cache_entries (set c v k ttl tags now) = cache_entries c.
Proof.
  unfold set. cbv zeta.
  assert (H : forall c', cache_entries c' = cache_entries c ->
            cache_entries (if Z.of_nat (length (memory_cache c')) mod 100 =? 0
                           then _cleanup_expired c' now else c') = cache_entries c).
  { intros c' Hc'. destruct (Z.of_nat (length (memory_cache c')) mod 100 =? 0);
      [rewrite cleanup_expired_table |]; exact Hc'. }
  destruct (_calculate_size v <=? max_memory_size c / 10); apply H;
    [apply add_to_memory_table | reflexivity].
Qed.

Lemma delete_by_tags_table (c : ResearchDataCache) (wanted : list string) :
  cache_entries (delete_by_tags c wanted) = cache_entries c.
Proof.
  unfold delete_by_tags. destruct wanted; [reflexivity | apply fold_remove_table].
Qed.

(** Where the table holds no row under the key, the DELETE of [delete]
    changes nothing either. *)
Lemma delete_without_row (c : ResearchDataCache) (k : string) :
  cache_entries c !! k = None -> delete c k = _remove_from_memory c k.
Proof.
  intros H. unfold delete, with_table. rewrite remove_from_memory_table.
  rewrite delete_id by exact H. rewrite <- (remove_from_memory_table c k).
  destruct (_remove_from_memory c k). reflexivity.
Qed.

(** *** Reading *)

(** A look-up that finds no unexpired row is a miss. *)
Lemma get_from_disk_no_row (c : ResearchDataCache) (k : string) (now : Z) :
  select_unexpired (cache_entries c) k now = None ->
  get_from_disk c k now = (with_stats c (bump_miss (stats c)), None).
Proof.
  intros H. unfold get_from_disk, _get_db_connection. rewrite H. reflexivity.
Qed.

(** A miss in memory that finds an unexpired row returns its value and
    counts a hit from disk; the access counter of the row stays as it
    was, the UPDATE being lost, and the entry is brought into the memory
    tier exactly when that counter plus one is at least 3, whatever its
    size. *)
Lemma get_disk_hit (c : ResearchDataCache) (k : string) (now : Z) (row : CacheEntry) :
  dict_get k (memory_cache c) = None ->
  cache_entries c !! k = Some row ->
  now < expires_at row ->
  snd (get c k now) = _deserialize_value (value row) /\
  cache_entries (fst (get c k now)) !! k = Some row /\
  disk_hits (stats (fst (get c k now))) = disk_hits (stats c) + 1 /\
  (is_Some (dict_get k (memory_cache (fst (get c k now))))
   <-> 3 <= access_count row + 1).
Proof.
  intros Hmem Hrow Hlive. rewrite get_table. split; [| split; [exact Hrow |]];
    unfold get, get_from_disk, _get_db_connection, select_unexpired;
    rewrite Hmem, Hrow; apply Z.ltb_lt in Hlive; rewrite Hlive; cbn [fst snd];
    [reflexivity |].
  destruct (Z.leb_spec 3 (access_count row + 1)) as [H3 | H3];
    cbn [stats with_stats bump_disk_hit disk_hits memory_cache].
  - split.
    + unfold _add_to_memory. cbn [stats with_memory].
      assert (Hs : forall fuel size c0,
                disk_hits (stats (evict_while fuel size c0)) = disk_hits (stats c0)).
      { induction fuel as [| fuel IH]; intros size c0; simpl; [reflexivity |].
        destruct (over_budget c0 size); [| reflexivity]. rewrite IH.
        unfold _evict_from_memory. destruct (lru_key (memory_cache c0)); [| reflexivity].
        cbn. rewrite remove_from_memory_stats. reflexivity. }
      rewrite Hs. reflexivity.
    + split; [intros _; exact H3 | intros _; apply add_to_memory_resident].
  - split; [reflexivity |]. rewrite Hmem.
    split; [intros [x Hx]; discriminate | lia].
Qed.

(** An entry whose [expires_at] is in the past in both tiers is not
    returned. *)
Lemma get_expired_absent (c : ResearchDataCache) (k : string) (now : Z) :
  (forall e, dict_get k (memory_cache c) = Some e -> expires_at e < now) ->
  (forall row, cache_entries c !! k = Some row -> expires_at row < now) ->
  snd (get c k now) = None.
Proof.
  intros Hmem Hrow.
  assert (Hdisk : forall c', cache_entries c' = cache_entries c ->
                             snd (get_from_disk c' k now) = None).
  { intros c' Ht. rewrite get_from_disk_no_row; [reflexivity |].
    unfold select_unexpired. rewrite Ht.
    destruct (cache_entries c !! k) as [row |] eqn:E; [| reflexivity].
    specialize (Hrow row eq_refl).
    destruct (Z.ltb_spec now (expires_at row)); [lia | reflexivity]. }
  unfold get. destruct (dict_get k (memory_cache c)) as [e |] eqn:E.
  - specialize (Hmem e eq_refl). unfold is_expired.
    apply Z.ltb_lt in Hmem. rewrite Hmem. simpl.
    apply Hdisk, remove_from_memory_table.
  - apply Hdisk. reflexivity.
Qed.

(** *** Runs of the cache *)

(** A call of one of the public methods, with the reading of the clock
    where the method takes one. *)
Inductive call :=
| SetCall (w : write)
| GetCall (k : string) (now : Z)
| DeleteCall (k : string)
| DeleteByTagsCall (wanted : list string)
| CleanupCall (now : Z).

Definition run_call (c : ResearchDataCache) (op : call) : ResearchDataCache :=
  match op with
  | SetCall w => set c (w_value w) (w_key w) (w_ttl w) (w_tags w) (w_now w)
  | GetCall k now => fst (get c k now)
  | DeleteCall k => delete c k
  | DeleteByTagsCall wanted => delete_by_tags c wanted
  | CleanupCall now => _cleanup_expired c now
  end.

Definition run_calls (c : ResearchDataCache) (ops : list call) : ResearchDataCache :=
  fold_left run_call ops c.

Lemma evict_from_memory_lookups (c : ResearchDataCache) :
  hits (stats (_evict_from_memory c)) = hits (stats c) /\
  misses (stats (_evict_from_memory c)) = misses (stats c) /\
  memory_hits (stats (_evict_from_memory c)) = memory_hits (stats c) /\
  disk_hits (stats (_evict_from_memory c)) = disk_hits (stats c).
Proof.
  unfold _evict_from_memory. destruct (lru_key (memory_cache c)); [| tauto].
  simpl. rewrite remove_from_memory_stats. tauto.
Qed.

Lemma evict_while_lookups (fuel : nat) (size : Z) (c : ResearchDataCache) :
  hits (stats (evict_while fuel size c)) = hits (stats c) /\
  misses (stats (evict_while fuel size c)) = misses (stats c) /\
  memory_hits (stats (evict_while fuel size c)) = memory_hits (stats c) /\
  disk_hits (stats (evict_while fuel size c)) = disk_hits (stats c).
Proof.
  revert c. induction fuel as [| fuel IH]; intros c; simpl; [tauto |].
  destruct (over_budget c size); [| tauto].
  destruct (IH (_evict_from_memory c)) as (-> & -> & -> & ->).
  apply evict_from_memory_lookups.
Qed.

Lemma add_to_memory_lookups (c : ResearchDataCache) (k v : string)
    (data : entry_data) (now : Z) :
  hits (stats (_add_to_memory c k v data now)) = hits (stats c) /\
  misses (stats (_add_to_memory c k v data now)) = misses (stats c) /\
  memory_hits (stats (_add_to_memory c k v data now)) = memory_hits (stats c) /\
  disk_hits (stats (_add_to_memory c k v data now)) = disk_hits (stats c).
Proof. unfold _add_to_memory. simpl. apply evict_while_lookups. Qed.

Lemma cleanup_expired_disk_hits (c : ResearchDataCache) (now : Z) :
  disk_hits (stats (_cleanup_expired c now)) = disk_hits (stats c).
Proof.
  unfold _cleanup_expired. cbv zeta.
  match goal with |- context [if ?b then _ else _] => destruct b end;
    cbn [stats with_stats bump_cleanups disk_hits]; rewrite fold_remove_stats; reflexivity.
Qed.

Lemma set_disk_hits (c : ResearchDataCache) (v k : string) (ttl : option Z)
    (tags : option (list string)) (now : Z) :
  disk_hits (stats (set c v k ttl tags now)) = disk_hits (stats c).
Proof.
  unfold set. cbv zeta.
  assert (H : forall c', disk_hits (stats c') = disk_hits (stats c) ->
            disk_hits (stats (if Z.of_nat (length (memory_cache c')) mod 100 =? 0
                              then _cleanup_expired c' now else c')) = disk_hits (stats c)).
  { intros c' Hc'. destruct (Z.of_nat (length (memory_cache c')) mod 100 =? 0);
      [rewrite cleanup_expired_disk_hits |]; exact Hc'. }
  destruct (_calculate_size v <=? max_memory_size c / 10); apply H;
    [apply add_to_memory_lookups | reflexivity].
Qed.

Lemma get_disk_hits_empty_table (c : ResearchDataCache) (k : string) (now : Z) :
  cache_entries c = ∅ ->
  disk_hits (stats (fst (get c k now))) = disk_hits (stats c).
Proof.
  intros Ht.
  assert (Hdisk : forall c', cache_entries c' = ∅ ->
            disk_hits (stats (fst (get_from_disk c' k now))) = disk_hits (stats c')).
  { intros c' Hc'. rewrite get_from_disk_no_row; [reflexivity |].
    unfold select_unexpired. rewrite Hc', lookup_empty. reflexivity. }
  unfold get. destruct (dict_get k (memory_cache c)) as [e |].
  - destruct (negb (is_expired e now)); [reflexivity |].
    rewrite Hdisk by (rewrite remove_from_memory_table; exact Ht).
    rewrite remove_from_memory_stats. reflexivity.
  - apply Hdisk, Ht.
Qed.

(** Whatever is called on a cache whose table is empty, the table stays
    empty and no look-up is answered from it. *)
Lemma run_calls_empty_table (ops : list call) (c : ResearchDataCache) :
  cache_entries c = ∅ ->
  cache_entries (run_calls c ops) = ∅ /\
  disk_hits (stats (run_calls c ops)) = disk_hits (stats c).
Proof.
  revert c. induction ops as [| op ops IH]; intros c Ht; [split; [exact Ht | reflexivity] |].
  cbn [run_calls fold_left]. fold (run_calls (run_call c op) ops).
  assert (Hstep : cache_entries (run_call c op) = ∅ /\
                  disk_hits (stats (run_call c op)) = disk_hits (stats c)).
  { destruct op as [w | k now | k | wanted | now]; cbn [run_call].
    - rewrite set_table, set_disk_hits. split; [exact Ht | reflexivity].
    - rewrite get_table, get_disk_hits_empty_table by exact Ht. split; [exact Ht | reflexivity].
    - rewrite delete_without_row by (rewrite Ht; apply lookup_empty).
      rewrite remove_from_memory_table, remove_from_memory_stats.
      split; [exact Ht | reflexivity].
    - rewrite delete_by_tags_table. split; [exact Ht |].
      unfold delete_by_tags. destruct wanted; [reflexivity |].
      rewrite fold_remove_stats. reflexivity.
    - rewrite cleanup_expired_table, cleanup_expired_disk_hits.
      split; [exact Ht | reflexivity]. }
  destruct Hstep as [Ht' Hs']. destruct (IH _ Ht') as [H1 H2].
  split; [exact H1 | rewrite H2; exact Hs'].
Qed.

(** A 31-byte value under a budget of 100 bytes, that is a per-item cap
    of 10 bytes. *)
Definition vti_key : string := "fund_research:VTI".
Definition vti_value : string := "Vanguard Total Stock Market ETF".

Definition over_cap : ResearchDataCache :=
  set (init 100 1000 86400) vti_value vti_key None None 0.


(** *** The sweep *)

(** [set] sweeps exactly when the memory tier, after the write, holds a
    multiple of 100 entries. *)
Lemma set_sweeps_on_memory_count (c : ResearchDataCache) (v k : string)
    (ttl : option Z) (tags : option (list string)) (now : Z) :
  let entry := mkCacheEntry k v now (now + get_or ttl (default_ttl c)) 1 now
                            (get_or tags []) (_calculate_size v) in
  let mirrored := if _calculate_size v <=? max_memory_size c / 10
                  then _add_to_memory c k v (asdict entry) now else c in
  set c v k ttl tags now =
    if Z.of_nat (length (memory_cache mirrored)) mod 100 =? 0
    then _cleanup_expired mirrored now else mirrored.
Proof. reflexivity. Qed.

(** One entry that lives for a single tick, then two hundred writes of
    another key, all after the first entry has expired. *)
Definition stale_then_writes : ResearchDataCache :=
  run_writes (set (init 1000000 1000 86400) pickled_True "old" (Some 1) None 0)
             (map (fun i => mkWrite pickled_zero "k" None None (10 + Z.of_nat i)) (seq 0 200)).

(** The same entry, then ninety-nine writes of ninety-nine other keys,
    [aa] to [jj]. *)
Definition stale_then_keys : ResearchDataCache :=
  run_writes (set (init 1000000 1000 86400) pickled_True "old" (Some 1) None 0)
             (map (fun i => mkWrite pickled_zero
                              (String (ascii_of_nat (97 + i / 10))
                                 (String (ascii_of_nat (97 + i mod 10)) ""))
                              None None (10 + Z.of_nat i))
                  (seq 0 99)).

(** C6: the sweep is not run once every N writes. After two hundred
    writes in a row the entry that expired at 1 is still resident in the
    memory tier and no sweep is counted: the tier holds two entries
    after each of them. Ninety-nine writes are enough when they are made
    under ninety-nine keys: the tier then holds a hundred entries, and
    the expired one is removed. *)
Theorem two_hundred_writes_without_sweep :
  (exists e, dict_get "old" (memory_cache stale_then_writes) = Some e
             /\ expires_at e = 1 /\ is_expired e 209 = true) /\
  map fst (memory_cache stale_then_writes) = ["old"; "k"] /\
  cleanups (stats stale_then_writes) = 0 /\
  dict_get "old" (memory_cache stale_then_keys) = None /\
  length (memory_cache stale_then_keys) = 99%nat /\
  cleanups (stats stale_then_keys) = 1.
Proof.
  split; [eexists; split; [vm_compute; reflexivity | split; reflexivity] |].
  repeat split; vm_compute; reflexivity.
Qed.

End ResearchCacheFacts.

(** ** Properties of the manual override *)

Module OverrideFacts.
Import PyObj Models.
Local Open Scope Q_scope.

(** The fields that [apply_override] writes itself. *)
Definition override_fields : list string :=
  ["manual_override"; "override_reason"; "override_by"; "override_timestamp";
   "asset_class"; "asset_class_confidence"].

Ltac in_override_fields := apply (bool_decide_unpack _); vm_compute; exact I.

Lemma update_sub_categories_no_raise (other_attribute : string -> bool)
    (items : list (string * pyval)) (self : pyobject) :
  Forall (fun kv => other_attribute (fst kv) = false) items ->
  snd (update_sub_categories other_attribute self items) = None.
Proof.
  revert self. induction items as [| [key value] items IH]; intros self H; simpl.
  - reflexivity.
  - apply Forall_cons in H as [Hk H]. simpl in Hk.
    unfold hasattr, setattr. rewrite Hk, orb_false_r.
    destruct (bool_decide (is_Some (self !! key))); apply IH, H.
Qed.

Lemma update_sub_categories_other (other_attribute : string -> bool)
    (items : list (string * pyval)) (self : pyobject) (k : string) :
  k ∉ map fst items ->
  fst (update_sub_categories other_attribute self items) !! k = self !! k.
Proof.
  revert self. induction items as [| [key value] items IH]; intros self H; simpl.
  - reflexivity.
  - apply not_elem_of_cons in H as [Hne H]. simpl in Hne.
    destruct (hasattr other_attribute self key); [| apply IH, H].
    unfold setattr. destruct (bool_decide (is_Some (self !! key))); [| reflexivity].
    rewrite IH by exact H. apply lookup_insert_ne. congruence.
Qed.

Lemma max_float_ge (q : Q) : q <= Py.max 0.95 q /\ 0.95 <= Py.max 0.95 q.
Proof. split; [apply Py.max_ge_r | apply Py.max_ge_l]. Qed.

(** A categorization as pydantic builds it from the six required fields,
    every value accepted as given. *)
Definition sample_fund : pyobject :=
  match FundCategorization (fun _ v => Some v)
          (list_to_map
             [ ("ticker", PStr "XYZQ"); ("fund_name", PStr "XYZ Quantitative Fund");
               ("asset_class", PStr "Cash"); ("asset_class_confidence", PNum 0.99);
               ("classification_method", PStr "rule_based");
               ("reasoning", PStr "Using provided asset class: cash") ]) 0 with
  | Ok f => f
  | Raise _ => ∅
  end.

Example sample_fund_fields :
  sample_fund !! "asset_class_confidence" = Some (PNum 0.99) /\
  sample_fund !! "manual_override" = Some (PBool false) /\
  size sample_fund = 22%nat.
Proof. repeat split; vm_compute; reflexivity. Qed.

(** C10 as stated fails for keywords that name the fields the override
    writes: [asset_class="Cash"] undoes the new asset class, and
    [asset_class_confidence=0.96] lowers a confidence of 0.99. *)
Lemma override_keywords_overwrite_fields :
  let after :=
    apply_override (fun _ => false) sample_fund (PStr "Equity") (PStr "User override")
      (PStr "user") [("asset_class", PStr "Cash"); ("asset_class_confidence", PNum 0.96)] 7 in
  snd after = None /\
  fst after !! "asset_class" = Some (PStr "Cash") /\
  fst after !! "asset_class" <> Some (PStr "Equity") /\
  sample_fund !! "asset_class_confidence" = Some (PNum 0.99) /\
  fst after !! "asset_class_confidence" = Some (PNum 0.96) /\
  fst after !! "asset_class_confidence" <> Some (PNum (Py.max 0.95 0.99)).
Proof.
  cbv zeta.
  assert (H1 : fst (apply_override (fun _ => false) sample_fund (PStr "Equity")
                      (PStr "User override") (PStr "user")
                      [("asset_class", PStr "Cash"); ("asset_class_confidence", PNum 0.96)] 7)
               !! "asset_class" = Some (PStr "Cash")) by (vm_compute; reflexivity).
  assert (H2 : fst (apply_override (fun _ => false) sample_fund (PStr "Equity")
                      (PStr "User override") (PStr "user")
                      [("asset_class", PStr "Cash"); ("asset_class_confidence", PNum 0.96)] 7)
               !! "asset_class_confidence" = Some (PNum 0.96)) by (vm_compute; reflexivity).
  split; [vm_compute; reflexivity |].
  split; [exact H1 |]. split; [rewrite H1; discriminate |].
  split; [vm_compute; reflexivity |].
  split; [exact H2 |]. rewrite H2. vm_compute. discriminate.
Qed.

(** C10 (amended): for every FundCategorization whose confidence is a
    number, and for override arguments whose extra keywords name none of
    the parameters, none of the fields manual_override, override_reason,
    override_by, override_timestamp, asset_class and
    asset_class_confidence, and nothing but fields, apply_override
    returns, and afterwards manual_override is True, override_reason,
    override_by and override_timestamp are the reason, the author and the
    time of the call, asset_class is new_asset_class, and
    asset_class_confidence is max(0.95, its prior value), which is at
    least the prior value and at least 0.95. *)
Theorem apply_override_sets_override_fields
    (other_attribute : string -> bool) (self : pyobject)
    (new_asset_class reason override_by : pyval)
    (sub_categories : list (string * pyval)) (now : Z) (prior : Q) :
  Forall (fun kv => (fst kv ∉ parameter_names)
                    /\ (fst kv ∉ override_fields)
                    /\ other_attribute (fst kv) = false) sub_categories ->
  self !! "asset_class_confidence" = Some (PNum prior) ->
  exists after,
    apply_override other_attribute self new_asset_class reason override_by
                   sub_categories now = (after, None) /\
    after !! "manual_override" = Some (PBool true) /\
    after !! "override_reason" = Some reason /\
    after !! "override_by" = Some override_by /\
    after !! "override_timestamp" = Some (PTime now) /\
    after !! "asset_class" = Some new_asset_class /\
    after !! "asset_class_confidence" = Some (PNum (Py.max 0.95 prior)) /\
    prior <= Py.max 0.95 prior /\
    0.95 <= Py.max 0.95 prior.
Proof.
  intros Hkeys Hprior. unfold apply_override.
  assert (Hparams : existsb (fun kv => bool_decide (fst kv ∈ parameter_names))
                           sub_categories = false).
  { apply not_true_is_false. intros H. apply existsb_exists in H as (kv & Hin & Hkv).
    apply bool_decide_eq_true in Hkv. rewrite Forall_forall in Hkeys.
    apply list_elem_of_In in Hin. destruct (Hkeys kv Hin) as [Hp _]. contradiction. }
  rewrite Hparams.
  set (written := <["asset_class" := new_asset_class]>
                    (<["override_timestamp" := PTime now]>
                       (<["override_by" := override_by]>
                          (<["override_reason" := reason]>
                             (<["manual_override" := PBool true]> self))))).
  assert (Hraise : snd (update_sub_categories other_attribute written sub_categories) = None).
  { apply update_sub_categories_no_raise. eapply Forall_impl; [exact Hkeys |].
    intros kv (_ & _ & H). exact H. }
  assert (Hkeep : forall k, k ∈ override_fields ->
            fst (update_sub_categories other_attribute written sub_categories) !! k
            = written !! k).
  { intros k Hk. apply update_sub_categories_other. intros Hin.
    apply list_elem_of_In, in_map_iff in Hin as (kv & <- & Hin).
    rewrite Forall_forall in Hkeys. apply list_elem_of_In in Hin.
    destruct (Hkeys kv Hin) as (_ & Hf & _). contradiction. }
  destruct (update_sub_categories other_attribute written sub_categories)
    as [updated raised] eqn:E. simpl in Hraise, Hkeep. subst raised.
  assert (Hconf : attr updated "asset_class_confidence" = PNum prior).
  { unfold attr. rewrite Hkeep by in_override_fields.
    subst written. rewrite !lookup_insert_ne by discriminate. rewrite Hprior. reflexivity. }
  rewrite Hconf. simpl.
  eexists. split; [reflexivity |].
  repeat split.
  - rewrite lookup_insert_ne by discriminate.
    rewrite Hkeep by in_override_fields.
    subst written. rewrite !lookup_insert_ne by discriminate. apply lookup_insert_eq.
  - rewrite lookup_insert_ne by discriminate.
    rewrite Hkeep by in_override_fields.
    subst written. rewrite !lookup_insert_ne by discriminate. apply lookup_insert_eq.
  - rewrite lookup_insert_ne by discriminate.
    rewrite Hkeep by in_override_fields.
    subst written. rewrite !lookup_insert_ne by discriminate. apply lookup_insert_eq.
  - rewrite lookup_insert_ne by discriminate.
    rewrite Hkeep by in_override_fields.
    subst written. rewrite !lookup_insert_ne by discriminate. apply lookup_insert_eq.
  - rewrite lookup_insert_ne by discriminate.
    rewrite Hkeep by in_override_fields.
    subst written. apply lookup_insert_eq.
  - apply lookup_insert_eq.
  - apply Py.max_ge_r.
  - apply Py.max_ge_l.
Qed.

Lemma apply_override_sets_override_fields_witness :
  exists after,
    apply_override (fun _ => false) sample_fund (PStr "Equity") (PStr "User override")
                   (PStr "user") [("equity_region", PStr "US")] 7 = (after, None) /\
    after !! "manual_override" = Some (PBool true) /\
    after !! "override_reason" = Some (PStr "User override") /\
    after !! "override_by" = Some (PStr "user") /\
    after !! "override_timestamp" = Some (PTime 7) /\
    after !! "asset_class" = Some (PStr "Equity") /\
    after !! "asset_class_confidence" = Some (PNum (Py.max 0.95 0.99)) /\
    0.99 <= Py.max 0.95 0.99 /\
    0.95 <= Py.max 0.95 0.99.
Proof.
  apply (apply_override_sets_override_fields (fun _ => false) sample_fund
           (PStr "Equity") (PStr "User override") (PStr "user")
           [("equity_region", PStr "US")] 7 0.99).
  - apply (bool_decide_unpack _). vm_compute. exact I.
  - vm_compute. reflexivity.
Defined.

Example override_sets_sub_category :
  fst (apply_override (fun _ => false) sample_fund (PStr "Equity") (PStr "User override")
         (PStr "user") [("equity_region", PStr "US"); ("unknown_key", PNum 1)] 7)
    !! "equity_region" = Some (PStr "US").
Proof. vm_compute. reflexivity. Qed.

End OverrideFacts.

(** ** Runs of generators *)

Module GenFacts.
Import PyObj Models Agents Orchestrator.

Lemma gen_bind_raise {A B} (f : A -> Gen B) (m : Gen A) (self : ChatOrchestrator)
    (t : list (AgentMessage * ConversationStage)) (s : ChatOrchestrator) (exn : string) :
  m self = mkRun t s (Raise exn) -> (m ≫= f) self = mkRun t s (Raise exn).
Proof. intros H. unfold mbind, gen_bind. rewrite H. reflexivity. Qed.

Lemma gen_bind_ok {A B} (f : A -> Gen B) (m : Gen A) (self : ChatOrchestrator)
    (t : list (AgentMessage * ConversationStage)) (s : ChatOrchestrator) (a : A) :
  m self = mkRun t s (Ok a) ->
  (m ≫= f) self = mkRun (t ++ trace (f a s)) (final (f a s)) (ending (f a s)).
Proof. intros H. unfold mbind, gen_bind. rewrite H. reflexivity. Qed.

(** *** What a generator keeps

    A generator keeps a component [key] of the state when the state at
    its end has the component of the state at its start, and every
    message it yields stands in [M] to that component. *)

Section Keeps.

Context {K : Type} (key : ChatOrchestrator -> K) (M : K -> AgentMessage -> Prop).

Hypothesis key_session :
  forall self s, key (final (set_categorization_session s self)) = key self.
Hypothesis own_message :
  forall self message_type recipient data,
    M (key self) (create_message (base self) message_type recipient data).

Definition keeps_at {A} (m : Gen A) (self : ChatOrchestrator) : Prop :=
  key (final (m self)) = key self /\
  Forall (fun p => M (key self) (fst p)) (trace (m self)).

Definition keeps {A} (m : Gen A) : Prop := forall self, keeps_at m self.

Lemma keeps_ret {A} (a : A) : keeps (mret a).
Proof. intros self. split; [reflexivity | constructor]. Qed.

Lemma keeps_lift {A} (o : outcome A) : keeps (lift o).
Proof. intros self. split; [reflexivity | constructor]. Qed.

Lemma keeps_raise {A} (exn : string) : keeps (@raise A exn).
Proof. intros self. split; [reflexivity | constructor]. Qed.

Lemma keeps_at_bind {A B} (m : Gen A) (f : A -> Gen B) (self : ChatOrchestrator) :
  keeps_at m self ->
  (forall a, ending (m self) = Ok a -> keeps_at (f a) (final (m self))) ->
  keeps_at (m ≫= f) self.
Proof.
  intros [Hk Ht] Hf. unfold keeps_at, mbind, gen_bind.
  destruct (ending (m self)) as [a | exn] eqn:E; cbn [final trace].
  - destruct (Hf a eq_refl) as [Hk' Ht']. rewrite Hk in Hk', Ht'.
    split; [exact Hk' |]. apply Forall_app. split; assumption.
  - split; assumption.
Qed.

Lemma keeps_bind {A B} (m : Gen A) (f : A -> Gen B) :
  keeps m -> (forall a, keeps (f a)) -> keeps (m ≫= f).
Proof. intros Hm Hf self. apply keeps_at_bind; [apply Hm | intros a _; apply Hf]. Qed.

(** After [self ← get_self] the rest may build its messages from the
    state it runs in. *)
Lemma keeps_get_self_bind {B} (f : ChatOrchestrator -> Gen B) :
  (forall self, keeps_at (f self) self) -> keeps (get_self ≫= f).
Proof.
  intros Hf self. apply keeps_at_bind.
  - split; [reflexivity | constructor].
  - intros a [= <-]. apply Hf.
Qed.

Lemma keeps_get_self_then {B} (f : ChatOrchestrator -> Gen B) :
  (forall self, keeps (f self)) -> keeps (get_self ≫= f).
Proof. intros Hf. apply keeps_get_self_bind. intros self. apply Hf. Qed.

Lemma keeps_at_yield_own (self : ChatOrchestrator) (message_type : MessageType)
    (recipient : option AgentType) (data : pyobject) :
  keeps_at (yield (create_message (base self) message_type recipient data)) self.
Proof. split; [reflexivity |]. repeat constructor. apply own_message. Qed.

Lemma keeps_yield_chat (data : list (string * pyval)) : keeps (yield_chat data).
Proof. apply keeps_get_self_bind. intros self. apply keeps_at_yield_own. Qed.

Lemma keeps_yield_error (error : pyval) : keeps (yield_error error).
Proof. apply keeps_get_self_bind. intros self. apply keeps_at_yield_own. Qed.

Lemma keeps_set_categorization_session (s : CategorizationSession) :
  keeps (set_categorization_session s).
Proof. intros self. split; [apply key_session | constructor]. Qed.

Lemma keeps_finish_review (session : CategorizationSession) :
  keeps (finish_review session).
Proof.
  unfold finish_review.
  apply keeps_bind; [apply keeps_yield_chat | intros _].
  apply keeps_bind; [apply keeps_lift | intros classifications].
  apply keeps_bind; [apply keeps_lift | intros summary].
  apply keeps_get_self_bind. intros self. apply keeps_at_yield_own.
Qed.

Lemma keeps_send_next_question (fuel : nat) (now : Z) :
  keeps (send_next_question fuel now).
Proof.
  induction fuel as [| fuel IH];
    (cbn [send_next_question]; apply keeps_bind;
     [intros self; split; [reflexivity | constructor] | intros self];
     destruct (categorization_session self) as [session |];
     [| apply keeps_yield_error];
     destruct (get_next_fund_needing_input session) as [current_ticker |];
     [| apply keeps_finish_review];
     destruct (negb (truthy current_ticker)); [apply keeps_finish_review |];
     apply keeps_bind; [apply keeps_lift | intros [fund_categorization |]];
     [| apply keeps_yield_error];
     apply keeps_bind; [apply keeps_lift | intros [| question questions]];
     [ apply keeps_bind; [apply keeps_set_categorization_session | intros _]
     | apply keeps_bind; [apply keeps_lift | intros current];
       apply keeps_bind; [apply keeps_lift | intros msg]; apply keeps_yield_chat ]).
  - apply keeps_raise.
  - exact IH.
Qed.

Lemma keeps_send_next_categorization_question (now : Z) :
  keeps (_send_next_categorization_question now).
Proof. intros self. apply keeps_send_next_question. Qed.

(** [_start_user_review_process] sets the stage and then keeps the
    component. *)
Lemma start_user_review_process_body (categorization_data : pyval) (now : Z) :
  exists body : Gen unit,
    keeps body /\
    _start_user_review_process categorization_data now
    = (set_stage CATEGORIZATION_REVIEW;; body).
Proof.
  eexists. split; [| reflexivity].
  destruct (get categorization_data "interaction_needed" (PList [])) as [interaction_needed |];
    [| apply keeps_raise].
  destruct (negb (truthy interaction_needed)).
  - apply keeps_get_self_bind. intros self. apply keeps_at_yield_own.
  - destruct interaction_needed as [| | | | | [| first_fund others] | |]; try apply keeps_raise.
    apply keeps_get_self_then. intros self. apply keeps_bind.
    + destruct (categorization_session self) as [session |]; [| apply keeps_ret].
      apply keeps_bind; [apply keeps_lift | intros tickers].
      apply keeps_set_categorization_session.
    + intros _.
      apply keeps_bind; [apply keeps_lift | intros ticker].
      apply keeps_bind; [apply keeps_lift | intros fund_name].
      apply keeps_bind; [apply keeps_yield_chat | intros _].
      apply keeps_send_next_categorization_question.
Qed.

End Keeps.

End GenFacts.

(** ** Properties of the chat orchestrator *)

Module OrchestratorFacts.
Import PyObj Models Agents Orchestrator GenFacts.
Local Open Scope Q_scope.

(** *** Errors of stage agents *)

(** The chat message that [_handle_error] builds for an error message. *)
Definition error_chat_message (self : ChatOrchestrator) (message : AgentMessage)
  : AgentMessage :=
  mkAgentMessage CHAT_RESPONSE (Some CHAT_ORCHESTRATOR) None
    (list_to_map
       [ ("message",
          PFmt "{} in {} agent."
               [ match data message !! "error" with
                 | Some e => e
                 | None => PStr "An error occurred"
                 end;
                 sender_arg (sender message) ]);
         ("message_type", PStr "error");
         ("data", PDict (data message)) ])
    (self_session_id self).

(** C9: when the orchestrator processes an ERROR message, it yields one
    CHAT_RESPONSE message whose message_type is "error" and which carries
    the data of the error message, and the conversation stage and the
    rest of the state of the orchestrator are as before. *)
Theorem error_message_becomes_chat_message
    (validate : string -> pyval -> option pyval)
    (classification_agent : AgentMessage -> list (MessageType * option AgentType * pyobject))
    (_handle_user_action _handle_intake_completion _handle_extraction_completion
       : AgentMessage -> Z -> Gen unit)
    (self : ChatOrchestrator) (message : AgentMessage) (now : Z) :
  type message = ERROR ->
  let r := process validate classification_agent _handle_user_action
                   _handle_intake_completion _handle_extraction_completion
                   message now self in
  trace r = [(error_chat_message self message, conversation_stage self)] /\
  type (error_chat_message self message) = CHAT_RESPONSE /\
  data (error_chat_message self message) !! "message_type" = Some (PStr "error") /\
  data (error_chat_message self message) !! "data" = Some (PDict (data message)) /\
  final r = self /\
  conversation_stage (final r) = conversation_stage self /\
  ending r = Ok tt.
Proof.
  intros Htype. cbv zeta. unfold process. rewrite Htype.
  repeat split; reflexivity.
Qed.

Definition intake_failure : AgentMessage :=
  emit_error (mkBaseAgent INTAKE "3f2b8c1e-session")
             (PStr "Failed to process portfolio file: no such file")
             (Some (list_to_map [("file_path", PStr "portfolio.csv")])).

Lemma error_message_becomes_chat_message_witness :
  type intake_failure = ERROR /\
  trace (process (fun _ v => Some v) (fun _ => []) (fun _ _ => mret tt)
                 (fun _ _ => mret tt) (fun _ _ => mret tt)
                 intake_failure 0 (new "3f2b8c1e-session"))
  = [(error_chat_message (new "3f2b8c1e-session") intake_failure, GREETING)].
Proof.
  split; [reflexivity |].
  apply (error_message_becomes_chat_message (fun _ v => Some v) (fun _ => [])
           (fun _ _ => mret tt) (fun _ _ => mret tt) (fun _ _ => mret tt)
           (new "3f2b8c1e-session") intake_failure 0).
  reflexivity.
Defined.

(** *** The end of the review *)

Definition closing_message (self : ChatOrchestrator) : AgentMessage :=
  create_message (base self) CHAT_RESPONSE None
    (list_to_map
       [ ("message", PStr "That's all the input I needed! Your portfolio categorization is now complete.");
         ("message_type", PStr "success") ]).

Lemma to_dicts_raises (c : pyobject) (rest : list pyobject) :
  to_dicts (c :: rest) = Raise "AttributeError".
Proof. reflexivity. Qed.

Lemma nonempty_map_to_list (m : gmap string pyobject) :
  m <> ∅ -> exists c rest, snd <$> map_to_list m = c :: rest.
Proof.
  intros Hne. destruct (map_to_list m) as [| [k c] l] eqn:E.
  - apply map_to_list_empty_iff in E. contradiction.
  - exists c, (snd <$> l). reflexivity.
Qed.

(** The run of [finish_review]: the closing message, and then the final
    results only when the session holds no categorization. In neither
    case does the state of the orchestrator change. *)
Lemma finish_review_run (self : ChatOrchestrator) (session : CategorizationSession) :
  final (finish_review session self) = self /\
  (fund_categorizations session <> ∅ ->
     trace (finish_review session self) = [(closing_message self, conversation_stage self)]
     /\ ending (finish_review session self) = Raise "AttributeError") /\
  (fund_categorizations session = ∅ ->
     exists summary,
       get_summary session = Ok summary /\
       trace (finish_review session self) =
         [ (closing_message self, conversation_stage self);
           (_create_categorization_results_message self
              (PDict (list_to_map [("classifications", PList []); ("summary", summary)])),
            conversation_stage self) ]
       /\ ending (finish_review session self) = Ok tt).
Proof.
  destruct (decide (fund_categorizations session = ∅)) as [Hempty | Hne].
  - assert (Hsum : exists summary, get_summary session = Ok summary).
    { unfold get_summary. rewrite Hempty, map_to_list_empty. eexists. reflexivity. }
    destruct Hsum as [summary Hsum].
    assert (Hrun : finish_review session self =
              mkRun [ (closing_message self, conversation_stage self);
                      (_create_categorization_results_message self
                         (PDict (list_to_map [("classifications", PList []);
                                              ("summary", summary)])),
                       conversation_stage self) ] self (Ok tt)).
    { unfold finish_review, mbind, gen_bind, lift, yield_chat, get_self, yield.
      cbn [ending trace final]. rewrite Hempty, map_to_list_empty.
      cbn [fmap list_fmap to_dicts ending trace final]. rewrite Hsum. reflexivity. }
    rewrite Hrun. split; [reflexivity |].
    split; [intros H; contradiction | intros _].
    exists summary. repeat split; [exact Hsum].
  - destruct (nonempty_map_to_list _ Hne) as (c & rest & Hl).
    assert (Hrun : finish_review session self =
              mkRun [(closing_message self, conversation_stage self)] self
                    (Raise "AttributeError")).
    { unfold finish_review, mbind, gen_bind, lift, yield_chat, get_self, yield.
      cbn [ending trace final]. rewrite Hl. reflexivity. }
    rewrite Hrun. split; [reflexivity |].
    split; [intros _; split; reflexivity | intros H; contradiction].
Qed.

(** C3: when the pointer is past the end of [funds_needing_input], the
    orchestrator yields the closing message with the stage it had, and
    its state at the end is the state at the start: the conversation
    stage is not set to CATEGORIZATION_COMPLETE and the stage of the
    session is not set to "complete". The final results follow only when
    the session holds no categorization; otherwise the run ends with the
    AttributeError of [to_dict]. *)
Theorem exhausted_pointer_leaves_stage_unchanged
    (self : ChatOrchestrator) (session : CategorizationSession) (now : Z) :
  categorization_session self = Some session ->
  (length (funds_needing_input session) <= current_fund_index session)%nat ->
  let r := _send_next_categorization_question now self in
  final r = self /\
  conversation_stage (final r) = conversation_stage self /\
  categorization_session (final r) = Some session /\
  (exists rest, trace r = (closing_message self, conversation_stage self) :: rest) /\
  (fund_categorizations session <> ∅ ->
     trace r = [(closing_message self, conversation_stage self)]
     /\ ending r = Raise "AttributeError") /\
  (fund_categorizations session = ∅ ->
     exists results,
       trace r = [ (closing_message self, conversation_stage self);
                   (results, conversation_stage self) ]
       /\ data results !! "type" = Some (PStr "categorization_complete")
       /\ ending r = Ok tt).
Proof.
  intros Hs Hlen. cbv zeta.
  assert (Hrun : _send_next_categorization_question now self = finish_review session self).
  { unfold _send_next_categorization_question, remaining. rewrite Hs.
    assert (Hnext : get_next_fund_needing_input session = None).
    { unfold get_next_fund_needing_input.
      destruct (Nat.ltb_spec (current_fund_index session)
                             (length (funds_needing_input session))); [lia | reflexivity]. }
    replace (length (funds_needing_input session) - current_fund_index session)%nat
      with O by lia.
    cbn [send_next_question]. unfold mbind, gen_bind, get_self. cbn [ending final trace].
    rewrite Hs, Hnext. 
    destruct (finish_review session self) as [t f e] eqn:E. cbn. destruct e; reflexivity. }
  rewrite Hrun.
  destruct (finish_review_run self session) as (Hfinal & Hraise & Hok).
  split; [exact Hfinal |]. rewrite Hfinal.
  split; [reflexivity |]. split; [exact Hs |].
  split; [| split].
  - destruct (decide (fund_categorizations session = ∅)) as [He | Hne].
    + destruct (Hok He) as (summary & _ & Ht & _). rewrite Ht. eauto.
    + destruct (Hraise Hne) as [Ht _]. rewrite Ht. eauto.
  - exact Hraise.
  - intros He. destruct (Hok He) as (summary & _ & Ht & Hend).
    eexists. split; [exact Ht |]. split; [reflexivity | exact Hend].
Qed.

(** A fund that needs no further question: cash, with a confidence of
    0.99. *)
Definition settled_fund : pyobject :=
  match FundCategorization (fun _ v => Some v)
          (list_to_map
             [ ("ticker", PStr "XYZQ"); ("fund_name", PStr "XYZ Quantitative Fund");
               ("asset_class", PStr "Cash"); ("asset_class_confidence", PNum 0.99);
               ("classification_method", PStr "rule_based");
               ("reasoning", PStr "Using provided asset class: cash") ]) 0 with
  | Ok f => f
  | Raise _ => ∅
  end.

Definition review_session (index : nat) : CategorizationSession :=
  mkCategorizationSession "3f2b8c1e-session" [] {[ "XYZQ" := settled_fund ]}
    "reviewing" [PStr "XYZQ"] index 0 0 1 1 1.

Definition reviewing (index : nat) : ChatOrchestrator :=
  mkChatOrchestrator "3f2b8c1e-session" true CATEGORIZATION_REVIEW None
                     (Some (review_session index)) "categorization".

Lemma exhausted_pointer_leaves_stage_unchanged_witness :
  categorization_session (reviewing 1) = Some (review_session 1) /\
  (length (funds_needing_input (review_session 1)) <= current_fund_index (review_session 1))%nat /\
  conversation_stage (final (_send_next_categorization_question 5 (reviewing 1)))
    = CATEGORIZATION_REVIEW /\
  ending (_send_next_categorization_question 5 (reviewing 1)) = Raise "AttributeError".
Proof.
  split; [reflexivity |]. split; [vm_compute; lia |].
  pose proof (exhausted_pointer_leaves_stage_unchanged (reviewing 1) (review_session 1) 5
                eq_refl ltac:(vm_compute; lia)) as H.
  cbv zeta in H. destruct H as (_ & Hstage & _ & _ & Hraise & _).
  split; [exact Hstage |].
  apply Hraise. unfold review_session. cbn [fund_categorizations].
  apply map_non_empty_singleton.
Defined.

(** The same end reached from the last fund of the list: the fund raises
    no question, the pointer moves past the end, and the stage stays
    CATEGORIZATION_REVIEW. *)
Example last_fund_without_question :
  let r := _send_next_categorization_question 5 (reviewing 0) in
  (current_fund_index <$> categorization_session (final r)) = Some 1%nat /\
  (current_stage <$> categorization_session (final r)) = Some "reviewing"%string /\
  conversation_stage (final r) = CATEGORIZATION_REVIEW /\
  map snd (trace r) = [CATEGORIZATION_REVIEW] /\
  ending r = Raise "AttributeError".
Proof. repeat split; vm_compute; reflexivity. Qed.

(** With no categorization in the session the final results are sent,
    and the stage is still not CATEGORIZATION_COMPLETE. *)
Example exhausted_pointer_empty_session :
  let self := mkChatOrchestrator "3f2b8c1e-session" true CATEGORIZATION_REVIEW None
                (Some (mkCategorizationSession "3f2b8c1e-session" [] ∅ "reviewing"
                         [] 0 0 0 0 0 0)) "categorization" in
  let r := _send_next_categorization_question 5 self in
  map snd (trace r) = [CATEGORIZATION_REVIEW; CATEGORIZATION_REVIEW] /\
  conversation_stage (final r) = CATEGORIZATION_REVIEW /\
  ending r = Ok tt.
Proof. repeat split; vm_compute; reflexivity. Qed.

(** *** The completion of the classification *)

Lemma build_fields_missing_required (validate : string -> pyval -> option pyval)
    (name : string) (specs : list (string * option pyval)) (given acc : pyobject) :
  In (name, None) specs -> given !! name = None ->
  build_fields validate specs given acc = Raise "ValidationError".
Proof.
  revert acc. induction specs as [| [n d] specs IH]; intros acc Hin Hmiss; [destruct Hin |].
  simpl. destruct Hin as [[= -> ->] | Hin].
  - rewrite Hmiss. reflexivity.
  - destruct (given !! n) as [v |].
    + destruct (validate n v); [apply IH; assumption | reflexivity].
    + destruct d; [apply IH; assumption | reflexivity].
Qed.

(** A dict without the key [asset_class_confidence] is refused. *)
Lemma FundCategorization_requires_confidence
    (validate : string -> pyval -> option pyval) (given : pyobject) (now : Z) :
  given !! "asset_class_confidence" = None ->
  FundCategorization validate given now = Raise "ValidationError".
Proof.
  intros H. unfold FundCategorization.
  apply (build_fields_missing_required validate "asset_class_confidence"); [| exact H].
  unfold field_specs. simpl. tauto.
Qed.

(** [ClassificationResult.to_dict] writes the confidence under the key
    [confidence]. *)
Lemma to_dict_has_no_asset_class_confidence (c : pyobject) :
  to_dict c !! "asset_class_confidence" = None /\
  to_dict c !! "confidence" = Some (attr c "asset_class_confidence").
Proof. split; reflexivity. Qed.

Definition with_stage (self : ChatOrchestrator) (stage : ConversationStage)
  : ChatOrchestrator :=
  mkChatOrchestrator (self_session_id self) (is_active self) stage
    (processing_session self) (categorization_session self) (workflow_mode self).

(** C2: with a categorization session in place, the completion message of
    the classification agent, whose classifications are the dicts of
    [ClassificationResult.to_dict], ends the handler with a
    ValidationError at the first classification: no message is yielded
    and the stage stays CLASSIFICATION_COMPLETED, whatever the summary
    says; neither USER_REVIEW_NEEDED nor CATEGORIZATION_COMPLETE is
    entered. *)
Theorem classification_completion_raises_in_session
    (validate : string -> pyval -> option pyval)
    (self : ChatOrchestrator) (session : CategorizationSession)
    (message : AgentMessage) (categorization_data : pyobject)
    (c : pyobject) (others : list pyval) (now : Z) :
  categorization_session self = Some session ->
  data message !! "categorization_data" = Some (PDict categorization_data) ->
  categorization_data !! "classifications" = Some (PList (PDict (to_dict c) :: others)) ->
  let r := _handle_classification_completion validate message now self in
  trace r = [] /\
  ending r = Raise "ValidationError" /\
  final r = with_stage self CLASSIFICATION_COMPLETED /\
  conversation_stage (final r) <> USER_REVIEW_NEEDED /\
  conversation_stage (final r) <> CATEGORIZATION_COMPLETE.
Proof.
  intros Hs Hdata Hcls. cbv zeta.
  assert (Hstore : forall s,
            categorization_session s = Some session ->
            store_classifications validate (PDict (to_dict c) :: others) now s
            = mkRun [] s (Raise "ValidationError")).
  { intros s _. cbn [store_classifications].
    apply gen_bind_raise. unfold lift.
    rewrite (FundCategorization_requires_confidence validate (to_dict c) now)
      by apply to_dict_has_no_asset_class_confidence.
    reflexivity. }
  assert (Hrun : _handle_classification_completion validate message now self =
                 mkRun [] (with_stage self CLASSIFICATION_COMPLETED)
                       (Raise "ValidationError")).
  { unfold _handle_classification_completion. rewrite Hdata. cbn [get].
    rewrite (gen_bind_ok _ _ self [] (with_stage self CLASSIFICATION_COMPLETED) tt)
      by reflexivity.
    rewrite (gen_bind_ok _ _ (with_stage self CLASSIFICATION_COMPLETED) []
               (with_stage self CLASSIFICATION_COMPLETED)
               (with_stage self CLASSIFICATION_COMPLETED)) by reflexivity.
    cbn [categorization_session with_stage]. rewrite Hs, Hcls.
    rewrite (gen_bind_raise _ _ (with_stage self CLASSIFICATION_COMPLETED) []
               (with_stage self CLASSIFICATION_COMPLETED) "ValidationError").
    - reflexivity.
    - rewrite (gen_bind_ok _ _ (with_stage self CLASSIFICATION_COMPLETED) []
                 (with_stage self CLASSIFICATION_COMPLETED)
                 (PDict (to_dict c) :: others)) by reflexivity.
      cbn [app trace final ending]. rewrite Hstore by exact Hs. reflexivity. }
  rewrite Hrun. repeat split; discriminate.
Qed.

(** The completion message for one fund classified with confidence
    0.99 and no input asked of the user. *)
Definition classified_data : pyobject :=
  list_to_map
    [ ("classifications", PList [PDict (to_dict settled_fund)]);
      ("summary", PDict (list_to_map
         [ ("total_funds", PNum 1); ("average_confidence", PNum 0.99);
           ("requires_user_input", PNum 0) ]));
      ("interaction_needed", PList []) ].

Definition classified : AgentMessage :=
  mkAgentMessage DATA_PROCESSED (Some CHAT_ORCHESTRATOR) None
    (list_to_map [("categorization_data", PDict classified_data)])
    "3f2b8c1e-session".

Lemma classification_completion_raises_in_session_witness :
  trace (_handle_classification_completion (fun _ v => Some v) classified 7 (reviewing 0)) = []
  /\ ending (_handle_classification_completion (fun _ v => Some v) classified 7 (reviewing 0))
     = Raise "ValidationError".
Proof.
  pose proof (classification_completion_raises_in_session (fun _ v => Some v)
                (reviewing 0) (review_session 0) classified classified_data
                settled_fund [] 7 eq_refl eq_refl eq_refl) as H.
  cbv zeta in H. destruct H as (Ht & He & _). split; [exact Ht | exact He].
Defined.

End OrchestratorFacts.

(** ** The session identifier of messages *)

Module RouterFacts.
Import PyObj Models Agents Orchestrator GenFacts Router.

(** A generator keeps the session identifier when the orchestrator ends
    with the identifier it started with and every message yielded
    carries it. *)
Definition same_session (id : string) (m : AgentMessage) : Prop := session_id m = id.

Definition keeps_session_id {A} (m : Gen A) : Prop :=
  keeps self_session_id same_session m.

Lemma session_id_key_session (self : ChatOrchestrator) (s : CategorizationSession) :
  self_session_id (final (set_categorization_session s self)) = self_session_id self.
Proof. reflexivity. Qed.

Lemma session_id_own_message (self : ChatOrchestrator) (message_type : MessageType)
    (recipient : option AgentType) (data : pyobject) :
  same_session (self_session_id self) (create_message (base self) message_type recipient data).
Proof. reflexivity. Qed.

Create HintDb session.
#[local] Hint Resolve session_id_key_session session_id_own_message : session.

Lemma keeps_session_id_set_stage (stage : ConversationStage) :
  keeps_session_id (set_stage stage).
Proof. intros self. split; [reflexivity | constructor]. Qed.

Lemma keeps_session_id_yield_chat (data : list (string * pyval)) :
  keeps_session_id (yield_chat data).
Proof. apply keeps_yield_chat. auto with session. Qed.

Lemma keeps_session_id_results (self : ChatOrchestrator) (categorization_data : pyval) :
  keeps_at self_session_id same_session
    (yield (_create_categorization_results_message self categorization_data)) self.
Proof. apply keeps_at_yield_own. auto with session. Qed.

Lemma keeps_session_id_start_user_review_process (categorization_data : pyval) (now : Z) :
  keeps_session_id (_start_user_review_process categorization_data now).
Proof.
  destruct (start_user_review_process_body self_session_id same_session
              session_id_key_session session_id_own_message categorization_data now)
    as (body & Hbody & ->).
  apply keeps_bind; [apply keeps_session_id_set_stage | intros _; exact Hbody].
Qed.

Lemma keeps_session_id_store_classifications
    (validate : string -> pyval -> option pyval) (classifications : list pyval) (now : Z) :
  keeps_session_id (store_classifications validate classifications now).
Proof.
  induction classifications as [| classification_dict rest IH]; cbn [store_classifications].
  - apply keeps_ret.
  - destruct classification_dict; try apply keeps_raise.
    apply keeps_bind; [apply keeps_lift | intros fund_categorization].
    apply keeps_get_self_then. intros self.
    apply keeps_bind; [| intros _; exact IH].
    destruct (categorization_session self) as [session |]; [| apply keeps_ret].
    apply keeps_bind; [apply keeps_lift | intros session'].
    apply keeps_set_categorization_session. auto with session.
Qed.

Lemma keeps_session_id_handle_classification_completion
    (validate : string -> pyval -> option pyval) (message : AgentMessage) (now : Z) :
  keeps_session_id (_handle_classification_completion validate message now).
Proof.
  unfold _handle_classification_completion.
  apply keeps_bind; [apply keeps_session_id_set_stage | intros _].
  match goal with |- context [get ?d "summary" ?x] => destruct (get d "summary" x) as [summary |] end;
    [| apply keeps_raise].
  apply keeps_get_self_then. intros self. apply keeps_bind.
  - destruct (categorization_session self); [| apply keeps_ret].
    match goal with |- context [get ?d "classifications" ?x] =>
      destruct (get d "classifications" x) as [classifications |] end;
      [| apply keeps_raise].
    apply keeps_bind; [apply keeps_lift | intros items].
    apply keeps_session_id_store_classifications.
  - intros _.
    destruct (get summary "requires_user_input" (PNum 0)) as [needs_review |];
      [| apply keeps_raise].
    destruct (get summary "average_confidence" (PNum 0.0)) as [avg_confidence |];
      [| apply keeps_raise].
    apply keeps_bind; [apply keeps_lift | intros [|]].
    + apply keeps_bind; [apply keeps_session_id_set_stage | intros _].
      apply keeps_bind; [apply keeps_session_id_yield_chat | intros _].
      apply keeps_session_id_start_user_review_process.
    + apply keeps_bind; [apply keeps_session_id_set_stage | intros _].
      apply keeps_bind; [apply keeps_lift | intros total_funds].
      apply keeps_bind; [apply keeps_session_id_yield_chat | intros _].
      apply keeps_get_self_bind. intros self'. apply keeps_session_id_results.
Qed.

(** The answers of the classification agent are forwarded as they are:
    they carry the identifier the agent was built with. *)
Lemma keeps_session_id_forward_classification
    (validate : string -> pyval -> option pyval) (responses : list AgentMessage) (now : Z)
    (self : ChatOrchestrator) :
  Forall (same_session (self_session_id self)) responses ->
  keeps_at self_session_id same_session
    (forward_classification validate responses now) self.
Proof.
  revert self. induction responses as [| response rest IH]; intros self Hall;
    cbn [forward_classification].
  - apply keeps_ret.
  - apply Forall_cons in Hall as [Hresponse Hrest].
    apply keeps_at_bind.
    + destruct (type response); try apply keeps_ret.
      * split; [reflexivity |]. repeat constructor. exact Hresponse.
      * apply keeps_session_id_handle_classification_completion.
    + intros _ _. apply IH.
      assert (Hid : self_session_id
                (final (match type response with
                        | STATUS_UPDATE => yield response
                        | DATA_PROCESSED =>
                            _handle_classification_completion validate response now
                        | _ => mret tt
                        end self)) = self_session_id self).
      { destruct (type response); try reflexivity.
        apply keeps_session_id_handle_classification_completion. }
      rewrite Hid. exact Hrest.
Qed.

Lemma classification_responses_same_session
    (classification_agent : AgentMessage -> list (MessageType * option AgentType * pyobject))
    (self : ChatOrchestrator) (message : AgentMessage) :
  Forall (same_session (self_session_id self))
         (classification_responses classification_agent self message).
Proof.
  unfold classification_responses. apply Forall_fmap, Forall_forall.
  intros call _. reflexivity.
Qed.

Lemma keeps_session_id_handle_research_completion
    (validate : string -> pyval -> option pyval)
    (classification_agent : AgentMessage -> list (MessageType * option AgentType * pyobject))
    (message : AgentMessage) (now : Z) :
  keeps_session_id (_handle_research_completion validate classification_agent message now).
Proof.
  unfold _handle_research_completion, _start_classification_phase.
  apply keeps_bind; [apply keeps_session_id_set_stage | intros _].
  apply keeps_bind; [apply keeps_session_id_yield_chat | intros _].
  apply keeps_bind; [apply keeps_session_id_set_stage | intros _].
  apply keeps_get_self_bind. intros self.
  apply keeps_session_id_forward_classification, classification_responses_same_session.
Qed.

Lemma keeps_session_id_set_processing_session (session : pyobject) :
  keeps_session_id (set_processing_session session).
Proof. intros self. split; [reflexivity | constructor]. Qed.

Lemma keeps_session_id_yield_all (messages : list AgentMessage) (self : ChatOrchestrator) :
  Forall (same_session (self_session_id self)) messages ->
  keeps_at self_session_id same_session (yield_all messages) self.
Proof.
  revert self. induction messages as [| message rest IH]; intros self Hall;
    cbn [yield_all].
  - apply keeps_ret.
  - apply Forall_cons in Hall as [Hmessage Hrest]. apply keeps_at_bind.
    + split; [reflexivity |]. repeat constructor. exact Hmessage.
    + intros _ _. apply IH. exact Hrest.
Qed.

(** The messages of the intake agent carry the identifier the agent was
    built with. *)
Lemma intake_process_same_session
    (read_portfolio : pyval -> outcome (list pyval * Q)) (exception_text : pyval -> pyval)
    (agent : BaseAgent) (message : AgentMessage) :
  Forall (same_session (agent_session_id agent))
         (intake_process read_portfolio exception_text agent message).
Proof.
  unfold intake_process. destruct (type message); try constructor.
  destruct (data message !! "file_path") as [file_path |]; [| constructor].
  constructor; [reflexivity |].
  destruct (read_portfolio file_path) as [[portfolio_items confidence] | exn];
    repeat constructor.
Qed.

Lemma keeps_session_id_start_extraction_phase : keeps_session_id _start_extraction_phase.
Proof. apply keeps_get_self_bind. intros self. apply keeps_at_yield_own. auto with session. Qed.

Lemma keeps_session_id_handle_classifications_approval (message : AgentMessage) :
  keeps_session_id (_handle_classifications_approval message).
Proof.
  unfold _handle_classifications_approval.
  apply keeps_bind; [apply keeps_session_id_set_stage | intros _].
  apply keeps_bind; [apply keeps_session_id_yield_chat | intros _].
  apply keeps_get_self_bind. intros self.
  destruct (categorization_session self) as [session |]; [| apply keeps_ret].
  apply keeps_at_bind; [apply keeps_lift | intros classifications _].
  apply keeps_at_bind; [apply keeps_lift | intros summary _].
  apply keeps_session_id_results.
Qed.

Section Process.

Variable validate : string -> pyval -> option pyval.
Variable classification_agent :
  AgentMessage -> list (MessageType * option AgentType * pyobject).
Variable read_portfolio : pyval -> outcome (list pyval * Q).
Variable exception_text : pyval -> pyval.
Variable _generate_contextual_response : ConversationStage -> pyval -> outcome pyval.
Variable _start_research_phase : Z -> Gen unit.
Variables _start_categorization_workflow _handle_categorization_answer
  _handle_classification_override _handle_intake_completion _handle_extraction_completion
  : AgentMessage -> Z -> Gen unit.

Let user_action :=
  _handle_user_action read_portfolio exception_text _generate_contextual_response
    _start_research_phase _start_categorization_workflow _handle_categorization_answer
    _handle_classification_override.

Let process :=
  Orchestrator.process validate classification_agent user_action
    _handle_intake_completion _handle_extraction_completion.

Lemma keeps_session_id_handle_file_upload (message : AgentMessage) (now : Z) :
  keeps_session_id (_handle_file_upload read_portfolio exception_text message now).
Proof.
  unfold _handle_file_upload. cbv zeta.
  match goal with |- context [if ?b then _ else _] => destruct b end;
    [apply keeps_yield_error; auto with session |].
  apply keeps_get_self_then. intros self. apply keeps_bind.
  { destruct (processing_session self);
      [apply keeps_session_id_set_processing_session | apply keeps_ret]. }
  intros _. apply keeps_bind; [apply keeps_session_id_yield_chat | intros _].
  apply keeps_get_self_bind. intros self'.
  apply keeps_session_id_yield_all.
  apply (intake_process_same_session read_portfolio exception_text
           (mkBaseAgent INTAKE (self_session_id self'))).
Qed.

Lemma keeps_session_id_handle_chat_message (message : AgentMessage) (now : Z) :
  keeps_session_id (_handle_chat_message _generate_contextual_response message now).
Proof.
  unfold _handle_chat_message. cbv zeta.
  apply keeps_get_self_then. intros self. apply keeps_bind.
  { destruct (processing_session self);
      [apply keeps_session_id_set_processing_session | apply keeps_ret]. }
  intros _. apply keeps_get_self_then. intros self'.
  apply keeps_bind; [apply keeps_lift | intros response_msg].
  apply keeps_session_id_yield_chat.
Qed.

(** The actions whose handlers are not gone into. *)
Definition other_actions : list string :=
  [ "start_research"; "start_categorization"; "start_processing";
    "answer_question"; "override_classification" ].

(** The messages whose handling is followed to its end: every message
    but a request of one of the actions above and the completion of the
    intake or of the extraction. *)
Definition followed (message : AgentMessage) : bool :=
  match type message with
  | REQUEST_ACTION =>
      let action := match data message !! "action" with Some v => v | None => PNone end in
      negb (existsb (eq_str action) other_actions)
  | DATA_PROCESSED =>
      match sender message with
      | Some INTAKE | Some EXTRACTION => false
      | _ => true
      end
  | _ => true
  end.

Lemma keeps_session_id_user_action (message : AgentMessage) (now : Z) :
  type message = REQUEST_ACTION -> followed message = true ->
  keeps_session_id (user_action message now).
Proof.
  intros Htype. unfold followed. rewrite Htype. unfold user_action, _handle_user_action.
  cbv zeta. set (action := match data message !! "action" with Some v => v | None => PNone end).
  cbn [existsb other_actions]. intros Hfollowed.
  apply negb_true_iff in Hfollowed.
  repeat (apply orb_false_iff in Hfollowed as [? Hfollowed]).
  repeat match goal with H : eq_str action _ = false |- _ => rewrite H; clear H end.
  destruct (eq_str action "upload_file"); [apply keeps_session_id_handle_file_upload |].
  destruct (eq_str action "start_extraction");
    [apply keeps_session_id_start_extraction_phase |].
  destruct (eq_str action "approve_classifications");
    [apply keeps_session_id_handle_classifications_approval |].
  destruct (eq_str action "chat_message");
    [apply keeps_session_id_handle_chat_message | apply keeps_ret].
Qed.

Lemma keeps_session_id_process (message : AgentMessage) (now : Z) :
  followed message = true -> keeps_session_id (process message now).
Proof.
  intros Hfollowed. unfold process, Orchestrator.process.
  destruct (type message) eqn:Htype; try apply keeps_ret.
  - apply keeps_get_self_bind. intros self. apply keeps_at_yield_own. auto with session.
  - unfold _handle_agent_completion. unfold followed in Hfollowed. rewrite Htype in Hfollowed.
    destruct (sender message) as [[| | | | |] |]; try apply keeps_ret; try discriminate.
    apply keeps_session_id_handle_research_completion.
  - apply keeps_session_id_user_action; assumption.
  - apply keeps_session_id_yield_chat.
Qed.

Lemma chat_message_followed (id text : string) (metadata : pyobject) :
  followed (chat_message id text metadata) = true.
Proof.
  unfold followed, chat_message. cbn [type data list_to_map foldr fst snd].
  rewrite lookup_insert_eq. reflexivity.
Qed.

Lemma upload_file_message_followed (id : string) (session : ProcessingSession) :
  followed (upload_file_message id session) = true.
Proof.
  unfold followed, upload_file_message. cbn [type data list_to_map foldr fst snd].
  rewrite lookup_insert_eq. reflexivity.
Qed.

(** The sessions of the router: each orchestrator is stored under its own
    identifier, and no identifier is the empty string. *)
Definition sessions_named (r : Router) : Prop :=
  forall id o, active_sessions r !! id = Some o -> self_session_id o = id /\ id <> "".

(** The identifiers that [uuid.uuid4] gives have 36 characters. *)
Definition issued (req : request) : Prop :=
  match req with
  | CreateSession uuid | TestSample uuid => String.length uuid = 36%nat
  | _ => True
  end.

(** A message with the responses to it, all under one non-empty
    identifier. *)
Definition exchange_named (e : AgentMessage * list AgentMessage) : Prop :=
  session_id (fst e) <> "" /\
  Forall (fun response => session_id response = session_id (fst e)) (snd e).

Lemma uuid_non_empty (uuid : string) : String.length uuid = 36%nat -> uuid <> "".
Proof. intros H ->. discriminate H. Qed.

Lemma sessions_named_insert (r : Router) (id : string) (o : ChatOrchestrator)
    (data : gmap string ProcessingSession) :
  sessions_named r -> self_session_id o = id -> id <> "" ->
  sessions_named (mkRouter (<[id := o]> (active_sessions r)) data).
Proof.
  intros Hr Ho Hid id' o'. cbn [active_sessions].
  destruct (decide (id = id')) as [<- | Hne].
  - rewrite lookup_insert_eq. intros [= <-]. split; assumption.
  - rewrite lookup_insert_ne by exact Hne. apply Hr.
Qed.

Lemma handle_message_named (r : Router) (id : string) (o : ChatOrchestrator)
    (message : AgentMessage) (now : Z) :
  sessions_named r -> active_sessions r !! id = Some o -> session_id message = id ->
  followed message = true ->
  sessions_named (fst (handle_message process id o message now r)) /\
  exchange_named (message, snd (handle_message process id o message now r)).
Proof.
  intros Hr Ho Hm Hfollowed. destruct (Hr id o Ho) as [Hself Hid].
  destruct (keeps_session_id_process message now Hfollowed o) as [Hfinal Htrace].
  unfold handle_message. cbn [fst snd]. split.
  - apply sessions_named_insert; [exact Hr | congruence | exact Hid].
  - split; cbn [fst snd]; [congruence |].
    apply Forall_fmap. eapply Forall_impl; [exact Htrace |].
    intros [response stage] H. cbn in *. unfold same_session in H. congruence.
Qed.

Lemma serve_named (req : request) (now : Z) (r : Router) :
  issued req -> sessions_named r ->
  sessions_named (fst (serve process req now r)) /\
  match snd (serve process req now r) with
  | Some e => exchange_named e
  | None => True
  end.
Proof.
  intros Hreq Hr. destruct req as [uuid | uuid | id path ftype | id text metadata | id | id];
    cbn [serve issued] in *.
  - split; [| exact I]. apply sessions_named_insert; [exact Hr | reflexivity |].
    apply uuid_non_empty, Hreq.
  - split; [| exact I]. apply sessions_named_insert; [exact Hr | reflexivity |].
    apply uuid_non_empty, Hreq.
  - unfold upload_portfolio_file. destruct (active_sessions r !! id); cbn [fst snd].
    + split; [| exact I]. intros id' o'. cbn [active_sessions]. apply Hr.
    + split; [exact Hr | exact I].
  - unfold send_chat_message. destruct (active_sessions r !! id) as [o |] eqn:Ho.
    + destruct (handle_message_named r id o (chat_message id text metadata) now Hr Ho eq_refl
                  (chat_message_followed id text metadata)) as [H1 H2].
      destruct (handle_message process id o (chat_message id text metadata) now r)
        as [r' responses]. cbn [fst snd] in *. split; assumption.
    + split; [exact Hr | exact I].
  - unfold enhanced_stream. destruct (active_sessions r !! id) as [o |] eqn:Ho;
      [| split; [exact Hr | exact I]].
    destruct (session_data r !! id) as [session |]; [| split; [exact Hr | exact I]].
    destruct (has_file session && String.eqb (status session) "idle");
      [| split; [exact Hr | exact I]].
    destruct (handle_message_named r id o (upload_file_message id session) now Hr Ho eq_refl
                (upload_file_message_followed id session)) as [H1 H2].
    destruct (handle_message process id o (upload_file_message id session) now r)
      as [r' responses]. cbn [fst snd] in *. split; assumption.
  - split; [| exact I]. intros id' o'. unfold delete_session. cbn [fst active_sessions].
    destruct (active_sessions r !! id); [| apply Hr].
    intros H. apply lookup_delete_Some in H as [_ H]. apply (Hr _ _ H).
Qed.

Lemma serve_all_named (reqs : list request) (now : Z) (r : Router) :
  Forall issued reqs -> sessions_named r ->
  sessions_named (fst (serve_all process reqs now r)) /\
  Forall exchange_named (snd (serve_all process reqs now r)).
Proof.
  revert now r. induction reqs as [| req rest IH]; intros now r Hreqs Hr;
    cbn [serve_all].
  - split; [exact Hr | constructor].
  - apply Forall_cons in Hreqs as [Hreq Hrest].
    destruct (serve_named req now r Hreq Hr) as [H1 H2].
    destruct (serve process req now r) as [r' exchange]. cbn [fst snd] in *.
    destruct (IH (now + 1)%Z r' Hrest H1) as [H3 H4].
    destruct (serve_all process rest (now + 1) r') as [r'' exchanges]. cbn [fst snd] in *.
    split; [exact H3 |]. destruct exchange; [constructor |]; assumption.
Qed.

End Process.


(** A portfolio file that is read as one fund, and an answer to every
    chat message. *)
Definition one_fund (file_path : pyval) : outcome (list pyval * Q) :=
  Ok ([PDict (list_to_map [("ticker", PStr "VTI")])], 0.9%Q).

Definition answer (stage : ConversationStage) (user_message : pyval) : outcome pyval :=
  Ok (PStr "Processing your request...").

Definition session_requests : list request :=
  [ CreateSession "3f2b8c1e-7a4d-4e0b-9c55-1d2e3f4a5b6c";
    Upload "3f2b8c1e-7a4d-4e0b-9c55-1d2e3f4a5b6c" "/app/data/uploads/portfolio.csv" "csv";
    Chat "" "hello" ∅;
    Stream "3f2b8c1e-7a4d-4e0b-9c55-1d2e3f4a5b6c";
    Chat "3f2b8c1e-7a4d-4e0b-9c55-1d2e3f4a5b6c" "hello" ∅ ].

(** The pipeline with these, the handlers that are not gone into doing
    nothing. *)
Definition sample_process : AgentMessage -> Z -> Gen unit :=
  process (fun _ v => Some v) (fun _ => [])
    (_handle_user_action one_fund (fun _ => PStr "") answer
       (fun _ => mret tt) (fun _ _ => mret tt) (fun _ _ => mret tt) (fun _ _ => mret tt))
    (fun _ _ => mret tt) (fun _ _ => mret tt).



End RouterFacts.

(** ** Further properties of the research cache *)

Module ResearchCacheProperties.
Import ResearchCache ResearchCacheFacts.
Local Open Scope Z_scope.

(** *** Look-ups in the ordered dict *)

Lemma dict_get_not_in (k : string) (d : list (string * CacheEntry)) :
  k ∉ map fst d -> dict_get k d = None.
Proof.
  induction d as [| [k' e'] d IH]; simpl; [reflexivity |].
  intros Hnot. apply not_elem_of_cons in Hnot as [Hne Hnot].
  destruct (String.eqb_spec k k'); [contradiction | apply IH, Hnot].
Qed.

Lemma dict_get_del_ne (k k' : string) (d : list (string * CacheEntry)) :
  k' <> k -> dict_get k' (dict_del k d) = dict_get k' d.
Proof.
  intros Hne. induction d as [| [k0 e0] d IH]; simpl; [reflexivity |].
  destruct (String.eqb_spec k k0) as [-> | Hk].
  - destruct (String.eqb_spec k' k0); [contradiction | reflexivity].
  - simpl. rewrite IH. reflexivity.
Qed.

Lemma dict_get_del_eq (k : string) (d : list (string * CacheEntry)) :
  dict_wf d -> dict_get k (dict_del k d) = None.
Proof.
  unfold dict_wf. induction d as [| [k0 e0] d IH]; simpl; [reflexivity |].
  intros Hwf. apply NoDup_cons in Hwf as [Hnot Hwf].
  destruct (String.eqb_spec k k0) as [-> | Hk].
  - apply dict_get_not_in, Hnot.
  - simpl. destruct (String.eqb_spec k k0); [contradiction | apply IH, Hwf].
Qed.

Lemma dict_get_set_ne (k k' : string) (e : CacheEntry) (d : list (string * CacheEntry)) :
  k' <> k -> dict_get k' (dict_set k e d) = dict_get k' d.
Proof.
  intros Hne. induction d as [| [k0 e0] d IH]; simpl.
  - destruct (String.eqb_spec k' k); [contradiction | reflexivity].
  - destruct (String.eqb_spec k k0) as [-> | Hk]; simpl.
    + destruct (String.eqb_spec k' k0); [contradiction | reflexivity].
    + rewrite IH. reflexivity.
Qed.

Lemma remove_from_memory_get_ne (c : ResearchDataCache) (k k' : string) :
  k' <> k ->
  dict_get k' (memory_cache (_remove_from_memory c k)) = dict_get k' (memory_cache c).
Proof.
  intros Hne. unfold _remove_from_memory.
  destruct (dict_get k (memory_cache c)); [| reflexivity].
  simpl. apply dict_get_del_ne, Hne.
Qed.

Lemma remove_from_memory_get_eq (c : ResearchDataCache) (k : string) :
  dict_wf (memory_cache c) ->
  dict_get k (memory_cache (_remove_from_memory c k)) = None.
Proof.
  intros Hwf. unfold _remove_from_memory.
  destruct (dict_get k (memory_cache c)) eqn:E; [| exact E].
  simpl. apply dict_get_del_eq, Hwf.
Qed.

Lemma remove_from_memory_wf (c : ResearchDataCache) (k : string) :
  dict_wf (memory_cache c) -> dict_wf (memory_cache (_remove_from_memory c k)).
Proof.
  intros Hwf. unfold _remove_from_memory.
  destruct (dict_get k (memory_cache c)); [| exact Hwf].
  simpl. apply dict_del_wf, Hwf.
Qed.

(** *** The counters of [get] *)

(** The table has nothing to answer a look-up of the key with. *)
Definition no_row (c : ResearchDataCache) (k : string) (now : Z) : Prop :=
  select_unexpired (cache_entries c) k now = None.

Lemma get_from_disk_counts (c : ResearchDataCache) (k : string) (now : Z) :
  let s := stats c in
  let s' := stats (fst (get_from_disk c k now)) in
  (no_row c k now /\ snd (get_from_disk c k now) = None /\
   hits s' = hits s /\ misses s' = misses s + 1 /\
   memory_hits s' = memory_hits s /\ disk_hits s' = disk_hits s) \/
  (~ no_row c k now /\
   hits s' = hits s + 1 /\ misses s' = misses s /\
   memory_hits s' = memory_hits s /\ disk_hits s' = disk_hits s + 1).
Proof.
  cbv zeta. unfold no_row, get_from_disk, _get_db_connection.
  destruct (select_unexpired (cache_entries c) k now) as [row |]; cbn [fst snd].
  - right. split; [discriminate |].
    destruct (3 <=? access_count row + 1); cbn [stats with_stats bump_disk_hit
      hits misses memory_hits disk_hits].
    + destruct (add_to_memory_lookups c k (value row) (dict_of_row row) now)
        as (-> & -> & -> & ->). tauto.
    + tauto.
  - left. simpl. tauto.
Qed.

(** X1: every call of [get] is counted once, as a hit from memory, as a
    hit from disk or as a miss; it is a miss exactly when the memory
    tier has no unexpired entry under the key and the table no unexpired
    row, and a miss returns [None]. A hit in memory returns the object
    cached: a cached [None] comes back as [None] and is counted as a
    hit. *)
Theorem get_counts_one_hit_or_miss (c : ResearchDataCache) (k : string) (now : Z) :
  let s := stats c in
  let s' := stats (fst (get c k now)) in
  let absent :=
    (forall e, dict_get k (memory_cache c) = Some e -> is_expired e now = true)
    /\ no_row c k now in
  ((hits s' = hits s + 1 /\ misses s' = misses s /\
    memory_hits s' = memory_hits s + 1 /\ disk_hits s' = disk_hits s) \/
   (hits s' = hits s + 1 /\ misses s' = misses s /\
    memory_hits s' = memory_hits s /\ disk_hits s' = disk_hits s + 1) \/
   (hits s' = hits s /\ misses s' = misses s + 1 /\
    memory_hits s' = memory_hits s /\ disk_hits s' = disk_hits s)) /\
  (misses s' = misses s + 1 <-> absent) /\
  (absent -> snd (get c k now) = None) /\
  (forall e, dict_get k (memory_cache c) = Some e -> is_expired e now = false ->
     snd (get c k now) = _deserialize_value (value e) /\
     memory_hits s' = memory_hits s + 1) /\
  (forall e, dict_get k (memory_cache c) = Some e -> is_expired e now = false ->
     value e = pickled_None ->
     snd (get c k now) = None /\ hits s' = hits s + 1 /\ misses s' = misses s).
Proof.
  cbv zeta.
  assert (Hdisk : forall c0, stats c0 = stats c -> cache_entries c0 = cache_entries c ->
            let s := stats c in
            let s' := stats (fst (get_from_disk c0 k now)) in
            ((hits s' = hits s + 1 /\ misses s' = misses s /\
              memory_hits s' = memory_hits s + 1 /\ disk_hits s' = disk_hits s) \/
             (hits s' = hits s + 1 /\ misses s' = misses s /\
              memory_hits s' = memory_hits s /\ disk_hits s' = disk_hits s + 1) \/
             (hits s' = hits s /\ misses s' = misses s + 1 /\
              memory_hits s' = memory_hits s /\ disk_hits s' = disk_hits s)) /\
            (misses s' = misses s + 1 <-> no_row c k now) /\
            (no_row c k now -> snd (get_from_disk c0 k now) = None)).
  { intros c0 Hs Ht. cbv zeta. pose proof (get_from_disk_counts c0 k now) as H.
    cbv zeta in H. unfold no_row in *. rewrite Hs, Ht in H.
    destruct H as [(Hno & Hnone & H1 & H2 & H3 & H4) | (Hrow & H1 & H2 & H3 & H4)].
    - split; [right; right; tauto |]. split; [tauto | intros _; exact Hnone].
    - split; [right; left; tauto |]. split; [| contradiction].
      split; [intros; lia | contradiction]. }
  unfold get. destruct (dict_get k (memory_cache c)) as [e |] eqn:E.
  - destruct (is_expired e now) eqn:Hexp; cbn [negb].
    + destruct (Hdisk (_remove_from_memory c k)) as (H1 & H2 & H3);
        [apply remove_from_memory_stats | apply remove_from_memory_table |].
      split; [exact H1 |]. split; [| split; [| split]].
      * rewrite H2. split; [intros Hno; split; [| exact Hno] | tauto].
        intros e' [= <-]. exact Hexp.
      * intros [_ Hno]. apply H3, Hno.
      * intros e' [= <-] Hlive. congruence.
      * intros e' [= <-] Hlive. congruence.
    + cbn [fst snd stats with_stats bump_memory_hit hits misses memory_hits disk_hits].
      split; [left; repeat split |]. split; [| split; [| split]].
      * split; [intros; lia |]. intros [Hall _]. specialize (Hall e eq_refl). congruence.
      * intros [Hall _]. specialize (Hall e eq_refl). congruence.
      * intros e' [= <-] _. split; reflexivity.
      * intros e' [= <-] _ Hv. rewrite Hv. repeat split.
  - destruct (Hdisk c eq_refl eq_refl) as (H1 & H2 & H3).
    split; [exact H1 |]. split; [| split; [| split]].
    + rewrite H2. split; [intros Hno; split; [discriminate | exact Hno] | tauto].
    + intros [_ Hno]. apply H3, Hno.
    + discriminate.
    + discriminate.
Qed.

(** *** Deleting *)

Lemma get_from_disk_absent (c : ResearchDataCache) (k : string) (now : Z) :
  cache_entries c !! k = None -> snd (get_from_disk c k now) = None.
Proof.
  intros H. rewrite get_from_disk_no_row; [reflexivity |].
  unfold select_unexpired. rewrite H. reflexivity.
Qed.

(** The value [get] returns depends on the two entries under the key
    only. *)
Lemma get_value_congruence (c1 c2 : ResearchDataCache) (k : string) (now : Z) :
  dict_get k (memory_cache c1) = dict_get k (memory_cache c2) ->
  cache_entries c1 !! k = cache_entries c2 !! k ->
  snd (get c1 k now) = snd (get c2 k now).
Proof.
  intros Hm Ht.
  assert (Hdisk : forall c1' c2',
            cache_entries c1' = cache_entries c1 -> cache_entries c2' = cache_entries c2 ->
            snd (get_from_disk c1' k now) = snd (get_from_disk c2' k now)).
  { intros c1' c2' H1 H2. unfold get_from_disk, _get_db_connection, select_unexpired.
    rewrite H1, H2, Ht.
    destruct (cache_entries c2 !! k) as [row |]; [| reflexivity].
    destruct (now <? expires_at row); reflexivity. }
  unfold get. rewrite Hm. destruct (dict_get k (memory_cache c2)) as [e |].
  - destruct (negb (is_expired e now)); [reflexivity |].
    apply Hdisk; apply remove_from_memory_table.
  - apply Hdisk; reflexivity.
Qed.


Definition two_funds : ResearchDataCache :=
  set (set (init 1000 100000 3600) "Vanguard 500" "fund_research:VOO" None None 0)
      "iShares Core" "fund_research:IVV" None None 1.


(** *** The sweep *)

Lemma fold_remove_get (ks : list string) (c : ResearchDataCache) (k : string) :
  dict_wf (memory_cache c) ->
  (k ∈ ks -> dict_get k (memory_cache (fold_left _remove_from_memory ks c)) = None) /\
  (k ∉ ks -> dict_get k (memory_cache (fold_left _remove_from_memory ks c))
             = dict_get k (memory_cache c)).
Proof.
  revert c. induction ks as [| a ks IH]; intros c Hwf; simpl.
  - split; [intros H; apply elem_of_nil in H; contradiction | reflexivity].
  - destruct (IH (_remove_from_memory c a) (remove_from_memory_wf c a Hwf)) as [Hin Hout].
    destruct (decide (k = a)) as [-> | Hne].
    + assert (Hgone : dict_get a (memory_cache (fold_left _remove_from_memory ks
                                                  (_remove_from_memory c a))) = None).
      { destruct (decide (a ∈ ks)) as [H | H]; [apply Hin, H |].
        rewrite (Hout H). apply remove_from_memory_get_eq, Hwf. }
      split; [intros _; exact Hgone |].
      intros Hnot. exfalso. apply Hnot. left.
    + split.
      * intros H. apply elem_of_cons in H as [H | H]; [contradiction | apply Hin, H].
      * intros H. apply not_elem_of_cons in H as [_ H]. rewrite (Hout H).
        apply remove_from_memory_get_ne, Hne.
Qed.

Lemma expired_keys_spec (d : list (string * CacheEntry)) (now : Z) (k : string) :
  dict_wf d ->
  (k ∈ map fst (List.filter (fun p => is_expired (snd p) now) d)
   <-> exists e, dict_get k d = Some e /\ is_expired e now = true).
Proof.
  intros Hwf. rewrite list_elem_of_In, in_map_iff. split.
  - intros ([k' e] & Hk & Hin). simpl in Hk. subst k'.
    apply filter_In in Hin as [Hin Hexp]. exists e. split; [| exact Hexp].
    apply In_dict_get; assumption.
  - intros (e & Hget & Hexp). exists (k, e). split; [reflexivity |].
    apply filter_In. split; [apply dict_get_In, Hget | exact Hexp].
Qed.

Lemma cleanup_expired_memory (c : ResearchDataCache) (now : Z) :
  memory_cache (_cleanup_expired c now)
  = memory_cache (fold_left _remove_from_memory
                    (map fst (List.filter (fun p => is_expired (snd p) now) (memory_cache c))) c).
Proof.
  unfold _cleanup_expired. cbv zeta.
  match goal with |- context [if ?b then _ else _] => destruct b end; reflexivity.
Qed.

(** What [_cleanup_expired] leaves in the memory tier. *)
Lemma cleanup_expired_spec (c : ResearchDataCache) (now : Z) :
  dict_wf (memory_cache c) ->
  forall k e,
    dict_get k (memory_cache (_cleanup_expired c now)) = Some e
    <-> dict_get k (memory_cache c) = Some e /\ now <= expires_at e.
Proof.
  intros Hwf k e. rewrite cleanup_expired_memory.
  destruct (fold_remove_get
              (map fst (List.filter (fun p => is_expired (snd p) now) (memory_cache c)))
              c k Hwf) as [Hin Hout].
  pose proof (expired_keys_spec (memory_cache c) now k Hwf) as Hkeys.
  split.
  - intros Hget.
    destruct (decide (k ∈ map fst (List.filter (fun p => is_expired (snd p) now)
                                     (memory_cache c)))) as [H | H].
    + rewrite (Hin H) in Hget. discriminate.
    + rewrite (Hout H) in Hget. split; [exact Hget |].
      destruct (Z.le_gt_cases now (expires_at e)) as [Hle | Hgt]; [exact Hle |].
      exfalso. apply H, Hkeys. exists e. split; [exact Hget |].
      unfold is_expired. apply Z.ltb_lt. lia.
  - intros [Hget Hlive]. rewrite Hout; [exact Hget |].
    intros H. apply Hkeys in H as (e' & Hget' & Hexp).
    rewrite Hget in Hget'. injection Hget' as <-.
    unfold is_expired in Hexp. apply Z.ltb_lt in Hexp. lia.
Qed.

Lemma no_expired_keys (d : list (string * CacheEntry)) (now : Z) :
  Nat.eqb (length (map fst (List.filter (fun p => is_expired (snd p) now) d))) 0
  = negb (existsb (fun p => is_expired (snd p) now) d).
Proof.
  induction d as [| p d IH]; simpl; [reflexivity |].
  destruct (is_expired (snd p) now); simpl; [reflexivity | exact IH].
Qed.

(** X3: after [_cleanup_expired] the memory tier holds the entries that
    expire now or later, an entry that expires at the instant of the
    sweep included; the table is as it was, the DELETE being lost; and
    on an empty table the sweep is counted exactly when an entry of the
    memory tier had expired. *)
Theorem cleanup_expired_keeps_unexpired (c : ResearchDataCache) (now : Z) :
  dict_wf (memory_cache c) ->
  (forall k e,
     dict_get k (memory_cache (_cleanup_expired c now)) = Some e
     <-> dict_get k (memory_cache c) = Some e /\ now <= expires_at e) /\
  cache_entries (_cleanup_expired c now) = cache_entries c /\
  (cache_entries c = ∅ ->
   cleanups (stats (_cleanup_expired c now))
   = cleanups (stats c)
     + (if existsb (fun p => is_expired (snd p) now) (memory_cache c) then 1 else 0)).
Proof.
  intros Hwf. split; [apply cleanup_expired_spec, Hwf |].
  split; [apply cleanup_expired_table |].
  intros Ht. unfold _cleanup_expired, _get_db_connection. cbv zeta.
  rewrite fold_remove_table, Ht, map_filter_empty, no_expired_keys.
  cbn [snd]. rewrite map_size_empty.
  change (0 <? Z.of_nat 0 - Z.of_nat 0) with false. cbn [orb].
  destruct (existsb (fun p => is_expired (snd p) now) (memory_cache c));
    cbn [negb stats with_stats bump_cleanups cleanups]; rewrite fold_remove_stats; lia.
Qed.

(** An entry written at 0 that lives for 5 ticks, swept at 5 and at
    6. *)
Definition expiring_now : ResearchDataCache :=
  set (init 1000 100000 3600) "Vanguard 500" "fund_research:VOO" (Some 5) None 0.

Lemma cleanup_expired_keeps_unexpired_witness :
  is_Some (dict_get "fund_research:VOO" (memory_cache (_cleanup_expired expiring_now 5))) /\
  cleanups (stats (_cleanup_expired expiring_now 5)) = 0 /\
  dict_get "fund_research:VOO" (memory_cache (_cleanup_expired expiring_now 6)) = None /\
  cleanups (stats (_cleanup_expired expiring_now 6)) = 1.
Proof.
  assert (Hwf : dict_wf (memory_cache expiring_now)).
  { apply (bool_decide_unpack _). vm_compute. exact I. }
  destruct (cleanup_expired_keeps_unexpired expiring_now 5 Hwf) as (Hm5 & _ & Hc5).
  destruct (cleanup_expired_keeps_unexpired expiring_now 6 Hwf) as (Hm6 & _ & Hc6).
  split; [| split; [| split]].
  - eexists. apply Hm5. split; [vm_compute; reflexivity | vm_compute; discriminate].
  - rewrite Hc5 by reflexivity. vm_compute. reflexivity.
  - destruct (dict_get "fund_research:VOO" (memory_cache (_cleanup_expired expiring_now 6)))
      as [e |] eqn:E; [| reflexivity].
    apply Hm6 in E as [E Hlive]. vm_compute in E. injection E as <-.
    vm_compute in Hlive. exfalso. apply Hlive. reflexivity.
  - rewrite Hc6 by reflexivity. vm_compute. reflexivity.
Defined.

(** *** Eviction *)

(** X4: [_evict_from_memory] on a memory tier that is not empty removes
    one entry, one of least [last_accessed]; the other entries stay, the
    accounted size goes down by the size of the entry, the eviction is
    counted, and the table keeps its row. *)
Theorem evict_removes_least_recently_accessed (c : ResearchDataCache) :
  dict_wf (memory_cache c) -> memory_cache c <> [] ->
  exists k e,
    dict_get k (memory_cache c) = Some e /\
    (forall k' e', dict_get k' (memory_cache c) = Some e' ->
                   last_accessed e <= last_accessed e') /\
    dict_get k (memory_cache (_evict_from_memory c)) = None /\
    (forall k', k' <> k ->
       dict_get k' (memory_cache (_evict_from_memory c)) = dict_get k' (memory_cache c)) /\
    memory_size (_evict_from_memory c) = memory_size c - size_bytes e /\
    evictions (stats (_evict_from_memory c)) = evictions (stats c) + 1 /\
    cache_entries (_evict_from_memory c) = cache_entries c.
Proof.
  intros Hwf Hne.
  destruct (evict_from_memory_spec c Hwf Hne) as (k & e & _ & Hget & Hold & ->).
  exists k, e. split; [exact Hget |]. split.
  { intros k' e' Hget'. apply (Hold (k', e')), dict_get_In, Hget'. }
  cbn. split; [apply dict_get_del_eq, Hwf |].
  split; [intros k' Hk'; apply dict_get_del_ne, Hk' |]. repeat split.
Qed.

Lemma evict_removes_least_recently_accessed_witness :
  exists k e,
    dict_get k (memory_cache two_funds) = Some e /\
    dict_get k (memory_cache (_evict_from_memory two_funds)) = None /\
    memory_size (_evict_from_memory two_funds) = memory_size two_funds - size_bytes e.
Proof.
  assert (Hwf : dict_wf (memory_cache two_funds)).
  { apply (bool_decide_unpack _). vm_compute. exact I. }
  assert (Hne : memory_cache two_funds <> []).
  { vm_compute. discriminate. }
  destruct (evict_removes_least_recently_accessed two_funds Hwf Hne)
    as (k & e & H1 & _ & H2 & _ & H3 & _).
  exists k, e. split; [exact H1 |]. split; [exact H2 | exact H3].
Defined.

(** *** The accounted size *)

Lemma evict_while_fits (fuel : nat) (size : Z) (c : ResearchDataCache) :
  over_budget c size = false -> evict_while fuel size c = c.
Proof. intros H. destruct fuel; simpl; [reflexivity | rewrite H; reflexivity]. Qed.

Lemma dict_set_resident (k : string) (e e' : CacheEntry) (d : list (string * CacheEntry)) :
  dict_get k d = Some e ->
  length (dict_set k e' d) = length d /\
  resident_bytes (dict_set k e' d) = resident_bytes d - size_bytes e + size_bytes e'.
Proof.
  induction d as [| [k0 e0] d IH]; simpl; [discriminate |].
  destruct (String.eqb_spec k k0) as [-> | Hne].
  - intros [= ->]. simpl. split; [reflexivity | lia].
  - intros H. destruct (IH H) as [Hl Hb]. simpl. split; [lia | lia].
Qed.

(** X5: [_add_to_memory] of a key that is resident, when no eviction is
    needed, replaces the entry and adds the new size to [memory_size]
    without taking the old size off: the accounted size moves away from
    the bytes resident by the size of the entry replaced. *)
Theorem readding_resident_key_counts_twice (c : ResearchDataCache) (k v : string)
    (data : entry_data) (now : Z) (e : CacheEntry) :
  let size := get_or (ed_size_bytes data) (_calculate_size v) in
  dict_get k (memory_cache c) = Some e ->
  memory_size c + size <= max_memory_size c ->
  let c' := _add_to_memory c k v data now in
  length (memory_cache c') = length (memory_cache c) /\
  memory_size c' = memory_size c + size /\
  resident_bytes (memory_cache c')
  = resident_bytes (memory_cache c) - size_bytes e + size /\
  memory_size c' - resident_bytes (memory_cache c')
  = memory_size c - resident_bytes (memory_cache c) + size_bytes e.
Proof.
  intros size Hget Hfits c'. subst c'. unfold _add_to_memory. fold size.
  rewrite evict_while_fits by (apply over_budget_false; left; exact Hfits).
  cbn [memory_cache memory_size with_memory].
  destruct (dict_set_resident k e (memory_entry (default_ttl c) k v data now size)
              (memory_cache c) Hget) as [Hl Hb].
  cbn [size_bytes memory_entry] in Hb. repeat split; try assumption; lia.
Qed.

Definition written_once : ResearchDataCache :=
  set (init 1000 100000 3600) "Vanguard 500" "fund_research:VOO" None None 0.

Lemma readding_resident_key_counts_twice_witness :
  let c' := _add_to_memory written_once "fund_research:VOO" "Vanguard 500"
              (mkEntryData None None None None None None) 1 in
  length (memory_cache c') = length (memory_cache written_once) /\
  memory_size c' = memory_size written_once + 12 /\
  memory_size c' - resident_bytes (memory_cache c') = 12.
Proof.
  assert (Hget : dict_get "fund_research:VOO" (memory_cache written_once)
                 = Some (mkCacheEntry "fund_research:VOO" "Vanguard 500" 0 3600 1 0 [] 12)).
  { vm_compute. reflexivity. }
  pose proof (readding_resident_key_counts_twice written_once
                "fund_research:VOO" "Vanguard 500"
                (mkEntryData None None None None None None) 1 _ Hget
                ltac:(vm_compute; discriminate)) as H.
  cbv zeta in H. destruct H as (Hl & Hs & _ & Hd).
  cbv zeta. split; [exact Hl |]. split; [exact Hs |]. rewrite Hd. vm_compute. reflexivity.
Defined.

(** *** Writing and reading back *)

Lemma evict_while_wf (fuel : nat) (size : Z) (c : ResearchDataCache) :
  dict_wf (memory_cache c) -> dict_wf (memory_cache (evict_while fuel size c)).
Proof.
  revert c. induction fuel as [| fuel IH]; intros c Hwf; simpl; [exact Hwf |].
  destruct (over_budget c size); [| exact Hwf].
  apply IH, evict_from_memory_wf, Hwf.
Qed.

Lemma add_to_memory_wf (c : ResearchDataCache) (k v : string) (data : entry_data) (now : Z) :
  dict_wf (memory_cache c) -> dict_wf (memory_cache (_add_to_memory c k v data now)).
Proof.
  intros Hwf. unfold _add_to_memory. cbn [memory_cache with_memory].
  apply dict_set_wf, evict_while_wf, Hwf.
Qed.

Lemma add_to_memory_get (c : ResearchDataCache) (k v : string) (data : entry_data) (now : Z) :
  exists e, dict_get k (memory_cache (_add_to_memory c k v data now)) = Some e /\
            value e = v /\
            expires_at e = get_or (ed_expires_at data)
                             (now + default_ttl (evict_while (length (memory_cache c))
                                       (get_or (ed_size_bytes data) (_calculate_size v)) c)).
Proof.
  unfold _add_to_memory. cbn [memory_cache with_memory]. rewrite dict_get_set_eq.
  eexists. split; [reflexivity |]. split; reflexivity.
Qed.

(** The state [set] leaves before its sweep. *)
Definition written (c : ResearchDataCache) (v k : string) (ttl : option Z)
    (tags : option (list string)) (now : Z) : ResearchDataCache :=
  let entry := mkCacheEntry k v now (now + get_or ttl (default_ttl c)) 1 now
                            (get_or tags []) (_calculate_size v) in
  if _calculate_size v <=? max_memory_size c / 10
  then _add_to_memory c k v (asdict entry) now else c.

Lemma set_written (c : ResearchDataCache) (v k : string) (ttl : option Z)
    (tags : option (list string)) (now : Z) :
  set c v k ttl tags now = written c v k ttl tags now \/
  set c v k ttl tags now = _cleanup_expired (written c v k ttl tags now) now.
Proof.
  unfold set, written. cbv zeta.
  match goal with |- context [if ?b =? 0 then _ else _] => destruct (b =? 0) end;
    [right | left]; reflexivity.
Qed.

Lemma written_wf (c : ResearchDataCache) (v k : string) (ttl : option Z)
    (tags : option (list string)) (now : Z) :
  dict_wf (memory_cache c) -> dict_wf (memory_cache (written c v k ttl tags now)).
Proof.
  intros Hwf. unfold written. cbv zeta.
  destruct (_calculate_size v <=? max_memory_size c / 10); [| exact Hwf].
  apply add_to_memory_wf. exact Hwf.
Qed.

(** What the sweep of [set] leaves of one key in the memory tier, when
    the entry under it has not expired. *)
Lemma sweep_keeps_live (c : ResearchDataCache) (k : string) (now : Z) (c' : ResearchDataCache) :
  dict_wf (memory_cache c) ->
  c' = c \/ c' = _cleanup_expired c now ->
  (forall e, dict_get k (memory_cache c) = Some e -> now <= expires_at e) ->
  dict_get k (memory_cache c') = dict_get k (memory_cache c).
Proof.
  intros Hwf [-> | ->] Hmem; [reflexivity |].
  pose proof (cleanup_expired_spec c now Hwf) as Hm.
  destruct (dict_get k (memory_cache c)) as [e |] eqn:E.
  - apply Hm. split; [exact E | apply Hmem; reflexivity].
  - destruct (dict_get k (memory_cache (_cleanup_expired c now))) as [e |] eqn:E';
      [| reflexivity].
    apply Hm in E' as [E' _]. congruence.
Qed.

(** X6: a value within the per-item cap of the memory tier, written
    with [set], is what [get] returns for the key up to the instant the
    entry expires. *)
Theorem set_then_get_returns_value (c : ResearchDataCache) (v k : string)
    (ttl : option Z) (tags : option (list string)) (now now' : Z) :
  dict_wf (memory_cache c) ->
  now <= now' <= now + get_or ttl (default_ttl c) ->
  _calculate_size v <= max_memory_size c / 10 ->
  snd (get (set c v k ttl tags now) k now') = _deserialize_value v.
Proof.
  intros Hwf Hnow Hfits.
  pose proof (written_wf c v k ttl tags now Hwf) as Hwf'.
  assert (Hmem : exists e, dict_get k (memory_cache (written c v k ttl tags now)) = Some e /\
                           value e = v /\ expires_at e = now + get_or ttl (default_ttl c)).
  { unfold written. cbv zeta.
    destruct (Z.leb_spec (_calculate_size v) (max_memory_size c / 10)) as [Hle | Hgt]; [| lia].
    destruct (add_to_memory_get c k v
                (asdict (mkCacheEntry k v now (now + get_or ttl (default_ttl c)) 1 now
                                      (get_or tags []) (_calculate_size v)))
                now) as (e & He & Hv & Hx).
    exists e. split; [exact He |]. split; [exact Hv | exact Hx]. }
  destruct Hmem as (e & He & Hv & Hx).
  pose proof (sweep_keeps_live (written c v k ttl tags now) k now (set c v k ttl tags now)
                Hwf') as Hm.
  rewrite He in Hm.
  unfold get. rewrite Hm.
  - unfold is_expired. rewrite Hx.
    destruct (Z.ltb_spec (now + get_or ttl (default_ttl c)) now') as [H | _]; [lia |].
    cbn. rewrite Hv. reflexivity.
  - destruct (set_written c v k ttl tags now) as [H | H]; [left | right]; exact H.
  - intros e' [= <-]. lia.
Qed.

Lemma set_then_get_returns_value_witness :
  snd (get (set written_once "Vanguard S&P 500 ETF" "fund_research:VOO" (Some 60) None 10)
           "fund_research:VOO" 70) = Some "Vanguard S&P 500 ETF"%string.
Proof.
  apply (set_then_get_returns_value written_once "Vanguard S&P 500 ETF" "fund_research:VOO"
           (Some 60) None 10 70).
  - apply (bool_decide_unpack _). vm_compute. exact I.
  - vm_compute. split; discriminate.
  - vm_compute. discriminate.
Defined.

(** X7: a value over the per-item cap is kept nowhere: written under a
    key that is resident in memory, it leaves the resident entry in
    place, and until that entry expires [get] returns the value written
    before. *)
Theorem oversize_set_leaves_resident_value (c : ResearchDataCache) (v k : string)
    (ttl : option Z) (tags : option (list string)) (now now' : Z) (e : CacheEntry) :
  dict_wf (memory_cache c) ->
  dict_get k (memory_cache c) = Some e ->
  max_memory_size c / 10 < _calculate_size v ->
  now <= expires_at e -> now' <= expires_at e ->
  snd (get (set c v k ttl tags now) k now') = _deserialize_value (value e) /\
  cache_entries (set c v k ttl tags now) = cache_entries c.
Proof.
  intros Hwf He Hover Hlive Hlive'.
  assert (Hw : written c v k ttl tags now = c).
  { unfold written. cbv zeta.
    destruct (Z.leb_spec (_calculate_size v) (max_memory_size c / 10)); [lia | reflexivity]. }
  pose proof (sweep_keeps_live c k now (set c v k ttl tags now) Hwf) as Hm.
  split; [| apply set_table].
  unfold get. rewrite Hm.
  - rewrite He. unfold is_expired.
    destruct (Z.ltb_spec (expires_at e) now') as [H | _]; [lia | reflexivity].
  - destruct (set_written c v k ttl tags now) as [H | H]; rewrite Hw in H;
      [left | right]; exact H.
  - intros e'. rewrite He. intros [= <-]. exact Hlive.
Qed.

Definition small_cap : ResearchDataCache :=
  set (init 200 100000 3600) "Vanguard 500" "fund_research:VOO" None None 0.

Lemma oversize_set_leaves_resident_value_witness :
  snd (get (set small_cap "Vanguard S&P 500 ETF (VOO)" "fund_research:VOO" None None 10)
           "fund_research:VOO" 20) = Some "Vanguard 500"%string.
Proof.
  apply (oversize_set_leaves_resident_value small_cap "Vanguard S&P 500 ETF (VOO)"
           "fund_research:VOO" None None 10 20
           (mkCacheEntry "fund_research:VOO" "Vanguard 500" 0 3600 1 0 [] 12)).
  - apply (bool_decide_unpack _). vm_compute. exact I.
  - vm_compute. reflexivity.
  - vm_compute. reflexivity.
  - vm_compute. discriminate.
  - vm_compute. discriminate.
Defined.

(** *** Deleting by tag *)

(** X8: [delete_by_tags] goes by the rows of the table and never by the
    tags of the entries in memory: it removes from the memory tier the
    keys of the rows that carry one of the tags, and leaves the table as
    it was, its DELETE being lost. On an empty table it changes nothing,
    whatever the tags of the entries in memory. *)
Theorem delete_by_tags_goes_by_rows (c : ResearchDataCache) (wanted : list string) :
  dict_wf (memory_cache c) ->
  cache_entries (delete_by_tags c wanted) = cache_entries c /\
  (forall k row,
     wanted <> [] -> cache_entries c !! k = Some row -> has_any_tag wanted row = true ->
     dict_get k (memory_cache (delete_by_tags c wanted)) = None) /\
  (forall k,
     (forall row, cache_entries c !! k = Some row -> has_any_tag wanted row = false) ->
     dict_get k (memory_cache (delete_by_tags c wanted)) = dict_get k (memory_cache c)) /\
  (cache_entries c = ∅ -> delete_by_tags c wanted = c).
Proof.
  intros Hwf. split; [apply delete_by_tags_table |].
  destruct wanted as [| tag wanted].
  { split; [intros k row H; congruence |]. split; reflexivity. }
  unfold delete_by_tags, _get_db_connection. cbn [snd]. set (w := tag :: wanted).
  set (keys := map fst (map_to_list
                 (filter (fun p => has_any_tag w (snd p) = true) (cache_entries c)))).
  assert (Hkeys : forall k, k ∈ keys <->
            exists row, cache_entries c !! k = Some row /\ has_any_tag w row = true).
  { intros k. unfold keys. rewrite list_elem_of_fmap. split.
    - intros ([k' row] & -> & Hin). apply elem_of_map_to_list in Hin.
      apply map_lookup_filter_Some in Hin as [Hin Htag]. exists row. split; assumption.
    - intros (row & Hrow & Htag). exists (k, row). split; [reflexivity |].
      apply elem_of_map_to_list, map_lookup_filter_Some. split; assumption. }
  split; [| split].
  - intros k row _ Hrow Htag. apply (fold_remove_get keys c k Hwf).
    apply Hkeys. exists row. split; assumption.
  - intros k Hrows. destruct (fold_remove_get keys c k Hwf) as [_ Hout].
    rewrite Hout; [reflexivity |].
    intros Hin. apply Hkeys in Hin as (row & Hrow & Htag).
    rewrite (Hrows row Hrow) in Htag. discriminate.
  - intros Ht. unfold keys. rewrite Ht, map_filter_empty, map_to_list_empty. reflexivity.
Qed.

Definition tagged_funds : ResearchDataCache :=
  set (set (init 1000 100000 3600) "Vanguard 500" "fund_research:VOO"
           None (Some ["research"; "VOO"]) 0)
      "Equity" "classification:VOO" None (Some ["classification"; "VOO"]) 1.

Lemma delete_by_tags_goes_by_rows_witness :
  (tags <$> dict_get "fund_research:VOO" (memory_cache tagged_funds))
  = Some ["research"; "VOO"]%string /\
  delete_by_tags tagged_funds ["research"] = tagged_funds /\
  snd (get (delete_by_tags tagged_funds ["research"]) "fund_research:VOO" 2)
  = Some "Vanguard 500"%string.
Proof.
  assert (Hwf : dict_wf (memory_cache tagged_funds)).
  { apply (bool_decide_unpack _). vm_compute. exact I. }
  destruct (delete_by_tags_goes_by_rows tagged_funds ["research"] Hwf) as (_ & _ & _ & Hsame).
  specialize (Hsame eq_refl).
  split; [vm_compute; reflexivity |]. split; [exact Hsame |].
  rewrite Hsame. vm_compute. reflexivity.
Defined.

(** *** Statistics *)

(** X9: [get_stats] fails exactly when [max_memory_size] is zero (the
    division for the memory utilization); otherwise, the counters being
    non-negative, the hit rate it reports lies between 0 and 1, is the
    share of hits among the look-ups, and is 0 before any look-up. *)
Theorem get_stats_hit_rate (c : ResearchDataCache) :
  0 <= hits (stats c) -> 0 <= misses (stats c) ->
  match get_stats c with
  | None => max_memory_size c = 0
  | Some r =>
      max_memory_size c <> 0 /\
      (0 <= r_hit_rate r <= 1)%Q /\
      (hits (stats c) + misses (stats c) = 0 -> r_hit_rate r = 0%Q) /\
      (0 < hits (stats c) + misses (stats c) ->
       (r_hit_rate r * inject_Z (hits (stats c) + misses (stats c))
        == inject_Z (hits (stats c)))%Q) /\
      r_memory_entries r = Z.of_nat (length (memory_cache c)) /\
      r_disk_entries r = Z.of_nat (size (cache_entries c))
  end.
Proof.
  intros Hh Hm. unfold get_stats, disk_usage. cbv zeta.
  destruct (Z.eqb_spec (max_memory_size c) 0) as [H0 | H0]; [exact H0 |].
  cbn [r_hit_rate r_memory_entries r_disk_entries].
  split; [exact H0 |].
  destruct (Z.ltb_spec 0 (hits (stats c) + misses (stats c))) as [Hpos | Hzero].
  - assert (HposQ : (0 < inject_Z (hits (stats c) + misses (stats c)))%Q).
    { change 0%Q with (inject_Z 0). rewrite <- Zlt_Qlt. exact Hpos. }
    split; [split |].
    + apply Qle_shift_div_l; [exact HposQ |]. rewrite Qmult_0_l.
      change 0%Q with (inject_Z 0). rewrite <- Zle_Qle. exact Hh.
    + apply Qle_shift_div_r; [exact HposQ |]. rewrite Qmult_1_l.
      rewrite <- Zle_Qle. lia.
    + split; [lia |]. split; [| split; reflexivity].
      intros _. field. intros Heq. rewrite Heq in HposQ. apply (Qlt_irrefl _ HposQ).
  - split; [split; [apply Qle_refl | discriminate] |].
    split; [reflexivity |]. split; [lia | split; reflexivity].
Qed.

Lemma get_stats_hit_rate_witness :
  match get_stats (fst (get (fst (get two_funds "fund_research:VOO" 2)) "absent" 3)) with
  | Some r => (r_hit_rate r == 1 # 2)%Q
  | None => False
  end.
Proof.
  pose proof (get_stats_hit_rate
                (fst (get (fst (get two_funds "fund_research:VOO" 2)) "absent" 3))
                ltac:(vm_compute; discriminate) ltac:(vm_compute; discriminate)) as H.
  destruct (get_stats (fst (get (fst (get two_funds "fund_research:VOO" 2)) "absent" 3)))
    as [r |] eqn:E.
  - destruct H as (_ & _ & _ & Hrate & _).
    specialize (Hrate ltac:(vm_compute; reflexivity)).
    vm_compute in E. injection E as <-. vm_compute. reflexivity.
  - vm_compute in E. discriminate.
Defined.

End ResearchCacheProperties.

(** ** Further properties of the confidence scorer *)

Module ConfidenceProperties.
Import ConfidenceScoring.
Local Open Scope Q_scope.

(** A comparison or an equation between two numbers that are given. *)
Ltac Qcompute := vm_compute; first [reflexivity | intro; discriminate].

(** [min(1.0, x) <= 1]. *)
Ltac min_le_one := eapply Qle_trans; [apply Py.min_le_l | Qcompute].

Lemma count_filled_le (fields : list (option string)) :
  (count_filled fields <= length fields)%nat.
Proof. unfold count_filled. apply List.filter_length_le. Qed.

Lemma ratio_in_unit (a t : nat) :
  (a <= t)%nat -> (0 < t)%nat ->
  0 <= inject_Z (Z.of_nat a) / inject_Z (Z.of_nat t) <= 1.
Proof.
  intros Hle Hpos.
  assert (Ht : 0 < inject_Z (Z.of_nat t)).
  { change 0 with (inject_Z 0). rewrite <- Zlt_Qlt. lia. }
  split.
  - apply Qle_shift_div_l; [exact Ht |]. rewrite Qmult_0_l.
    change 0 with (inject_Z 0). rewrite <- Zle_Qle. lia.
  - apply Qle_shift_div_r; [exact Ht |]. rewrite Qmult_1_l. rewrite <- Zle_Qle. lia.
Qed.

(** *** Agreement of the methods *)

Lemma filter_all {A} (f : A -> bool) (l : list A) :
  Forall (fun x => f x = true) l -> List.filter f l = l.
Proof.
  induction 1 as [| x l Hx _ IH]; simpl; [reflexivity |]. rewrite Hx, IH. reflexivity.
Qed.

Lemma filter_none {A} (f : A -> bool) (l : list A) :
  Forall (fun x => f x = false) l -> List.filter f l = [].
Proof.
  induction 1 as [| x l Hx _ IH]; simpl; [reflexivity |]. rewrite Hx, IH. reflexivity.
Qed.

Lemma consensus_bonus_bounds (ratio : Q) :
  0 <= (if Qle_bool 0.8 ratio then 0.2 else if Qle_bool 0.6 ratio then 0.1 else 0.0) <= 0.2.
Proof.
  destruct (Qle_bool 0.8 ratio); [split; Qcompute |].
  destruct (Qle_bool 0.6 ratio); split; Qcompute.
Qed.

(** X10: [_assess_method_agreement] lies in [[0,1]]; it is the neutral
    0.5 when there are no alternative classifications, 1 when every
    alternative names the primary asset class, and 0 when none does. *)
Theorem method_agreement_in_unit (cd : classification_data) :
  0 <= _assess_method_agreement cd <= 1 /\
  (cd_alternative_classifications cd = [] -> _assess_method_agreement cd = 0.5) /\
  (cd_alternative_classifications cd <> [] ->
   Forall (fun alt => same_class (cd_asset_class cd) alt = true)
          (cd_alternative_classifications cd) ->
   _assess_method_agreement cd == 1) /\
  (cd_alternative_classifications cd <> [] ->
   Forall (fun alt => same_class (cd_asset_class cd) alt = false)
          (cd_alternative_classifications cd) ->
   _assess_method_agreement cd == 0).
Proof.
  unfold _assess_method_agreement.
  destruct (cd_alternative_classifications cd) as [| alt alts] eqn:E.
  { split; [split; Qcompute |]. split; [reflexivity |]. split; congruence. }
  cbv zeta. set (l := alt :: alts).
  set (a := length (List.filter (same_class (cd_asset_class cd)) l)).
  assert (Hpos : (0 < length l)%nat) by (simpl; lia).
  assert (Ha : (a <= length l)%nat) by apply List.filter_length_le.
  replace (0 <? length l)%nat with true by (symmetry; apply Nat.ltb_lt, Hpos).
  set (ratio := inject_Z (Z.of_nat a) / inject_Z (Z.of_nat (length l))).
  pose proof (ratio_in_unit a (length l) Ha Hpos) as Hratio. fold ratio in Hratio.
  pose proof (consensus_bonus_bounds ratio) as Hbonus.
  split; [| split; [discriminate | split]].
  - split; [apply Py.min_glb; lra | min_le_one].
  - intros _ Hall. assert (Hr : ratio == 1).
    { unfold ratio, a. rewrite (filter_all _ _ Hall). field.
      intros H. assert (Hlt : 0 < inject_Z (Z.of_nat (length l))).
      { change 0 with (inject_Z 0). rewrite <- Zlt_Qlt. lia. }
      rewrite H in Hlt. apply (Qlt_irrefl _ Hlt). }
    destruct (Py.min_spec 1.0 (ratio + (if Qle_bool 0.8 ratio then 0.2
                                        else if Qle_bool 0.6 ratio then 0.1 else 0.0)))
      as [[Hlt ->] | [_ ->]]; [lra | reflexivity].
  - intros _ Hnone. assert (Hr : ratio == 0).
    { unfold ratio, a. rewrite (filter_none _ _ Hnone). simpl. unfold Qdiv.
      apply Qmult_0_l. }
    assert (H8 : Qle_bool 0.8 ratio = false).
    { destruct (Qle_bool 0.8 ratio) eqn:H; [| reflexivity].
      apply Qle_bool_iff in H. lra. }
    assert (H6 : Qle_bool 0.6 ratio = false).
    { destruct (Qle_bool 0.6 ratio) eqn:H; [| reflexivity].
      apply Qle_bool_iff in H. lra. }
    rewrite H8, H6.
    destruct (Py.min_spec 1.0 (ratio + 0.0)) as [[_ ->] | [Hle ->]]; lra.
Qed.

(** *** Completeness *)

Lemma subcategory_completeness_in_unit (cd : classification_data) :
  0 <= _assess_subcategory_completeness cd <= 1.
Proof.
  unfold _assess_subcategory_completeness. cbv zeta.
  destruct (String.eqb _ "Equity").
  - apply (ratio_in_unit _ 3); [apply count_filled_le | lia].
  - destruct (String.eqb _ "Fixed Income"); [| split; Qcompute].
    apply (ratio_in_unit _ 2); [apply count_filled_le | lia].
Qed.

(** X11: [_assess_data_completeness] and [_assess_subcategory_completeness]
    lie in [[0,1]]; an asset class other than Equity and Fixed Income
    counts as complete in its sub-categories; and the completeness is 1
    at full marks: the five core fields filled, the three research
    fields present and the sub-categories complete. *)
Theorem data_completeness_in_unit (cd : classification_data) (research : research_data) :
  0 <= _assess_data_completeness cd research <= 1 /\
  0 <= _assess_subcategory_completeness cd <= 1 /\
  (get_str (cd_asset_class cd) "" <> "Equity"%string ->
   get_str (cd_asset_class cd) "" <> "Fixed Income"%string ->
   _assess_subcategory_completeness cd = 1.0) /\
  (count_filled [ cd_asset_class cd; cd_ticker cd; cd_fund_name cd;
                  cd_classification_method cd; cd_reasoning cd ] = 5%nat ->
   Forall (fun field => has_data_point research field = true)
          ["morningstar_category"; "expense_ratio"; "holdings_text"]%string ->
   _assess_subcategory_completeness cd == 1 ->
   _assess_data_completeness cd research == 1).
Proof.
  pose proof (subcategory_completeness_in_unit cd) as Hsub.
  split; [| split; [exact Hsub | split]].
  - unfold _assess_data_completeness. cbv zeta.
    set (core := inject_Z (Z.of_nat (count_filled _)) / 5).
    set (res := inject_Z (Z.of_nat (length _)) / 3).
    assert (Hcore : 0 <= core <= 1).
    { apply (ratio_in_unit _ 5); [apply count_filled_le | lia]. }
    assert (Hres : 0 <= res <= 1).
    { apply (ratio_in_unit _ 3); [apply (List.filter_length_le _ [_; _; _]) | lia]. }
    split; [apply Py.min_glb; lra | min_le_one].
  - intros H1 H2. unfold _assess_subcategory_completeness. cbv zeta.
    destruct (String.eqb_spec (get_str (cd_asset_class cd) "") "Equity"); [contradiction |].
    destruct (String.eqb_spec (get_str (cd_asset_class cd) "") "Fixed Income");
      [contradiction | reflexivity].
  - intros Hcore Hres Hs. unfold _assess_data_completeness. cbv zeta.
    rewrite Hcore, (filter_all _ _ Hres).
    destruct (Py.min_spec 1.0 (inject_Z (Z.of_nat 5) / 5 * 0.5
                               + inject_Z (Z.of_nat (length ["morningstar_category";
                                     "expense_ratio"; "holdings_text"]%string)) / 3 * 0.3
                               + _assess_subcategory_completeness cd * 0.2))
      as [[_ ->] | [_ ->]]; [| reflexivity].
    rewrite Hs. Qcompute.
Qed.

(** *** Coherence, specificity, history *)

(** X12: [_assess_contextual_coherence] is the base score 0.7, or that
    score with the bonus, 0.8, with the penalty, 0.4, or with both, 0.5,
    each to within 0.01 (the sums are floating-point sums); the clamp to
    [[0,1]] at its end never acts. It is 0.7 for an asset class other
    than Equity and Fixed Income. *)
Theorem contextual_coherence_values (cd : classification_data) :
  (_assess_contextual_coherence cd == 0.7 \/
   0.79 <= _assess_contextual_coherence cd <= 0.81 \/
   0.39 <= _assess_contextual_coherence cd <= 0.41 \/
   0.49 <= _assess_contextual_coherence cd <= 0.51) /\
  0.39 <= _assess_contextual_coherence cd <= 0.81 /\
  (get_str (cd_asset_class cd) "" <> "Equity"%string ->
   get_str (cd_asset_class cd) "" <> "Fixed Income"%string ->
   _assess_contextual_coherence cd == 0.7).
Proof.
  assert (Hcases : (_assess_contextual_coherence cd == 0.4 \/
                    _assess_contextual_coherence cd == 0.5 \/
                    _assess_contextual_coherence cd == 0.7 \/
                    _assess_contextual_coherence cd == 0.8) /\
                   (get_str (cd_asset_class cd) "" <> "Equity"%string ->
                    get_str (cd_asset_class cd) "" <> "Fixed Income"%string ->
                    _assess_contextual_coherence cd == 0.7)).
  { unfold _assess_contextual_coherence. cbv zeta.
    destruct (String.eqb_spec (get_str (cd_asset_class cd) "") "Equity") as [-> | Hne].
    - cbn [String.eqb Ascii.eqb Bool.eqb andb].
      split; [| congruence].
      destruct (is_str (cd_equity_region cd) "US");
        destruct (Py.contains "bond" (Py.lower (get_str (cd_fund_name cd) "")));
        cbn [andb]; [right; left | right; right; right | left | right; right; left];
        Qcompute.
    - destruct (String.eqb_spec (get_str (cd_asset_class cd) "") "Fixed Income")
        as [-> | Hne'].
      + cbn [andb]. split; [| congruence].
        destruct (is_str (cd_fixed_income_type cd) "Government");
          destruct (Py.any_in ["equity"; "stock"]%string
                              (Py.lower (get_str (cd_fund_name cd) "")));
          [right; left | right; right; right | left | right; right; left];
          Qcompute.
      + cbn [andb]. split; [right; right; left; Qcompute | intros _ _; Qcompute]. }
  destruct Hcases as [Hvalues Hother]. split; [| split; [| exact Hother]].
  - destruct Hvalues as [H | [H | [H | H]]];
      [right; right; left | right; right; right | left | right; left];
      first [exact H | rewrite H; split; Qcompute].
  - destruct Hvalues as [H | [H | [H | H]]]; rewrite H; split; Qcompute.
Qed.

Lemma assoc_values (k : string) (table : list (string * Q)) (default lo hi : Q) :
  Forall (fun p => lo <= snd p <= hi) table -> lo <= default <= hi ->
  lo <= match assoc k table with Some x => x | None => default end <= hi.
Proof.
  intros Htable Hdefault. induction Htable as [| [k' x] table Hx _ IH]; simpl;
    [exact Hdefault |].
  destruct (String.eqb k k'); [exact Hx | exact IH].
Qed.

Ltac table_bounds := repeat constructor; Qcompute.

Lemma sub_category_bonus_bounds (n : nat) :
  0 <= Py.min 0.3 (inject_Z (Z.of_nat n) * 0.1) <= 0.3.
Proof.
  split; [| apply Py.min_le_l].
  apply Py.min_glb; [Qcompute |].
  assert (0 <= inject_Z (Z.of_nat n)).
  { change 0 with (inject_Z 0). rewrite <- Zle_Qle. lia. }
  nra.
Qed.

(** X13: the ranges of three assessors of the classification:
    [_assess_pattern_specificity] lies in [[0.3, 1]],
    [_assess_historical_accuracy] in [[0.5, 0.98]] with 0.5 for a method
    that is not in the table, and [_assess_domain_specificity] in
    [[0.5, 1]]. *)
Theorem classification_assessors_ranges (cd : classification_data) :
  0.3 <= _assess_pattern_specificity cd <= 1 /\
  0.5 <= _assess_historical_accuracy cd <= 0.98 /\
  (assoc (get_str (cd_classification_method cd) "unknown") historical_accuracy_table = None ->
   _assess_historical_accuracy cd = 0.5) /\
  0.5 <= _assess_domain_specificity cd <= 1.
Proof.
  split; [| split; [| split]].
  - unfold _assess_pattern_specificity. cbv zeta.
    match goal with |- context [Py.min 0.3 (inject_Z (Z.of_nat ?n) * 0.1)] =>
      pose proof (sub_category_bonus_bounds n) as Hbonus end.
    match goal with |- context [assoc ?k ?t] =>
      pose proof (assoc_values k t 0.3 0.3 0.9 ltac:(table_bounds) ltac:(split; Qcompute))
        as Hclass end.
    split; [apply Py.min_glb; [Qcompute | lra] | min_le_one].
  - unfold _assess_historical_accuracy. cbv zeta.
    apply assoc_values; [table_bounds | split; Qcompute].
  - intros H. unfold _assess_historical_accuracy. cbv zeta. rewrite H. reflexivity.
  - unfold _assess_domain_specificity. cbv zeta.
    split; [| min_le_one].
    repeat match goal with |- context [if ?b then _ else _] => destruct b end;
      Qcompute.
Qed.

(** *** Reliability of the sources *)

Lemma rating_of_bounds (table : list (string * Q)) (source_lower : string) (lo hi : Q) :
  Forall (fun p => lo <= snd p <= hi) table -> lo <= 0.5 <= hi ->
  lo <= rating_of table source_lower <= hi.
Proof.
  intros Htable Hdefault. induction Htable as [| [domain rating] table Hx _ IH]; simpl;
    [exact Hdefault |].
  destruct (Py.contains domain source_lower); [exact Hx | exact IH].
Qed.

Lemma len_cons {A} (x : A) (xs : list A) : Py.len (x :: xs) == Py.len xs + 1.
Proof.
  unfold Py.len. cbn [length]. rewrite Nat2Z.inj_succ, <- Z.add_1_r, inject_Z_plus.
  reflexivity.
Qed.

Lemma len_nonneg {A} (xs : list A) : 0 <= Py.len xs.
Proof. unfold Py.len. change 0 with (inject_Z 0). rewrite <- Zle_Qle. lia. Qed.

Lemma sum_bounds (xs : list Q) (lo hi : Q) :
  Forall (fun x => lo <= x <= hi) xs ->
  lo * Py.len xs <= fold_right Qplus 0 xs <= hi * Py.len xs.
Proof.
  induction 1 as [| x xs Hx _ IH]; simpl.
  - change (Py.len (@nil Q)) with 0. rewrite !Qmult_0_r. split; apply Qle_refl.
  - rewrite len_cons. destruct IH as [IHlo IHhi]. destruct Hx as [Hlo Hhi].
    split; lra.
Qed.

Lemma mean_bounds (xs : list Q) (lo hi : Q) :
  xs <> [] -> Forall (fun x => lo <= x <= hi) xs -> lo <= mean xs <= hi.
Proof.
  intros Hne Hall. pose proof (sum_bounds xs lo hi Hall) as [Hlo Hhi].
  assert (Hpos : 0 < Py.len xs).
  { destruct xs as [| x xs]; [congruence |]. rewrite len_cons.
    pose proof (len_nonneg xs). lra. }
  unfold mean. split.
  - apply Qle_shift_div_l; assumption.
  - apply Qle_shift_div_r; assumption.
Qed.

(** X14: [_assess_source_reliability] lies in [[0.3, 1]]: it is 0.3
    without sources, and otherwise the mean of ratings between 0.3 and
    0.99 plus a bonus of at most 0.1, capped at 1. *)
Theorem source_reliability_range (research : research_data) :
  0.3 <= _assess_source_reliability research <= 1 /\
  (match research_sources research with Some l => l | None => [] end = [] ->
   _assess_source_reliability research = 0.3).
Proof.
  unfold _assess_source_reliability. cbv zeta.
  destruct (match research_sources research with Some l => l | None => [] end)
    as [| source sources]; [split; [split; Qcompute | reflexivity] |].
  split; [| discriminate].
  set (l := source :: sources).
  set (ratings := map (fun s => rating_of source_reliability_table (Py.lower s)) l).
  assert (Hmean : 0.3 <= mean ratings <= 0.99).
  { apply mean_bounds; [discriminate |].
    apply Forall_forall. intros x Hx. apply list_elem_of_In, in_map_iff in Hx as (s & <- & _).
    apply rating_of_bounds; [table_bounds | split; Qcompute]. }
  assert (Hbonus : 0 <= Py.min 0.1 (Py.len l * 0.02)).
  { apply Py.min_glb; [Qcompute |]. pose proof (len_nonneg l). nra. }
  split; [apply Py.min_glb; [Qcompute | lra] | min_le_one].
Qed.

(** *** The weighted score *)

Lemma weigh_unknown (f : ConfidenceFactors) (acc : Q * Q) (item : string * Q) :
  getattr f (fst item) = None -> weigh f acc item = acc.
Proof. intros H. unfold weigh. rewrite H. reflexivity. Qed.

Lemma fold_weigh_unknown (f : ConfidenceFactors) (ws : list (string * Q)) (acc : Q * Q) :
  Forall (fun p => getattr f (fst p) = None) ws -> fold_left (weigh f) ws acc = acc.
Proof.
  intros H. revert acc. induction H as [| item ws Hitem _ IH]; intros acc; simpl;
    [reflexivity |].
  rewrite (weigh_unknown f acc item Hitem). apply IH.
Qed.

Lemma no_attribute_getattr (f : ConfidenceFactors) (name : string) :
  no_attribute name = true -> getattr f name = None.
Proof.
  unfold no_attribute, getattr. destruct (assoc name factor_fields); [discriminate | reflexivity].
Qed.

(** X15: [get_weighted_score] leaves out the weights whose names are
    no attributes of the factors: an entry with such a name changes
    nothing wherever it stands in the dict, and with no other entries
    the score is 0.0, without a division. *)
Theorem weighted_score_ignores_unknown_names (f : ConfidenceFactors)
    (before after : list (string * Q)) (name : string) (weight : Q) :
  no_attribute name = true ->
  get_weighted_score f (Some (before ++ (name, weight) :: after))
  = get_weighted_score f (Some (before ++ after)) /\
  (forall weights,
     Forall (fun p => no_attribute (fst p) = true) weights ->
     get_weighted_score f (Some weights) = 0).
Proof.
  intros Hname. split.
  - unfold get_weighted_score. rewrite !fold_left_app. cbn [fold_left].
    rewrite (weigh_unknown f _ (name, weight) (no_attribute_getattr f name Hname)).
    reflexivity.
  - intros weights Hall. unfold get_weighted_score.
    rewrite (fold_weigh_unknown f weights (0, 0)); [reflexivity |].
    eapply Forall_impl; [exact Hall |]. intros p Hp. apply no_attribute_getattr, Hp.
Qed.

Lemma weighted_score_ignores_unknown_names_witness :
  get_weighted_score all_one
    (Some [("source_reliability", 0.5); ("confidence", 7); ("data_freshness", 0.5)])
  = get_weighted_score all_one (Some [("source_reliability", 0.5); ("data_freshness", 0.5)]).
Proof.
  apply (weighted_score_ignores_unknown_names all_one [("source_reliability", 0.5)]
           [("data_freshness", 0.5)] "confidence" 7).
  reflexivity.
Defined.

(** *** Bonus and penalty *)

(** X16: [_calculate_consistency_penalty] is 0, 0.1 or 0.2, or the sum
    of 0.2 and 0.1 to within 0.01 (a floating-point sum); it is 0 for
    an asset class other than Equity and Fixed Income, and 0 or 0.2 for
    Fixed Income. [_get_method_confidence_bonus] lies between -0.05 and
    0.1. *)
Theorem consistency_penalty_values (cd : classification_data) :
  (_calculate_consistency_penalty cd == 0 \/ _calculate_consistency_penalty cd == 0.1 \/
   _calculate_consistency_penalty cd == 0.2 \/
   0.29 <= _calculate_consistency_penalty cd <= 0.31) /\
  (get_str (cd_asset_class cd) "" <> "Equity"%string ->
   get_str (cd_asset_class cd) "" <> "Fixed Income"%string ->
   _calculate_consistency_penalty cd == 0) /\
  (get_str (cd_asset_class cd) "" = "Fixed Income"%string ->
   _calculate_consistency_penalty cd == 0 \/ _calculate_consistency_penalty cd == 0.2) /\
  -0.05 <= _get_method_confidence_bonus cd <= 0.1.
Proof.
  split; [| split; [| split]].
  - unfold _calculate_consistency_penalty. cbv zeta.
    destruct (String.eqb _ "Fixed Income"); destruct (String.eqb _ "Equity"); cbn [andb];
      repeat match goal with |- context [if ?b then _ else _] => destruct b end;
      first [ left; Qcompute | right; left; Qcompute
            | right; right; left; Qcompute | right; right; right; split; Qcompute ].
  - intros H1 H2. unfold _calculate_consistency_penalty. cbv zeta.
    destruct (String.eqb_spec (get_str (cd_asset_class cd) "") "Equity"); [contradiction |].
    destruct (String.eqb_spec (get_str (cd_asset_class cd) "") "Fixed Income");
      [contradiction |].
    cbn [andb]. Qcompute.
  - intros H. unfold _calculate_consistency_penalty. cbv zeta. rewrite H.
    cbn [String.eqb Ascii.eqb Bool.eqb andb].
    destruct (Py.any_in _ _); [right | left]; Qcompute.
  - unfold _get_method_confidence_bonus. cbv zeta.
    apply assoc_values; [table_bounds | split; Qcompute].
Qed.

End ConfidenceProperties.

(** ** Further properties of the categorization models *)

Module ModelsProperties.
Import PyObj Models.
Local Open Scope Q_scope.

(** *** The pointer of the review *)

(** [mark_current_fund_complete] called once at each of the given
    times. *)
Definition mark_complete_at (times : list Z) (self : CategorizationSession)
  : CategorizationSession :=
  fold_left mark_current_fund_complete times self.

Lemma mark_complete_at_fields (times : list Z) (self : CategorizationSession) :
  current_fund_index (mark_complete_at times self)
  = (current_fund_index self + length times)%nat /\
  funds_needing_input (mark_complete_at times self) = funds_needing_input self /\
  fund_categorizations (mark_complete_at times self) = fund_categorizations self /\
  current_stage (mark_complete_at times self) = current_stage self.
Proof.
  unfold mark_complete_at. revert self.
  induction times as [| t times IH]; intros self; simpl.
  - repeat split. lia.
  - destruct (IH (mark_current_fund_complete self t)) as (-> & -> & -> & ->).
    simpl. repeat split. lia.
Qed.

(** X17: the review goes through [funds_needing_input] in order: once
    the list is set, after n calls of [mark_current_fund_complete] the
    next fund is the n-th ticker of the list, and there is none exactly
    when n has reached the length of the list; the marks change neither
    the categorizations nor the stage of the session. *)
Theorem review_pointer_walks_in_order (self : CategorizationSession)
    (tickers : list pyval) (times : list Z) :
  let s := mark_complete_at times (set_funds_needing_input self tickers) in
  get_next_fund_needing_input s = tickers !! length times /\
  (get_next_fund_needing_input s = None <-> (length tickers <= length times)%nat) /\
  fund_categorizations s = fund_categorizations self /\
  current_stage s = current_stage self.
Proof.
  cbv zeta.
  destruct (mark_complete_at_fields times (set_funds_needing_input self tickers))
    as (Hi & Hl & Hf & Hs).
  assert (Hnext : get_next_fund_needing_input
                    (mark_complete_at times (set_funds_needing_input self tickers))
                  = tickers !! length times).
  { unfold get_next_fund_needing_input. rewrite Hi, Hl. cbn [set_funds_needing_input
      current_fund_index funds_needing_input]. rewrite Nat.add_0_l.
    destruct (Nat.ltb_spec (length times) (length tickers)) as [Hlt | Hge];
      [reflexivity |].
    symmetry. apply lookup_ge_None. exact Hge. }
  split; [exact Hnext |]. split; [| split; [exact Hf | exact Hs]].
  rewrite Hnext. apply lookup_ge_None.
Qed.

(** *** Storing a categorization *)

Lemma count_confident_bounds (values : list pyobject) (n : Z) :
  count_confident values = Ok n -> (0 <= n <= Z.of_nat (length values))%Z.
Proof.
  revert n. induction values as [| c values IH]; intros n; simpl.
  - intros [= <-]. lia.
  - destruct (ge_float (attr c "asset_class_confidence") 0.8) as [b |];
      [| discriminate].
    destruct (count_confident values) as [m | exn]; [| discriminate].
    intros [= <-]. specialize (IH m eq_refl). destruct b; lia.
Qed.

(** X18: a categorization stored with [add_fund_categorization] is found
    again by [get_fund_categorization] under its ticker in any case of
    the letters [a] to [z]; for ASCII tickers the categorizations under
    the other keys stay; [categorized_funds] is the number of
    categorizations held and [high_confidence_funds] lies between 0 and
    that number. *)
Theorem add_then_get_fund_categorization (self self' : CategorizationSession)
    (categorization : pyobject) (ticker : string) (now : Z) :
  attr categorization "ticker" = PStr ticker ->
  add_fund_categorization self categorization now = Ok self' ->
  get_fund_categorization self' (PStr ticker) = Ok (Some categorization) /\
  (forall other,
     upper_string other = upper_string ticker ->
     get_fund_categorization self' (PStr other) = Ok (Some categorization)) /\
  (forall other,
     is_ascii ticker = true -> is_ascii other = true ->
     upper_string other <> upper_string ticker ->
     get_fund_categorization self' (PStr other) = get_fund_categorization self (PStr other)) /\
  categorized_funds self' = Z.of_nat (size (fund_categorizations self')) /\
  (0 <= high_confidence_funds self' <= categorized_funds self')%Z /\
  funds_needing_input self' = funds_needing_input self /\
  current_fund_index self' = current_fund_index self.
Proof.
  intros Hticker Hadd. unfold add_fund_categorization in Hadd.
  rewrite Hticker in Hadd. cbn [upper] in Hadd.
  destruct (count_confident
              (snd <$> map_to_list (<[upper_string ticker := categorization]>
                                      (fund_categorizations self)))) as [n | exn] eqn:Hn;
    [| discriminate].
  injection Hadd as <-.
  assert (Hfound : forall other, upper_string other = upper_string ticker ->
            get_fund_categorization
              (mkCategorizationSession (cs_session_id self) (portfolio_items self)
                 (<[upper_string ticker := categorization]> (fund_categorizations self))
                 (current_stage self) (funds_needing_input self) (current_fund_index self)
                 (created_at self) now (total_funds self)
                 (Z.of_nat (size (<[upper_string ticker := categorization]>
                                    (fund_categorizations self)))) n)
              (PStr other) = Ok (Some categorization)).
  { intros other Hother. unfold get_fund_categorization. cbn [upper fund_categorizations].
    rewrite Hother, lookup_insert_eq. reflexivity. }
  split; [apply Hfound; reflexivity |]. split; [exact Hfound |].
  split; [| split; [reflexivity | split; [| split; reflexivity]]].
  - intros other _ _ Hother. unfold get_fund_categorization. cbn [upper fund_categorizations].
    rewrite lookup_insert_ne by congruence. reflexivity.
  - cbn [high_confidence_funds categorized_funds].
    pose proof (count_confident_bounds _ _ Hn) as Hb.
    rewrite length_fmap, length_map_to_list in Hb. exact Hb.
Qed.

Definition cash_fund : pyobject :=
  list_to_map
    [ ("ticker", PStr "vmfxx"); ("fund_name", PStr "Vanguard Federal Money Market");
      ("asset_class", PStr "Cash"); ("asset_class_confidence", PNum 0.75) ].

Definition empty_session : CategorizationSession :=
  mkCategorizationSession "3f2b8c1e-session" [] ∅ "classifying" [] 0 0 0 1 0 0.

Lemma add_then_get_fund_categorization_witness :
  exists self',
    add_fund_categorization empty_session cash_fund 5 = Ok self' /\
    get_fund_categorization self' (PStr "VmFxx") = Ok (Some cash_fund) /\
    high_confidence_funds self' = 0%Z.
Proof.
  destruct (add_fund_categorization empty_session cash_fund 5) as [self' | exn] eqn:E;
    [| vm_compute in E; discriminate].
  exists self'. split; [reflexivity |].
  destruct (add_then_get_fund_categorization empty_session self' cash_fund "vmfxx" 5
              eq_refl E) as (_ & Hany & _).
  split; [apply Hany; reflexivity |].
  vm_compute in E. injection E as <-. reflexivity.
Defined.

(** *** Building a [FundCategorization] *)

Definition required_fields : list string :=
  ["ticker"; "fund_name"; "asset_class"; "asset_class_confidence";
   "classification_method"; "reasoning"].

Lemma build_fields_required (validate : string -> pyval -> option pyval)
    (name : string) (specs : list (string * option pyval)) (given acc : pyobject) :
  In (name, None) specs -> given !! name = None ->
  build_fields validate specs given acc = Raise "ValidationError".
Proof.
  revert acc. induction specs as [| [n d] specs IH]; intros acc Hin Hmiss; [destruct Hin |].
  simpl. destruct Hin as [[= -> ->] | Hin].
  - rewrite Hmiss. reflexivity.
  - destruct (given !! n) as [v |].
    + destruct (validate n v); [apply IH; assumption | reflexivity].
    + destruct d; [apply IH; assumption | reflexivity].
Qed.

Lemma build_fields_spec (validate : string -> pyval -> option pyval)
    (specs : list (string * option pyval)) (given acc obj : pyobject) :
  NoDup (map fst specs) ->
  build_fields validate specs given acc = Ok obj ->
  (forall name default, In (name, default) specs ->
     match given !! name with
     | Some v => obj !! name = validate name v /\ is_Some (validate name v)
     | None => default = Some (match default with Some d => d | None => PNone end) /\
               obj !! name = default
     end) /\
  (forall name, name ∉ map fst specs -> obj !! name = acc !! name).
Proof.
  revert acc. induction specs as [| [n d] specs IH]; intros acc Hnd Hbuild.
  - simpl in Hbuild. injection Hbuild as <-. split; [intros ? ? [] | reflexivity].
  - cbn [map fst] in Hnd. apply NoDup_cons in Hnd as [Hn Hnd].
    cbn [build_fields] in Hbuild.
    assert (Hstep : exists x, build_fields validate specs given (<[n := x]> acc) = Ok obj /\
                      match given !! n with
                      | Some v => validate n v = Some x
                      | None => d = Some x
                      end).
    { destruct (given !! n) as [v |].
      - destruct (validate n v) as [v' |]; [| discriminate]. eauto.
      - destruct d as [dv |]; [| discriminate]. eauto. }
    destruct Hstep as (x & Hrest & Hx).
    destruct (IH _ Hnd Hrest) as [Hin Hout]. split.
    + intros name default [[= -> ->] | Hi].
      * rewrite (Hout _ Hn), lookup_insert_eq.
        destruct (given !! name) as [v |]; rewrite Hx; eauto.
      * apply Hin, Hi.
    + intros name Hname. cbn [map fst] in Hname.
      apply not_elem_of_cons in Hname as [Hne Hname].
      rewrite (Hout _ Hname). apply lookup_insert_ne. congruence.
Qed.

Lemma field_specs_NoDup (now : Z) : NoDup (map fst (field_specs now)).
Proof. apply (bool_decide_unpack _). vm_compute. exact I. Qed.

(** X19: [FundCategorization( **given )] raises a [ValidationError]
    when one of the six required fields is missing. When it returns, the
    object has the 22 declared fields and no other (a key of [given]
    that names no field is dropped); a field that is given holds the
    validated value, and a field that is not given holds its default. *)
Theorem FundCategorization_fields (validate : string -> pyval -> option pyval)
    (given : pyobject) (now : Z) :
  (forall name, In name required_fields -> given !! name = None ->
     FundCategorization validate given now = Raise "ValidationError") /\
  (forall obj,
     FundCategorization validate given now = Ok obj ->
     (forall name, In name required_fields -> is_Some (given !! name)) /\
     (forall name, is_Some (obj !! name) <-> name ∈ map fst (field_specs now)) /\
     (forall name v, name ∈ map fst (field_specs now) -> given !! name = Some v ->
                     obj !! name = validate name v) /\
     (forall name default, In (name, Some default) (field_specs now) ->
                           given !! name = None -> obj !! name = Some default)).
Proof.
  assert (Hreq : forall name, In name required_fields -> In (name, None) (field_specs now)).
  { intros name H. unfold required_fields in H. simpl in H. unfold field_specs. simpl.
    intuition (subst; auto 30). }
  split.
  - intros name Hname Hmiss. unfold FundCategorization.
    apply (build_fields_required validate name); [apply Hreq, Hname | exact Hmiss].
  - intros obj Hobj. unfold FundCategorization in Hobj.
    destruct (build_fields_spec validate _ given ∅ obj (field_specs_NoDup now) Hobj)
      as [Hin Hout].
    split; [| split; [| split]].
    + intros name Hname. specialize (Hin name None (Hreq name Hname)).
      destruct (given !! name) as [v |]; [eauto |].
      destruct Hin as [Hd _]. discriminate.
    + intros name. split.
      * intros Hsome. destruct (decide (name ∈ map fst (field_specs now))) as [H | H];
          [exact H |].
        rewrite (Hout name H), lookup_empty in Hsome. destruct Hsome as [x Hx].
        discriminate.
      * intros Hname. apply list_elem_of_In, in_map_iff in Hname as ([n d] & <- & Hnd).
        specialize (Hin n d Hnd). cbn [fst].
        destruct (given !! n) as [v |].
        -- destruct Hin as [-> Hv]. exact Hv.
        -- destruct Hin as [Hd ->]. rewrite Hd. eauto.
    + intros name v Hname Hgiven.
      apply list_elem_of_In, in_map_iff in Hname as ([n d] & <- & Hnd).
      specialize (Hin n d Hnd). cbn [fst] in *. rewrite Hgiven in Hin. apply Hin.
    + intros name default Hnd Hmiss. specialize (Hin name (Some default) Hnd).
      rewrite Hmiss in Hin. apply Hin.
Qed.

(** A fund built from the six required fields and a key that names no
    field. *)
Example FundCategorization_defaults :
  match FundCategorization (fun _ v => Some v)
          (list_to_map
             [ ("ticker", PStr "VOO"); ("fund_name", PStr "Vanguard 500");
               ("asset_class", PStr "Equity"); ("asset_class_confidence", PNum 0.9);
               ("classification_method", PStr "known_fund");
               ("reasoning", PStr "Known fund"); ("confidence", PNum 0.9) ]) 7 with
  | Ok obj =>
      obj !! "manual_override" = Some (PBool false) /\
      obj !! "classification_timestamp" = Some (PTime 7) /\
      obj !! "confidence" = None /\ size obj = 22%nat
  | Raise _ => False
  end.
Proof. vm_compute. repeat split. Qed.

(** *** The questions of the review *)

(** One case of the asset class and of the sub-categories filled. *)
Ltac questions_case Hlow Hnot :=
  destruct Hlow as [Hl | [Hl Hq]]; rewrite Hl; cbn [app length];
  (split; [eexists; split; [reflexivity | cbn [app length]; lia] |]);
  (split;
   [ intros H;
     first [ discriminate H
           | split; [assumption |];
             split; intros H'; first [discriminate H' | congruence | repeat split] ]
   | intros (Hq' & He & Hf);
     first [ reflexivity
           | exfalso; apply (Hnot Hl), Hq'
           | destruct (He eq_refl) as (? & ? & ?); discriminate
           | destruct (Hf eq_refl) as (? & ?); discriminate ] ]).

(** X20: [_generate_questions] raises a [TypeError] on a confidence
    that is not a number. Otherwise it returns at most four questions,
    and none exactly when the confidence is at least 0.7 and the
    sub-categories of the asset class are filled: region, style and size
    for Equity, type and duration for Fixed Income, nothing for another
    asset class. *)
Theorem no_question_iff_confident_and_filled (c : pyobject) :
  match as_number (attr c "asset_class_confidence") with
  | None => _generate_questions c = Raise "TypeError"
  | Some confidence =>
      (exists questions, _generate_questions c = Ok questions /\
                         (length questions <= 4)%nat) /\
      (_generate_questions c = Ok [] <->
       0.7 <= confidence /\
       (attr c "asset_class" = PStr "Equity" ->
        truthy (attr c "equity_region") = true /\
        truthy (attr c "equity_style") = true /\
        truthy (attr c "equity_size") = true) /\
       (attr c "asset_class" = PStr "Fixed Income" ->
        truthy (attr c "fixed_income_type") = true /\
        truthy (attr c "fixed_income_duration") = true))
  end.
Proof.
  unfold _generate_questions, lt_float. cbv zeta.
  destruct (as_number (attr c "asset_class_confidence")) as [q |]; [| reflexivity].
  assert (Hlow : Py.Qlt_bool q 0.7 = true \/ (Py.Qlt_bool q 0.7 = false /\ 0.7 <= q)).
  { destruct (Py.Qlt_bool q 0.7) eqn:E; [left; reflexivity | right].
    split; [reflexivity | apply Py.Qlt_bool_false, E]. }
  assert (Hnot : Py.Qlt_bool q 0.7 = true -> ~ 0.7 <= q).
  { intros H Hle. apply Py.Qlt_bool_true in H. lra. }
  destruct (attr c "asset_class") as [| b | n | s | t | l | d | tpl args] eqn:Hclass;
    cbn [eq_str].
  4: { destruct (String.eqb_spec s "Equity") as [-> | Hne].
       - destruct (truthy (attr c "equity_region")), (truthy (attr c "equity_style")),
           (truthy (attr c "equity_size")); questions_case Hlow Hnot.
       - destruct (String.eqb_spec s "Fixed Income") as [-> | Hne'].
         + destruct (truthy (attr c "fixed_income_type")),
             (truthy (attr c "fixed_income_duration")); questions_case Hlow Hnot.
         + questions_case Hlow Hnot. }
  all: questions_case Hlow Hnot.
Qed.

End ModelsProperties.

(** ** Further properties of the chat orchestrator *)

Module OrchestratorProperties.
Import PyObj Models Agents Orchestrator GenFacts OrchestratorFacts.
Local Open Scope Q_scope.

(** *** The stage through the review *)

Definition any_message (stage : ConversationStage) (m : AgentMessage) : Prop := True.

(** A generator keeps the stage when the orchestrator ends in the stage
    it started in. *)
Definition keeps_stage {A} (m : Gen A) : Prop :=
  keeps conversation_stage any_message m.

Lemma stage_key_session (self : ChatOrchestrator) (s : CategorizationSession) :
  conversation_stage (final (set_categorization_session s self)) = conversation_stage self.
Proof. reflexivity. Qed.

Lemma stage_own_message (self : ChatOrchestrator) (message_type : MessageType)
    (recipient : option AgentType) (data : pyobject) :
  any_message (conversation_stage self) (create_message (base self) message_type recipient data).
Proof. exact I. Qed.

Lemma send_next_question_keeps_stage (now : Z) :
  keeps_stage (_send_next_categorization_question now).
Proof.
  apply keeps_send_next_categorization_question;
    [apply stage_key_session | apply stage_own_message].
Qed.

Lemma start_user_review_process_stage (categorization_data : pyval) (now : Z)
    (self : ChatOrchestrator) :
  conversation_stage (final (_start_user_review_process categorization_data now self))
  = CATEGORIZATION_REVIEW.
Proof.
  destruct (start_user_review_process_body conversation_stage any_message
              stage_key_session stage_own_message categorization_data now)
    as (body & Hbody & ->).
  rewrite (gen_bind_ok _ _ self [] (with_stage self CATEGORIZATION_REVIEW) tt) by reflexivity.
  cbn [final]. apply Hbody.
Qed.

(** X21: [_send_next_categorization_question] never changes the
    conversation stage, whichever fund is next and whatever questions it
    raises, also when it ends with an exception. Without a
    categorization session it yields one ERROR message and changes
    nothing. *)
Theorem review_question_keeps_stage (now : Z) (self : ChatOrchestrator) :
  let r := _send_next_categorization_question now self in
  conversation_stage (final r) = conversation_stage self /\
  (categorization_session self = None ->
   trace r = [(emit_error (base self) (PStr "No categorization session available") None,
               conversation_stage self)] /\
   final r = self /\ ending r = Ok tt).
Proof.
  cbv zeta. split; [apply send_next_question_keeps_stage |].
  intros Hs. unfold _send_next_categorization_question, remaining. rewrite Hs.
  cbn [send_next_question]. unfold mbind, gen_bind, get_self. cbn [ending final trace].
  rewrite Hs. repeat split.
Qed.

(** *** The completion of the classification without a session *)

Definition review_notice (self : ChatOrchestrator) (needs_review : pyval) : AgentMessage :=
  create_message (base self) CHAT_RESPONSE None
    (list_to_map
       [ ("message", PFmt "I've analyzed your funds! I found {} funds that need your input for accurate categorization. Let me show you the results and ask for your guidance where needed."
                       [needs_review]);
         ("message_type", PStr "info") ]).

Definition complete_notice (self : ChatOrchestrator) (total_funds : pyval) : AgentMessage :=
  create_message (base self) CHAT_RESPONSE None
    (list_to_map
       [ ("message", PFmt "Excellent! I've successfully categorized all {} funds with high confidence. Here are your results:"
                       [total_funds]);
         ("message_type", PStr "success") ]).

(** The handler up to its decision, when no session is in place. *)
Lemma classification_completion_decision
    (validate : string -> pyval -> option pyval)
    (self : ChatOrchestrator) (message : AgentMessage)
    (categorization_data summary : pyobject) (needs_review avg_confidence : Q) (now : Z) :
  categorization_session self = None ->
  data message !! "categorization_data" = Some (PDict categorization_data) ->
  categorization_data !! "summary" = Some (PDict summary) ->
  summary !! "requires_user_input" = Some (PNum needs_review) ->
  summary !! "average_confidence" = Some (PNum avg_confidence) ->
  _handle_classification_completion validate message now self
  = let s := with_stage self CLASSIFICATION_COMPLETED in
    let rest : Gen unit :=
      if Py.Qlt_bool 0 needs_review || Py.Qlt_bool avg_confidence 0.8 then
        set_stage USER_REVIEW_NEEDED;;
        yield_chat
          [ ("message", PFmt "I've analyzed your funds! I found {} funds that need your input for accurate categorization. Let me show you the results and ask for your guidance where needed."
                          [PNum needs_review]);
            ("message_type", PStr "info") ];;
        _start_user_review_process (PDict categorization_data) now
      else
        set_stage CATEGORIZATION_COMPLETE;;
        total_funds ← lift (index (PDict summary) "total_funds");
        yield_chat
          [ ("message", PFmt "Excellent! I've successfully categorized all {} funds with high confidence. Here are your results:"
                          [total_funds]);
            ("message_type", PStr "success") ];;
        self ← get_self;
        yield (_create_categorization_results_message self (PDict categorization_data)) in
    mkRun (trace (rest s)) (final (rest s)) (ending (rest s)).
Proof.
  intros Hs Hdata Hsum Hneeds Havg. cbv zeta.
  unfold _handle_classification_completion. rewrite Hdata. cbn [get]. rewrite Hsum.
  rewrite (gen_bind_ok _ _ self [] (with_stage self CLASSIFICATION_COMPLETED) tt)
    by reflexivity.
  rewrite (gen_bind_ok _ _ (with_stage self CLASSIFICATION_COMPLETED) []
             (with_stage self CLASSIFICATION_COMPLETED)
             (with_stage self CLASSIFICATION_COMPLETED)) by reflexivity.
  cbn [categorization_session with_stage]. rewrite Hs.
  rewrite (gen_bind_ok _ _ (with_stage self CLASSIFICATION_COMPLETED) []
             (with_stage self CLASSIFICATION_COMPLETED) tt) by reflexivity.
  cbn [get app trace final ending]. rewrite Hneeds, Havg.
  unfold review_needed, gt_float, lt_float, as_number.
  destruct (Py.Qlt_bool 0 needs_review); cbn [orb].
  - rewrite (gen_bind_ok _ _ (with_stage self CLASSIFICATION_COMPLETED) []
               (with_stage self CLASSIFICATION_COMPLETED) true) by reflexivity.
    reflexivity.
  - destruct (Py.Qlt_bool avg_confidence 0.8).
    + rewrite (gen_bind_ok _ _ (with_stage self CLASSIFICATION_COMPLETED) []
                 (with_stage self CLASSIFICATION_COMPLETED) true) by reflexivity.
      reflexivity.
    + rewrite (gen_bind_ok _ _ (with_stage self CLASSIFICATION_COMPLETED) []
                 (with_stage self CLASSIFICATION_COMPLETED) false) by reflexivity.
      reflexivity.
Qed.

(** X22: with no categorization session in place, the handler of the
    completion of the classification decides on the summary: when some
    fund requires input or the average confidence is below 0.8 it
    announces the review in the stage USER_REVIEW_NEEDED and ends in
    CATEGORIZATION_REVIEW; otherwise it sets CATEGORIZATION_COMPLETE and
    yields the notice and the final results, or, when the summary has
    no [total_funds], ends with a [KeyError] before any message. *)
Theorem classification_completion_without_session
    (validate : string -> pyval -> option pyval)
    (self : ChatOrchestrator) (message : AgentMessage)
    (categorization_data summary : pyobject) (needs_review avg_confidence : Q) (now : Z) :
  categorization_session self = None ->
  data message !! "categorization_data" = Some (PDict categorization_data) ->
  categorization_data !! "summary" = Some (PDict summary) ->
  summary !! "requires_user_input" = Some (PNum needs_review) ->
  summary !! "average_confidence" = Some (PNum avg_confidence) ->
  let r := _handle_classification_completion validate message now self in
  (0 < needs_review \/ avg_confidence < 0.8 ->
   (exists rest,
      trace r = (review_notice self (PNum needs_review), USER_REVIEW_NEEDED) :: rest) /\
   conversation_stage (final r) = CATEGORIZATION_REVIEW) /\
  (needs_review <= 0 -> 0.8 <= avg_confidence ->
   conversation_stage (final r) = CATEGORIZATION_COMPLETE /\
   match summary !! "total_funds" with
   | Some total_funds =>
       trace r = [ (complete_notice self total_funds, CATEGORIZATION_COMPLETE);
                   (_create_categorization_results_message
                      (with_stage self CATEGORIZATION_COMPLETE) (PDict categorization_data),
                    CATEGORIZATION_COMPLETE) ] /\
       ending r = Ok tt
   | None => trace r = [] /\ ending r = Raise "KeyError"
   end).
Proof.
  intros Hs Hdata Hsum Hneeds Havg. cbv zeta.
  rewrite (classification_completion_decision validate self message categorization_data
             summary needs_review avg_confidence now Hs Hdata Hsum Hneeds Havg).
  cbv zeta. split.
  - intros Hreview.
    assert (Hb : Py.Qlt_bool 0 needs_review || Py.Qlt_bool avg_confidence 0.8 = true).
    { apply orb_true_iff. destruct Hreview as [H | H]; [left | right];
        apply Py.Qlt_bool_true, H. }
    rewrite Hb.
    rewrite (gen_bind_ok _ _ (with_stage self CLASSIFICATION_COMPLETED) []
               (with_stage self USER_REVIEW_NEEDED) tt) by reflexivity.
    rewrite (gen_bind_ok _ _ (with_stage self USER_REVIEW_NEEDED)
               [(review_notice self (PNum needs_review), USER_REVIEW_NEEDED)]
               (with_stage self USER_REVIEW_NEEDED) tt) by reflexivity.
    cbn [app trace final ending]. split; [eexists; reflexivity |].
    apply start_user_review_process_stage.
  - intros Hn Ha.
    assert (Hb : Py.Qlt_bool 0 needs_review || Py.Qlt_bool avg_confidence 0.8 = false).
    { apply orb_false_iff. split; apply Py.Qlt_bool_false; assumption. }
    rewrite Hb.
    rewrite (gen_bind_ok _ _ (with_stage self CLASSIFICATION_COMPLETED) []
               (with_stage self CATEGORIZATION_COMPLETE) tt) by reflexivity.
    cbn [index]. destruct (summary !! "total_funds") as [total_funds |].
    + rewrite (gen_bind_ok _ _ (with_stage self CATEGORIZATION_COMPLETE) []
                 (with_stage self CATEGORIZATION_COMPLETE) total_funds) by reflexivity.
      repeat split.
    + rewrite (gen_bind_raise _ _ (with_stage self CATEGORIZATION_COMPLETE) []
                 (with_stage self CATEGORIZATION_COMPLETE) "KeyError") by reflexivity.
      repeat split.
Qed.

Definition confident_summary : pyobject :=
  list_to_map
    [ ("total_funds", PNum 3); ("average_confidence", PNum 0.92);
      ("requires_user_input", PNum 0) ].

Definition confident_message : AgentMessage :=
  mkAgentMessage DATA_PROCESSED (Some CHAT_ORCHESTRATOR) None
    (list_to_map
       [ ("categorization_data",
          PDict (list_to_map [("classifications", PList []);
                              ("summary", PDict confident_summary)])) ])
    "3f2b8c1e-session".

Lemma classification_completion_without_session_witness :
  conversation_stage
    (final (_handle_classification_completion (fun _ v => Some v) confident_message 9
              (new "3f2b8c1e-session")))
  = CATEGORIZATION_COMPLETE.
Proof.
  pose proof (classification_completion_without_session (fun _ v => Some v)
                (new "3f2b8c1e-session") confident_message
                (list_to_map [("classifications", PList []);
                              ("summary", PDict confident_summary)])
                confident_summary 0 0.92 9
                eq_refl eq_refl eq_refl eq_refl eq_refl) as H.
  cbv zeta in H. destruct H as [_ H].
  apply H; vm_compute; discriminate.
Defined.

(** *** What [process] does with the other message types *)

(** [process] sends a STATUS_UPDATE message on under the name of
    the orchestrator, with the data and the session of the original, and
    answers nothing to a VALIDATION_RESULT or a CHAT_RESPONSE message;
    the state of the orchestrator stays as it is in the three cases. *)
Lemma process_forwards_status_and_ignores_others
    (validate : string -> pyval -> option pyval)
    (classification_agent : AgentMessage -> list (MessageType * option AgentType * pyobject))
    (_handle_user_action _handle_intake_completion _handle_extraction_completion
       : AgentMessage -> Z -> Gen unit)
    (self : ChatOrchestrator) (message : AgentMessage) (now : Z) :
  let r := process validate classification_agent _handle_user_action
                   _handle_intake_completion _handle_extraction_completion
                   message now self in
  (type message = STATUS_UPDATE ->
   trace r = [(mkAgentMessage STATUS_UPDATE (Some CHAT_ORCHESTRATOR) None (data message)
                              (self_session_id self),
               conversation_stage self)] /\
   final r = self /\ ending r = Ok tt) /\
  (type message = VALIDATION_RESULT \/ type message = CHAT_RESPONSE ->
   trace r = [] /\ final r = self /\ ending r = Ok tt).
Proof.
  cbv zeta. unfold process. split.
  - intros ->. repeat split.
  - intros [-> | ->]; repeat split.
Qed.

(** *** The answers of the classification agent *)

Definition research_completed_notice (self : ChatOrchestrator) : AgentMessage :=
  create_message (base self) CHAT_RESPONSE None
    (list_to_map
       [ ("message", PStr "Research completed! Now I'll classify your funds into asset categories...");
         ("message_type", PStr "success") ]).

Lemma forward_classification_drops (validate : string -> pyval -> option pyval)
    (responses : list AgentMessage) (now : Z) (self : ChatOrchestrator) :
  Forall (fun response => type response <> STATUS_UPDATE /\ type response <> DATA_PROCESSED)
         responses ->
  forward_classification validate responses now self = mkRun [] self (Ok tt).
Proof.
  induction 1 as [| response responses [Hs Hd] _ IH]; cbn [forward_classification];
    [reflexivity |].
  rewrite (gen_bind_ok _ _ self [] self tt).
  - rewrite IH. reflexivity.
  - destruct (type response); try reflexivity; contradiction.
Qed.


(** A classification agent that fails with an error message. *)
Definition failing_agent (message : AgentMessage)
  : list (MessageType * option AgentType * pyobject) :=
  [ (ERROR, None,
     list_to_map [("error", PStr "Classification failed: no research data");
                  ("agent", PStr "chat_orchestrator")]) ].


(** *** The review with nothing to ask *)

(** X24: when [interaction_needed] is absent from the categorization
    data, or is empty, [_start_user_review_process] yields the final
    results at once and ends in the stage CATEGORIZATION_REVIEW, not in
    CATEGORIZATION_COMPLETE. *)
Theorem review_with_nothing_flagged (categorization_data : pyobject)
    (interaction_needed : pyval) (now : Z) (self : ChatOrchestrator) :
  get (PDict categorization_data) "interaction_needed" (PList []) = Some interaction_needed ->
  truthy interaction_needed = false ->
  let r := _start_user_review_process (PDict categorization_data) now self in
  trace r = [ (_create_categorization_results_message
                 (with_stage self CATEGORIZATION_REVIEW) (PDict categorization_data),
               CATEGORIZATION_REVIEW) ] /\
  final r = with_stage self CATEGORIZATION_REVIEW /\
  conversation_stage (final r) <> CATEGORIZATION_COMPLETE /\
  ending r = Ok tt.
Proof.
  intros Hget Hfalsy. cbv zeta. unfold _start_user_review_process.
  rewrite (gen_bind_ok _ _ self [] (with_stage self CATEGORIZATION_REVIEW) tt) by reflexivity.
  rewrite Hget, Hfalsy. cbn [negb]. repeat split. discriminate.
Qed.

(** Categorization data without the key [interaction_needed]. *)
Definition unflagged_data : pyobject :=
  list_to_map [("summary", PDict confident_summary)].

Lemma review_with_nothing_flagged_witness :
  conversation_stage
    (final (_start_user_review_process (PDict unflagged_data) 9 (new "3f2b8c1e-session")))
  = CATEGORIZATION_REVIEW.
Proof.
  destruct (review_with_nothing_flagged unflagged_data (PList []) 9
              (new "3f2b8c1e-session") ltac:(vm_compute; reflexivity) eq_refl)
    as (_ & -> & _).
  reflexivity.
Defined.

(** *** The approval of the classifications *)

Definition approval_notice (self : ChatOrchestrator) : AgentMessage :=
  create_message (base self) CHAT_RESPONSE None
    (list_to_map
       [ ("message", PStr "Perfect! Your portfolio categorization is now complete. Here's your final summary:");
         ("message_type", PStr "success") ]).

(** X25: [_handle_classifications_approval] sets the stage
    CATEGORIZATION_COMPLETE and yields its notice in that stage. Without
    a session nothing follows; with a session that holds a
    categorization the run ends there with the [AttributeError] of
    [to_dict], and no results are sent; with a session that holds none
    the results follow. *)
Theorem approval_sets_stage_complete (message : AgentMessage) (self : ChatOrchestrator) :
  let r := _handle_classifications_approval message self in
  final r = with_stage self CATEGORIZATION_COMPLETE /\
  (exists rest, trace r = (approval_notice self, CATEGORIZATION_COMPLETE) :: rest) /\
  match categorization_session self with
  | None => trace r = [(approval_notice self, CATEGORIZATION_COMPLETE)] /\ ending r = Ok tt
  | Some session =>
      (fund_categorizations session <> ∅ ->
       trace r = [(approval_notice self, CATEGORIZATION_COMPLETE)] /\
       ending r = Raise "AttributeError") /\
      (fund_categorizations session = ∅ ->
       exists results,
         trace r = [ (approval_notice self, CATEGORIZATION_COMPLETE);
                     (results, CATEGORIZATION_COMPLETE) ] /\
         data results !! "type" = Some (PStr "categorization_complete") /\
         ending r = Ok tt)
  end.
Proof.
  cbv zeta. unfold _handle_classifications_approval.
  rewrite (gen_bind_ok _ _ self [] (with_stage self CATEGORIZATION_COMPLETE) tt)
    by reflexivity.
  rewrite (gen_bind_ok _ _ (with_stage self CATEGORIZATION_COMPLETE)
             [(approval_notice self, CATEGORIZATION_COMPLETE)]
             (with_stage self CATEGORIZATION_COMPLETE) tt) by reflexivity.
  rewrite (gen_bind_ok _ _ (with_stage self CATEGORIZATION_COMPLETE) []
             (with_stage self CATEGORIZATION_COMPLETE)
             (with_stage self CATEGORIZATION_COMPLETE)) by reflexivity.
  cbn [categorization_session with_stage app trace final ending].
  destruct (categorization_session self) as [session |]; [| repeat split; eauto].
  destruct (decide (fund_categorizations session = ∅)) as [Hempty | Hne].
  - assert (Hsum : exists summary, get_summary session = Ok summary).
    { unfold get_summary. rewrite Hempty, map_to_list_empty. eexists. reflexivity. }
    destruct Hsum as [summary Hsum].
    unfold mbind, gen_bind, lift, yield. cbn [ending trace final].
    rewrite Hempty, map_to_list_empty. cbn [fmap list_fmap to_dicts ending trace final].
    rewrite Hsum. cbn [ending trace final app].
    split; [reflexivity |]. split; [eauto |].
    split; [intros H; contradiction | intros _].
    eexists. split; [reflexivity |]. split; reflexivity.
  - destruct (nonempty_map_to_list _ Hne) as (c & others & Hl).
    unfold mbind, gen_bind, lift, yield. cbn [ending trace final]. rewrite Hl.
    cbn [to_dicts FundCategorization_to_dict ending trace final app].
    split; [reflexivity |]. split; [eauto |].
    split; [intros _; split; reflexivity | intros H; contradiction].
Qed.

End OrchestratorProperties.

(** ** Further properties of the agents and of the router *)

Module AgentProperties.
Import PyObj Models Agents Orchestrator.
Local Open Scope Q_scope.

(** *** Confidence scores of an agent *)

Lemma clamp_in_unit (score : Q) : 0 <= Py.max 0.0 (Py.min 1.0 score) <= 1.
Proof.
  split.
  - eapply Qle_trans; [| apply Py.max_ge_l]. vm_compute. intro; discriminate.
  - apply Py.max_lub; [vm_compute; intro; discriminate |].
    eapply Qle_trans; [apply Py.min_le_l |]. vm_compute. intro; discriminate.
Qed.

Lemma clamp_id (score : Q) : 0 <= score <= 1 -> Py.max 0.0 (Py.min 1.0 score) == score.
Proof.
  intros [H0 H1].
  destruct (Py.min_spec 1.0 score) as [[Hlt ->] | [Hle ->]];
    destruct (Py.max_spec 0.0 score) as [[Hlt' Hm] | [Hle' Hm]];
    destruct (Py.max_spec 0.0 1.0) as [[Hlt'' Hm'] | [Hle'' Hm']];
    try rewrite Hm; try rewrite Hm'; lra.
Qed.

(** X26: a score stored with [set_confidence_score] is read back by
    [get_confidence_score] clamped to [[0,1]], and unchanged when it lies
    in that interval; the scores of the other operations stay; an
    operation never scored reads 0.0; and an agent without a context
    stores nothing and reads 0.0. *)
Theorem confidence_score_is_clamped (context : AgentContext) (operation : string) (score : Q) :
  let context' := set_confidence_score (Some context) operation score in
  0 <= get_confidence_score context' operation <= 1 /\
  get_confidence_score context' operation = Py.max 0.0 (Py.min 1.0 score) /\
  (0 <= score <= 1 -> get_confidence_score context' operation == score) /\
  (forall other, other <> operation ->
     get_confidence_score context' other = get_confidence_score (Some context) other) /\
  (confidence_scores context !! operation = None ->
   get_confidence_score (Some context) operation = 0.0) /\
  set_confidence_score None operation score = None /\
  get_confidence_score None operation = 0.0.
Proof.
  cbv zeta.
  assert (Hget : get_confidence_score (set_confidence_score (Some context) operation score)
                   operation = Py.max 0.0 (Py.min 1.0 score)).
  { unfold get_confidence_score, set_confidence_score. cbn [confidence_scores].
    rewrite lookup_insert_eq. reflexivity. }
  rewrite Hget. split; [apply clamp_in_unit |]. split; [reflexivity |].
  split; [apply clamp_id |]. split; [| split; [| split; reflexivity]].
  - intros other Hne. unfold get_confidence_score, set_confidence_score.
    cbn [confidence_scores]. rewrite lookup_insert_ne by congruence. reflexivity.
  - intros Hnone. unfold get_confidence_score. rewrite Hnone. reflexivity.
Qed.

(** *** Errors raised by an agent *)

(** X27: the data of the message that [emit_error] builds hold the
    error text and the name of the agent, except that every key of
    [details] wins over them. So when an agent passes details that hold
    an ["error"] of their own, that entry and not the error text is what
    the orchestrator shows to the user. *)
Theorem emit_error_details_win
    (validate : string -> pyval -> option pyval)
    (classification_agent : AgentMessage -> list (MessageType * option AgentType * pyobject))
    (_handle_user_action _handle_intake_completion _handle_extraction_completion
       : AgentMessage -> Z -> Gen unit)
    (agent : BaseAgent) (error : pyval) (details : pyobject)
    (self : ChatOrchestrator) (now : Z) :
  let message := emit_error agent error (Some details) in
  type message = ERROR /\
  sender message = Some (agent_type agent) /\
  session_id message = agent_session_id agent /\
  (forall k, data message !! k =
             match details !! k with
             | Some v => Some v
             | None =>
                 (list_to_map [("error", error);
                               ("agent", PStr (agent_value (agent_type agent)))] : pyobject) !! k
             end) /\
  (forall shown,
     trace (process validate classification_agent _handle_user_action
                    _handle_intake_completion _handle_extraction_completion
                    message now self)
     = [(shown, conversation_stage self)] ->
     data shown !! "message" =
     Some (PFmt "{} in {} agent."
                [ match details !! "error" with Some v => v | None => error end;
                  PStr (agent_value (agent_type agent)) ])).
Proof.
  cbv zeta.
  assert (Hdata : forall k, data (emit_error agent error (Some details)) !! k =
             match details !! k with
             | Some v => Some v
             | None =>
                 (list_to_map [("error", error);
                               ("agent", PStr (agent_value (agent_type agent)))] : pyobject) !! k
             end).
  { intros k. unfold emit_error, create_message. cbn [data].
    destruct (decide (details = ∅)) as [-> | Hne].
    - rewrite bool_decide_eq_true_2 by reflexivity. rewrite lookup_empty. reflexivity.
    - rewrite bool_decide_eq_false_2 by exact Hne.
      rewrite lookup_union. destruct (details !! k) as [v |].
      + destruct (_ !! k); reflexivity.
      + destruct (_ !! k); reflexivity. }
  split; [reflexivity |]. split; [reflexivity |]. split; [reflexivity |].
  split; [exact Hdata |].
  intros shown.
  assert (Htype : type (emit_error agent error (Some details)) = ERROR) by reflexivity.
  assert (Hsender : sender (emit_error agent error (Some details))
                    = Some (agent_type agent)) by reflexivity.
  pose proof (Hdata "error") as Herr.
  remember (emit_error agent error (Some details)) as message eqn:Hm in *. clear Hm.
  unfold process. rewrite Htype.
  unfold _handle_error, yield_chat, mbind, gen_bind, get_self, yield.
  cbn [trace final ending app]. intros [= <-]. cbn [data create_message].
  rewrite Herr, Hsender. destruct (details !! "error"); reflexivity.
Qed.

End AgentProperties.

Module RouterProperties.
Import PyObj Models Agents Orchestrator Router.

Section Endpoints.

Variable process : AgentMessage -> Z -> Gen unit.

(** X28: once [delete_session] has run for an identifier, the four
    endpoints that take a session refuse it with the status 404, until
    the identifier is issued again; the sessions under other
    identifiers are untouched. *)
Theorem deleted_session_is_refused (session_id : string) (r : Router)
    (message file_path file_type : string) (metadata : pyobject) (now : Z) :
  let r' := delete_session session_id r in
  start_processing session_id r' = Raise "HTTPException(404)" /\
  send_chat_message process session_id message metadata now r' = Raise "HTTPException(404)" /\
  enhanced_stream process session_id now r' = Raise "HTTPException(404)" /\
  upload_portfolio_file session_id file_path file_type r' = Raise "HTTPException(404)" /\
  (forall other, other <> session_id ->
     active_sessions r' !! other = active_sessions r !! other /\
     session_data r' !! other = session_data r !! other).
Proof.
  cbv zeta.
  assert (Hgone : active_sessions (delete_session session_id r) !! session_id = None).
  { unfold delete_session. cbn [active_sessions].
    destruct (active_sessions r !! session_id) eqn:E; [apply lookup_delete_eq | exact E]. }
  unfold start_processing, send_chat_message, enhanced_stream, upload_portfolio_file.
  rewrite Hgone. repeat split.
  - unfold delete_session. cbn [active_sessions].
    destruct (active_sessions r !! session_id); [| reflexivity].
    apply lookup_delete_ne. congruence.
  - unfold delete_session. cbn [session_data].
    destruct (session_data r !! session_id); [| reflexivity].
    apply lookup_delete_ne. congruence.
Qed.

(** X29: a session just created has no file: [start_processing]
    refuses it with the status 400. After [upload_portfolio_file] has
    stored a file for the session, [start_processing] builds the
    REQUEST_ACTION message [upload_file] with the path and the type of
    that file, under the identifier of the session. *)
Theorem processing_needs_upload (uuid file_path file_type : string) (r : Router) :
  file_path <> ""%string ->
  start_processing uuid (create_session uuid r) = Raise "HTTPException(400)" /\
  exists r',
    upload_portfolio_file uuid file_path file_type (create_session uuid r) = Ok r' /\
    exists message,
      start_processing uuid r' = Ok message /\
      type message = REQUEST_ACTION /\
      session_id message = uuid /\
      data message !! "action" = Some (PStr "upload_file") /\
      data message !! "file_path" = Some (PStr file_path) /\
      data message !! "file_type" = Some (PStr file_type).
Proof.
  intros Hpath. split.
  - unfold start_processing, create_session. cbn [active_sessions session_data].
    rewrite !lookup_insert_eq. reflexivity.
  - unfold upload_portfolio_file, create_session. cbn [active_sessions session_data].
    rewrite !lookup_insert_eq. eexists. split; [reflexivity |].
    unfold start_processing. cbn [active_sessions session_data].
    rewrite !lookup_insert_eq. unfold has_file. cbn [input_file_path].
    destruct (String.eqb_spec file_path "") as [H | _]; [contradiction |].
    cbn [negb]. eexists. split; [reflexivity |]. repeat split.
Qed.

End Endpoints.

Lemma processing_needs_upload_witness :
  start_processing "3f2b8c1e-7a4d-4e0b-9c55-1d2e3f4a5b6c"
    (create_session "3f2b8c1e-7a4d-4e0b-9c55-1d2e3f4a5b6c" empty)
  = Raise "HTTPException(400)".
Proof.
  apply (processing_needs_upload "3f2b8c1e-7a4d-4e0b-9c55-1d2e3f4a5b6c"
           "/app/data/uploads/portfolio.csv" "csv" empty).
  discriminate.
Defined.

End RouterProperties.
